(** * ml-practices: dataset splitting, NFNet training utilities, VAE model

    A shallow embedding of
      - lab2/imgclf/dataset/dataset.py   (class Dataset),
      - lab2/nfnet/nfnet_model_utils.py  (class NfnetModelUtils),
      - lab2/nfnet/config.py             (class NfnetConfig),
      - lab3/vae/model.py                (Encoder, Decoder, VariationalAutoencoder),
    with the properties the specification states about them.

    Python floats are IEEE 754 binary64 numbers; they are modelled with the
    executable specification [SpecFloat] at precision 53 and exponent bound
    1024, so that [int(num_samples * train_ratio)] and
    [split_ratio[1] / (1 - split_ratio[0])] round exactly as they do in the
    program.  Python exceptions are values of type [exn]; a computation that
    may raise has a sum type.  Dataframes are objects in a store, because
    [Dataset.__init__] assigns to a column of the object it is given.  The
    calls into torch, torchvision and PIL are the fields of a record
    [Library]; each of them may raise.  The library's data loader is
    modelled around the repository's [__getitem__], which it runs for every
    item of every batch. *)

From Stdlib Require Import ZArith Bool Lia SpecFloat.
From stdpp Require Import gmap strings list.

Local Open Scope Z_scope.

(** ** Python floats *)

Module F64.

Definition prec : Z := 53.
Definition emax : Z := 1024.

Definition float := spec_float.

(** [float(z)] for a Python int, rounded to nearest even. *)
Definition of_Z (z : Z) : float := binary_normalize prec emax z 0 false.

Definition add : float -> float -> float := SFadd prec emax.
Definition sub : float -> float -> float := SFsub prec emax.
Definition mul : float -> float -> float := SFmul prec emax.
Definition div : float -> float -> float := SFdiv prec emax.

Definition ltb : float -> float -> bool := SFltb.
Definition leb : float -> float -> bool := SFleb.

Definition zero : float := S754_zero false.
Definition one : float := of_Z 1.

Definition is_nan (x : float) : bool :=
  match x with S754_nan => true | _ => false end.

Definition is_zero (x : float) : bool :=
  match x with S754_zero _ => true | _ => false end.

Definition is_finite (x : float) : bool :=
  match x with S754_zero _ | S754_finite _ _ _ => true | _ => false end.

(** The magnitude [m * 2^e] with its fraction dropped. *)
Definition magnitude (m : positive) (e : Z) : Z :=
  match e with
  | Zneg p => Z.shiftr (Zpos m) (Zpos p)
  | _ => Z.shiftl (Zpos m) e
  end.

(** Rounding toward zero, as [int(x)] does on a finite float. *)
Definition trunc (x : float) : option Z :=
  match x with
  | S754_zero _ => Some 0
  | S754_finite s m e => Some (cond_Zopp s (magnitude m e))
  | _ => None
  end.

(** Rounding toward minus infinity, [math.floor(x)]. *)
Definition floor (x : float) : option Z :=
  match x with
  | S754_zero _ => Some 0
  | S754_finite s m e =>
      Some match e with
           | Zneg p => Z.shiftr (cond_Zopp s (Zpos m)) (Zpos p)
           | _ => cond_Zopp s (Z.shiftl (Zpos m) e)
           end
  | _ => None
  end.

(** The decimal literal [n / d], e.g. [0.7] is [lit 7 10]: a correctly
    rounded quotient of two exactly representable integers is the double
    nearest to the decimal. *)
Definition lit (n d : Z) : float := div (of_Z n) (of_Z d).

End F64.

Abbreviation float := F64.float.

(** ** Exceptions *)

(** Who executed the [raise] (or the failing [assert]). *)
Inductive raiser : Set :=
| Repository      (* a statement of this repository *)
| Interpreter     (* a Python builtin operation *)
| Pandas
| Sklearn
| Torch
| Nfnets.

Inductive exn_kind : Set :=
| AssertionError
| ValueError
| KeyError
| TypeError
| IndexError
| OverflowError
| ZeroDivisionError
| ImportError
| RuntimeError
| NameError.

Record exn : Set := Raise { kind : exn_kind; raised_by : raiser }.

Definition result (A : Type) : Type := exn + A.

Definition ok {A} (a : A) : result A := inr a.
Definition raise {A} (k : exn_kind) (r : raiser) : result A := inl (Raise k r).

Definition rbind {A B} (c : result A) (k : A -> result B) : result B :=
  match c with
  | inl e => inl e
  | inr a => k a
  end.

Notation "'run' x <- c ; k" := (rbind c (fun x => k))
  (at level 10, x name, c at level 100, k at level 200).
Notation "'run' ' p <- c ; k" := (rbind c (fun x => let 'p := x in k))
  (at level 10, p pattern, c at level 100, k at level 200).

(** [assert b]: an [AssertionError] raised by the repository's own statement. *)
Definition py_assert (b : bool) : result unit :=
  if b then ok tt else raise AssertionError Repository.

(** ** Python numbers *)

(** [int(x)] on a float. *)
Definition py_int (x : float) : result Z :=
  match F64.trunc x with
  | Some z => ok z
  | None => if F64.is_nan x then raise ValueError Interpreter
            else raise OverflowError Interpreter
  end.

(** The implicit conversion of an int operand in mixed arithmetic. *)
Definition py_float_of_int (z : Z) : result float :=
  let x := F64.of_Z z in
  if F64.is_finite x then ok x else raise OverflowError Interpreter.

(** [x / y] on floats. *)
Definition py_fdiv (x y : float) : result float :=
  if F64.is_zero y then raise ZeroDivisionError Interpreter
  else ok (F64.div x y).

(** [x / n] with a float [x] and an int [n]: the int is converted, and a
    zero divisor raises (the converted int is 0.0 exactly when [n] is 0). *)
Definition py_fdiv_int (x : float) (n : Z) : result float :=
  run y <- py_float_of_int n;
  if n =? 0 then raise ZeroDivisionError Interpreter
  else ok (F64.div x y).

(** [a / b] on ints: the correctly rounded quotient. *)
Definition py_truediv (a b : Z) : result float :=
  if b =? 0 then raise ZeroDivisionError Interpreter
  else
    let q := F64.div (match a with
                      | Z0 => S754_zero false
                      | Zpos p => S754_finite false p 0
                      | Zneg p => S754_finite true p 0
                      end)
                     (match b with
                      | Zneg p => S754_finite true p 0
                      | Zpos p => S754_finite false p 0
                      | Z0 => S754_zero false
                      end) in
    if F64.is_finite q then ok q else raise OverflowError Interpreter.

(** A number as an argument of a library call: an int or a float. *)
Inductive pynum : Set :=
| PInt (z : Z)
| PFloat (x : float).

(** [n == 0] *)
Definition num_is_zero (n : pynum) : bool :=
  match n with
  | PInt z => z =? 0
  | PFloat x => F64.is_zero x
  end.

(** [t[i]] on a tuple, negative indices counting from the end. *)
Definition py_index {A} (t : list A) (i : Z) : result A :=
  let j := if i <? 0 then i + Z.of_nat (length t) else i in
  if j <? 0 then raise IndexError Interpreter
  else match t !! Z.to_nat j with
       | Some a => ok a
       | None => raise IndexError Interpreter
       end.

(** [a // b] on ints. *)
Definition py_floordiv (a b : Z) : result Z :=
  if b =? 0 then raise ZeroDivisionError Interpreter else ok (a / b).

(** ** Dataframes *)

Inductive dtype : Set :=
| Int8 | Int16 | Int32 | Int64
| UInt8 | UInt16 | UInt32 | UInt64
| Float64 | Bool_ | Object_.

(** [np.issubdtype(d, np.integer)] *)
Definition is_integer_dtype (d : dtype) : bool :=
  match d with
  | Int8 | Int16 | Int32 | Int64 | UInt8 | UInt16 | UInt32 | UInt64 => true
  | Float64 | Bool_ | Object_ => false
  end.

Inductive cell : Set :=
| CInt (z : Z)
| CFloat (x : float)
| CBool (b : bool)
| CStr (s : string).

Record Series : Set := mkSeries { s_dtype : dtype; s_values : list cell }.

(** A dataframe: the row labels, the columns by name, and the names in the
    order of [df.columns].  Every column is as long as the index. *)
Record DataFrame : Type := mkDataFrame {
  df_index : list Z;
  df_columns : gmap string Series;
  df_order : list string
}.

(** [df.shape[0]] *)
Definition nrows (d : DataFrame) : nat := length (df_index d).

(** The 64-bit two's complement value numpy stores for an integer. *)
Definition wrap_int64 (z : Z) : Z := (z + 2 ^ 63) mod 2 ^ 64 - 2 ^ 63.

Definition cast_cell_int64 (c : cell) : cell :=
  match c with
  | CInt z => CInt (wrap_int64 z)
  | _ => c
  end.

(** [s.astype(np.int64)] on a column of integer dtype. *)
Definition astype_int64 (s : Series) : Series :=
  mkSeries Int64 (cast_cell_int64 <$> s_values s).

(** [df[name] = s], on a copy of the record; the caller stores it back.  A
    column that exists keeps its place, a new one comes last. *)
Definition set_column (name : string) (s : Series) (d : DataFrame) : DataFrame :=
  mkDataFrame (df_index d) (<[name := s]> (df_columns d))
    (match df_columns d !! name with
     | Some _ => df_order d
     | None => df_order d ++ [name]
     end).

(** The entries of [l] at the positions [pos], in the order of [pos]. *)
Definition select {A} (pos : list nat) (l : list A) : list A :=
  omap (fun i : nat => l !! i) pos.

Definition take_rows (pos : list nat) (d : DataFrame) : DataFrame :=
  mkDataFrame (select pos (df_index d))
              ((fun s => mkSeries (s_dtype s) (select pos (s_values s)))
                 <$> df_columns d)
              (df_order d).

(** [df.iloc[pos]]: a new dataframe; a position past the end raises. *)
Definition iloc (pos : list nat) (d : DataFrame) : result DataFrame :=
  if forallb (fun i => Nat.ltb i (nrows d)) pos
  then ok (take_rows pos d)
  else raise IndexError Pandas.

(** Row [i] of a dataframe: its label and its cell in every column. *)
Definition row (d : DataFrame) (i : nat) : option Z * gmap string cell :=
  (df_index d !! i, omap (fun s => s_values s !! i) (df_columns d)).

(** ** The object store *)

Abbreviation loc := nat.
Abbreviation store := (gmap nat DataFrame).

(** Computations that read and write dataframe objects and may raise. *)
Definition M (A : Type) : Type := store -> result (A * store).

Definition ret {A} (a : A) : M A := fun σ => ok (a, σ).

Definition bind {A B} (c : M A) (k : A -> M B) : M B :=
  fun σ => match c σ with
           | inl e => inl e
           | inr (a, σ') => k a σ'
           end.

Definition lift {A} (c : result A) : M A :=
  fun σ => match c with
           | inl e => inl e
           | inr a => ok (a, σ)
           end.

Notation "'do' x <- c ; k" := (bind c (fun x => k))
  (at level 10, x name, c at level 100, k at level 200).
Notation "'do' ' p <- c ; k" := (bind c (fun x => let 'p := x in k))
  (at level 10, p pattern, c at level 100, k at level 200).

(** A new object. *)
Definition alloc (d : DataFrame) : M loc :=
  fun σ => let l := fresh (dom σ) in ok (l, <[l := d]> σ).

(** The object behind a reference.  A reference of a running program always
    has one; the error case only makes the function total. *)
Definition deref (l : loc) : M DataFrame :=
  fun σ => match σ !! l with
           | Some d => ok (d, σ)
           | None => raise NameError Interpreter
           end.

Definition assign (l : loc) (d : DataFrame) : M unit :=
  fun σ => ok (tt, <[l := d]> σ).

(** ** sklearn.model_selection.train_test_split *)

(** Library code, modelled from its documented behaviour for the one way the
    repository calls it: [train_size] an int, [test_size] absent,
    [shuffle=True], no stratification.  The random permutation
    [RandomState(seed).permutation(n)] is a parameter. *)
Section Sklearn.

Variable permutation : Z -> nat -> list nat.

(** [_validate_shuffle_split]: an int [train_size] must lie strictly
    between 0 and the number of samples. *)
Definition validate_shuffle_split (n_samples train_size : Z) : result (Z * Z) :=
  if (train_size >=? n_samples) || (train_size <=? 0)
  then raise ValueError Sklearn
  else
    let n_train := train_size in
    let n_test := n_samples - n_train in
    if n_train =? 0 then raise ValueError Sklearn
    else ok (n_train, n_test).

(** [ShuffleSplit]: the test rows are the first [n_test] entries of the
    permutation, the train rows the next [n_train]. *)
Definition shuffle_split (seed : Z) (n : nat) (n_train n_test : Z)
  : list nat * list nat :=
  let perm := permutation seed n in
  let ind_test := take (Z.to_nat n_test) perm in
  let ind_train := take (Z.to_nat n_train) (drop (Z.to_nat n_test) perm) in
  (ind_train, ind_test).

Definition sk_train_test_split (d : DataFrame) (train_size seed : Z)
  : result (DataFrame * DataFrame) :=
  run '(n_train, n_test) <-
    validate_shuffle_split (Z.of_nat (nrows d)) train_size;
  let '(ind_train, ind_test) := shuffle_split seed (nrows d) n_train n_test in
  run train <- iloc ind_train d;
  run test <- iloc ind_test d;
  ok (train, test).

End Sklearn.

(** ** lab2/imgclf/dataset/dataset.py *)

(** Modelled from the spec: [DatasetConfig] of imgclf/dataset/config.py,
    which is not among the sources; the fields are those [data_loader]
    reads. *)
Record DatasetConfig : Type := mkDatasetConfig {
  batch_size : gmap string Z;
  num_workers : Z;
  persistent_workers : bool;
  pin_memory : bool
}.

(** A [transforms.Compose]: one of the two class attributes, or one the
    caller made. *)
Inductive Compose : Set :=
| TRAIN_TRANSFORM
| EVAL_TRANSFORM
| custom (id : nat).

Record Dataset : Type := mkDataset {
  mode : string;
  df : loc;
  transform : Compose;
  config : DatasetConfig
}.

Definition known_mode (m : string) : bool :=
  bool_decide (m = "train") || bool_decide (m = "eval")
  || bool_decide (m = "inference").

(** [Dataset.__init__] *)
Definition Dataset_init (frame : loc) (config : DatasetConfig)
    (mode : string) (tr : option Compose) : M Dataset :=
  do _ <- lift (py_assert (known_mode mode));
  do d <- deref frame;
  do _ <- lift (py_assert (bool_decide (is_Some (df_columns d !! "img"))));
  do _ <- (if negb (bool_decide (mode = "inference")) then
             do label <- lift (match df_columns d !! "label" with
                               | Some s => ok s
                               | None => raise KeyError Pandas
                               end);
             do _ <- lift (py_assert (is_integer_dtype (s_dtype label)));
             assign frame (set_column "label" (astype_int64 label) d)
           else ret tt);
  let transform :=
    match tr with
    | None => if bool_decide (mode = "train") then TRAIN_TRANSFORM
              else EVAL_TRANSFORM
    | Some t => t
    end in
  ret (mkDataset mode frame transform config).

Definition SEED : Z := 0xAAAAAAAA.

Section Splitting.

(** [RandomState(SEED).permutation(n)], the shuffle of the library split. *)
Variable permutation : Z -> nat -> list nat.

(** [int(num_samples * train_ratio)] *)
Definition train_set_size (num_samples : nat) (train_ratio : float) : result Z :=
  run n <- py_float_of_int (Z.of_nat num_samples);
  py_int (F64.mul n train_ratio).

Definition default_modes : string * string := ("train", "eval").

(** [Dataset.train_test_split] *)
Definition train_test_split (frame : loc) (train_ratio : float)
    (config : DatasetConfig)
    (transforms_f : option (option Compose * option Compose))
    (modes : string * string) : M (Dataset * Dataset) :=
  do _ <- lift (py_assert (F64.ltb train_ratio F64.one));
  do d <- deref frame;
  let num_samples := nrows d in
  do size <- lift (train_set_size num_samples train_ratio);
  do '(train_d, eval_d) <- lift (sk_train_test_split permutation d size SEED);
  do train_df <- alloc train_d;
  do eval_df <- alloc eval_d;
  let transforms_f :=
    match transforms_f with
    | None => (None, None)
    | Some t => t
    end in
  do train_set <- Dataset_init train_df config (fst modes) (fst transforms_f);
  do eval_set <- Dataset_init eval_df config (snd modes) (snd transforms_f);
  ret (train_set, eval_set).

(** [sum(split_ratio)]: the builtin starts from the int 0. *)
Definition sumation (split_ratio : float * float) : float :=
  F64.add (F64.add (F64.of_Z 0) (fst split_ratio)) (snd split_ratio).

(** [split_ratio[1] / (1 - split_ratio[0])] *)
Definition valid_set_ratio (split_ratio : float * float) : result float :=
  py_fdiv (snd split_ratio) (F64.sub (F64.of_Z 1) (fst split_ratio)).

(** [Dataset.split] *)
Definition split (frame : loc) (split_ratio : float * float)
    (config : DatasetConfig)
    (transforms_f : option (option Compose * option Compose))
  : M (Dataset * Dataset * Dataset) :=
  do _ <- lift (py_assert (F64.leb (sumation split_ratio) F64.one));
  do '(train_set, eval_set) <-
       train_test_split frame (fst split_ratio) config transforms_f default_modes;
  do ratio <- lift (valid_set_ratio split_ratio);
  do '(valid_set, test_set) <-
       train_test_split (df eval_set) ratio config transforms_f
                        ("eval", "eval");
  ret (train_set, valid_set, test_set).

End Splitting.

(** [len(dataset)] *)
Definition Dataset_len (ds : Dataset) : M Z :=
  do d <- deref (df ds);
  ret (Z.of_nat (nrows d)).




(** ** torch, torchvision and PIL *)

Section Libraries.

Context {Image Tensor Torch : Type}.

(** What the data loader and the epochs call of the libraries.  A [Tensor]
    is a tensor, an [Image] a PIL image, and [Torch] the state of the library
    objects that a call may change: the parameters of the model, the
    optimizer, the gradient scaler and the random generators.  Every call
    may raise. *)
Record Library : Type := mkLibrary {
  Image_open_RGB : cell -> result Image;
                          (* Image.open(imgpath).convert("RGB") *)
  apply_transform : Compose -> Image -> Torch -> result (Tensor * Torch);
                          (* self.transform(img) *)
  randperm : nat -> Torch -> result (list nat * Torch);
                          (* the order a RandomSampler draws for n positions *)
  collate : bool -> list (Tensor * cell) -> result (Tensor * Tensor);
                          (* default_collate, and pinning if asked *)
  model_train : Torch -> result Torch;         (* self.model.train() *)
  model_eval : Torch -> result Torch;          (* self.model.eval() *)
  half : Tensor -> result Tensor;              (* t.half() *)
  to : string -> Tensor -> result Tensor;      (* t.to(device) *)
  zero_grad : Torch -> result Torch;           (* self.optimizer.zero_grad() *)
  model_call : bool -> Torch -> Tensor -> result (Tensor * Torch);
                          (* self.model(inputs) under amp.autocast(enabled) *)
  model_call_no_grad : Torch -> Tensor -> result (Tensor * Torch);
                          (* self.model(inputs) under torch.no_grad() *)
  criterion : Tensor -> Tensor -> result Tensor;
  criterion_forward : Tensor -> Tensor -> result Tensor;
  scale_backward : Torch -> Tensor -> result Torch;
                          (* self.scaler.scale(loss).backward() *)
  scaler_step : Torch -> result Torch;         (* self.scaler.step(self.optimizer) *)
  scaler_update : Torch -> result Torch;       (* self.scaler.update() *)
  type_float32 : Tensor -> result Tensor;      (* t.type(torch.float32) *)
  item : Tensor -> result float;               (* loss.item() *)
  size0 : Tensor -> result Z;                  (* inputs.size(0) *)
  argmax1 : Tensor -> result Tensor;           (* torch.max(output, 1)[1] *)
  count_equal : Tensor -> Tensor -> result Z   (* (predicted == targets).sum().item() *)
}.

End Libraries.

Arguments Library : clear implicits.

(** A [DataLoader]: the arguments it was built with. *)
Record DataLoader : Type := mkDataLoader {
  dl_dataset : Dataset;
  dl_batch_size : Z;
  dl_shuffle : bool;
  dl_num_workers : Z;
  dl_persistent_workers : bool;
  dl_pin_memory : bool
}.

(** [if refused: raise ValueError], in the library. *)
Definition torch_check (refused : bool) : result unit :=
  if refused then raise ValueError Torch else ok tt.

(** [DataLoader(dataset, batch_size, shuffle, num_workers,
    persistent_workers, pin_memory)], library code, modelled from its
    documented checks: it refuses with a [ValueError] a negative number of
    workers, persistent workers without a worker, a dataset of length 0 when
    it is to shuffle (its [RandomSampler] asks for [len(dataset)]), and a
    batch size that is not positive (its [BatchSampler]). *)
Definition torch_DataLoader (dataset : Dataset) (size : Z) (shuffle : bool)
    (workers : Z) (persistent pin : bool) : M DataLoader :=
  do _ <- lift (torch_check (workers <? 0));
  do _ <- lift (torch_check (persistent && (workers =? 0)));
  do _ <- (if shuffle then
             do n <- Dataset_len dataset;
             lift (torch_check (n <=? 0))
           else ret tt);
  do _ <- lift (torch_check (size <=? 0));
  ret (mkDataLoader dataset size shuffle workers persistent pin).

(** ** lab2/imgclf/dataset/dataset.py: items and loaders *)

(** [df.iloc[index]] with an int: a position past either end raises, a
    negative one counts from the last row. *)
Definition iloc_position (d : DataFrame) (index : Z) : result nat :=
  let n := Z.of_nat (nrows d) in
  let j := if index <? 0 then index + n else index in
  if (j <? 0) || (n <=? j) then raise IndexError Pandas
  else ok (Z.to_nat j).

(** The cells of row [j], in the order of the columns. *)
Definition row_cells (d : DataFrame) (j : nat) : list cell :=
  omap (fun name => s ← df_columns d !! name; s_values s !! j) (df_order d).

(** [a, b = row]: unpacking into two names. *)
Definition unpack2 {A} (values : list A) : result (A * A) :=
  match values with
  | [a; b] => ok (a, b)
  | _ => raise ValueError Interpreter
  end.

(** [df[name]] *)
Definition column (d : DataFrame) (name : string) : result Series :=
  match df_columns d !! name with
  | Some s => ok s
  | None => raise KeyError Pandas
  end.

Section Items.

Context {Image Tensor Torch : Type} (lib : Library Image Tensor Torch).

(** [Dataset.__getitem__]: the item, and the library state after the
    transform.  In mode "inference" the name [label] is not bound; the item
    then carries the index. *)
Definition Dataset_getitem (self : Dataset) (index : Z) (t : Torch)
  : M ((Tensor * cell) * Torch) :=
  do d <- deref (df self);
  do '(imgpath, label) <-
       lift (if negb (bool_decide (mode self = "inference")) then
               run j <- iloc_position d index;
               unpack2 (row_cells d j)
             else
               run img <- column d "img";
               run j <- iloc_position d index;
               match s_values img !! j with
               | Some imgpath => ok (imgpath, CInt index)
               | None => raise IndexError Pandas
               end);
  do img <- lift (Image_open_RGB lib imgpath);
  do '(img, t) <- lift (apply_transform lib (transform self) img t);
  if negb (bool_decide (mode self = "inference")) then ret ((img, label), t)
  else ret ((img, CInt index), t).

End Items.

(** [Dataset.data_loader] *)
Definition data_loader (self : Dataset) : M DataLoader :=
  let m := if bool_decide (mode self = "inference") then "eval" else mode self in
  do size <- lift (match batch_size (config self) !! m with
                   | Some b => ok b
                   | None => raise KeyError Interpreter
                   end);
  torch_DataLoader self size (bool_decide (mode self = "train"))
    (num_workers (config self)) (persistent_workers (config self))
    (pin_memory (config self)).

(** ** Iterating a [DataLoader] *)

(** Library code around the repository's [__getitem__], modelled from its
    documented behaviour for a dataset with [__getitem__] and [__len__]: the
    sampler gives the positions [0 .. len(dataset) - 1], in this order or,
    when the loader shuffles, in an order drawn from the library state; the
    batch sampler cuts them into batches; each batch is fetched when the loop
    asks for it, item by item with [dataset[i]], and collated.  Worker
    processes compute the same batches in the same order; an exception in a
    worker is raised again where the batch is asked for. *)

(** [BatchSampler.__iter__]: batches of [size] positions, the last one
    shorter when they do not divide. *)
Fixpoint batch_sampler (size : Z) (batch : list nat) (sampler : list nat)
  : list (list nat) :=
  match sampler with
  | [] => match batch with
          | [] => []
          | _ => [batch]
          end
  | idx :: sampler =>
      let batch := batch ++ [idx] in
      if Z.of_nat (length batch) =? size
      then batch :: batch_sampler size [] sampler
      else batch_sampler size batch sampler
  end.

Section Iterating.

Context {Image Tensor Torch : Type} (lib : Library Image Tensor Torch).

(** [iter(dataloader)]: the batches of positions. *)
Definition iterate (dataloader : DataLoader) (t : Torch)
  : M (list (list nat) * Torch) :=
  do n <- Dataset_len (dl_dataset dataloader);
  do '(sampler, t) <-
       lift (if dl_shuffle dataloader then randperm lib (Z.to_nat n) t
             else ok (seq 0 (Z.to_nat n), t));
  ret (batch_sampler (dl_batch_size dataloader) [] sampler, t).

(** [[dataset[idx] for idx in batch]] *)
Fixpoint fetch (dataset : Dataset) (batch : list nat) (t : Torch)
  : M (list (Tensor * cell) * Torch) :=
  match batch with
  | [] => ret ([], t)
  | idx :: batch =>
      do '(data, t) <- Dataset_getitem lib dataset (Z.of_nat idx) t;
      do '(rest, t) <- fetch dataset batch t;
      ret (data :: rest, t)
  end.

(** One batch of the loop: its items fetched and collated. *)
Definition next_batch (dataloader : DataLoader) (batch : list nat) (t : Torch)
  : M ((Tensor * Tensor) * Torch) :=
  do '(data, t) <- fetch (dl_dataset dataloader) batch t;
  do data <- lift (collate lib (dl_pin_memory dataloader) data);
  ret (data, t).

End Iterating.

(** ** lab2/nfnet/config.py *)

(** [NfnetConfig].  Modelled from the spec: the base class [Config] of
    imgclf/config.py is not among the sources; of its fields the record has
    [learning_rate] and [device], which nfnet_model_utils.py reads. *)
Record NfnetConfig : Type := mkNfnetConfig {
  amp : bool;
  variant : string;
  num_class : Z;
  activation : string;
  stochdepth_rate : float;
  alpha : float;
  se_ratio : float;
  use_fp16 : bool;
  overfit : bool;
  momentum : float;
  weight_decay : float;
  nesterov : bool;
  do_clip : bool;
  clipping : option float;
  epochs_per_checkpoint : Z;
  learning_rate : float;
  device : string
}.

(** The class attributes, with the learning rate [train_nfnet] sets. *)
Definition default_NfnetConfig : NfnetConfig :=
  mkNfnetConfig false "F1" 15 "gelu" (F64.lit 25 100) (F64.lit 2 10)
    (F64.lit 5 10) false false (F64.lit 9 10) (F64.lit 2 100000) true true
    (Some (F64.lit 1 10)) 1 (F64.lit 1 1000) "cuda".

(** ** lab2/nfnet/nfnet_model_utils.py: the optimizer *)

Section Optimizer.

(** A parameter tensor of the model. *)
Variable Param : Type.

(** What [_get_optimizer] uses of the model. *)
Record NFNet : Type := mkNFNet {
  named_parameters : list (string * Param);
  exclude_from_weight_decay : string -> bool;
  exclude_from_clipping : string -> bool
}.

(** One dict of [optimizer.param_groups]. *)
Record param_group : Type := mkGroup {
  pg_params : Param;
  pg_name : string;
  pg_lr : float;
  pg_momentum : float;
  pg_dampening : pynum;
  pg_weight_decay : pynum;
  pg_nesterov : bool;
  pg_clipping : option float;
  pg_eps : float
}.

Record Optimizer : Type := mkOptimizer { param_groups : list param_group }.

(** [nfnets.SGD_AGC(named_params, lr, momentum, clipping, weight_decay,
    nesterov)], library code: it checks the hyperparameters, puts every
    named parameter in a group of its own and fills each group with the
    defaults, [dampening=0] and [eps=1e-3] being the ones not passed; the
    base optimizer refuses an empty list. *)
Definition SGD_AGC (named_params : list (string * Param))
    (lr momentum : float) (clipping : option float) (weight_decay : float)
    (nesterov : bool) : result Optimizer :=
  let dampening := PInt 0 in
  if F64.ltb lr F64.zero then raise ValueError Nfnets
  else if F64.ltb momentum F64.zero then raise ValueError Nfnets
  else if F64.ltb weight_decay F64.zero then raise ValueError Nfnets
  else if nesterov && (F64.leb momentum F64.zero || negb (num_is_zero dampening))
  then raise ValueError Nfnets
  else match named_params with
       | [] => raise ValueError Torch
       | _ =>
         ok (mkOptimizer
               ((fun '(name, param) =>
                   mkGroup param name lr momentum dampening (PFloat weight_decay)
                     nesterov clipping (F64.lit 1 1000)) <$> named_params))
       end.

(** The body of the loop over [optimizer.param_groups]. *)
Definition exclude (model : NFNet) (group : param_group) : param_group :=
  let name := pg_name group in
  let group :=
    if exclude_from_weight_decay model name
    then mkGroup (pg_params group) (pg_name group) (pg_lr group)
           (pg_momentum group) (pg_dampening group) (PInt 0)
           (pg_nesterov group) (pg_clipping group) (pg_eps group)
    else group in
  if exclude_from_clipping model name
  then mkGroup (pg_params group) (pg_name group) (pg_lr group)
         (pg_momentum group) (pg_dampening group) (pg_weight_decay group)
         (pg_nesterov group) None (pg_eps group)
  else group.

Fixpoint exclude_all (model : NFNet) (groups : list param_group)
  : list param_group :=
  match groups with
  | [] => []
  | group :: groups => exclude model group :: exclude_all model groups
  end.

(** [NfnetModelUtils._get_optimizer] *)
Definition _get_optimizer (model : NFNet) (config : NfnetConfig)
  : result Optimizer :=
  run optimizer <- SGD_AGC (named_parameters model) (learning_rate config)
                     (momentum config) (clipping config)
                     (weight_decay config) (nesterov config);
  ok (mkOptimizer (exclude_all model (param_groups optimizer))).

End Optimizer.

(** ** lab2/nfnet/nfnet_model_utils.py: one epoch of training *)

Section Utils.

Context {Torch : Type}.

(** What an epoch uses of the object: its config, and the library objects
    it holds (model, optimizer, criterion, scaler), which are part of the
    library state. *)
Record NfnetModelUtils : Type := mkUtils {
  utils_config : NfnetConfig;
  torch : Torch
}.

End Utils.

Arguments NfnetModelUtils : clear implicits.

(** The local variables of the loop of [_train_epoch], and what was
    printed. *)
Record epoch_state : Type := mkEpoch {
  running_loss : float;
  correct_labels : Z;
  is_nan : bool;
  printed : list string
}.

Section Epoch.

Context {Image Tensor Torch : Type} (lib : Library Image Tensor Torch).

(** The library calls of one iteration: the output, the loss and the
    state after the optimizer step. *)
Definition train_step (config : NfnetConfig) (t : Torch)
    (batch : Tensor * Tensor)
  : result (Tensor * Tensor * Tensor * Tensor * Torch) :=
  let '(inputs, targets) := batch in
  run inputs <- (if use_fp16 config then
                   run inputs <- half lib inputs;
                   to lib (device config) inputs
                 else to lib (device config) inputs);
  run targets <- to lib (device config) targets;
  run t <- zero_grad lib t;
  run '(output, t) <- model_call lib (amp config) t inputs;
  run loss <- criterion lib output targets;
  run t <- scale_backward lib t loss;
  run t <- scaler_step lib t;
  run t <- scaler_update lib t;
  ok (inputs, targets, output, loss, t).

(** The body of the [for] loop. *)
Definition train_batch (config : NfnetConfig) (st : epoch_state) (t : Torch)
    (batch : Tensor * Tensor) : result (epoch_state * Torch) :=
  run '(inputs, targets, output, loss, t) <- train_step config t batch;
  run loss_item <- item lib loss;
  run size <- size0 lib inputs;
  let tem := F64.mul loss_item (F64.of_Z size) in
  let '(is_nan, printed) :=
    if F64.is_nan tem then
      if negb (is_nan st) then (true, printed st ++ ["nan!"])
      else (is_nan st, printed st)
    else if is_nan st then (false, printed st ++ ["no longer nan"])
    else (is_nan st, printed st) in
  let running_loss := F64.add (running_loss st) tem in
  run predicted <- argmax1 lib output;
  run correct <- count_equal lib predicted targets;
  let correct_labels := correct_labels st + correct in
  ok (mkEpoch running_loss correct_labels is_nan printed, t).

(** The [for] loop over the loader: each batch is fetched, then run. *)
Fixpoint train_loop (config : NfnetConfig) (dataloader : DataLoader)
    (st : epoch_state) (t : Torch) (batches : list (list nat))
  : M (epoch_state * Torch) :=
  match batches with
  | [] => ret (st, t)
  | batch :: batches =>
      do '(data, t) <- next_batch lib dataloader batch t;
      do '(st, t) <- lift (train_batch config st t data);
      train_loop config dataloader st t batches
  end.

(** [NfnetModelUtils._train_epoch]: the pair it returns, the object after
    the call and the lines printed. *)
Definition _train_epoch (self : NfnetModelUtils Torch) (train_dataset : Dataset)
  : M (float * float * NfnetModelUtils Torch * list string) :=
  do t <- lift (model_train lib (torch self));
  do dataloader <- data_loader train_dataset;
  do '(batches, t) <- iterate lib dataloader t;
  do '(st, t) <- train_loop (utils_config self) dataloader
                   (mkEpoch F64.zero 0 false []) t batches;
  do n <- Dataset_len train_dataset;
  do running_loss <- lift (py_fdiv_int (running_loss st) n);
  do n <- Dataset_len train_dataset;
  do train_acc <- lift (py_truediv (correct_labels st) n);
  ret (running_loss, train_acc, mkUtils (utils_config self) t, printed st).

End Epoch.

(** ** lab2/nfnet/nfnet_model_utils.py: one epoch of evaluation *)

(** The local variables of the loop of [_eval_epoch]. *)
Record eval_state : Type := mkEval {
  eval_loss : float;
  ev_correct_labels : Z
}.

Section EvalEpoch.

Context {Image Tensor Torch : Type} (lib : Library Image Tensor Torch).

(** The library calls of one iteration. *)
Definition eval_step (config : NfnetConfig) (t : Torch)
    (batch : Tensor * Tensor)
  : result (Tensor * Tensor * Tensor * Tensor * Torch) :=
  let '(inputs, targets) := batch in
  run inputs <- to lib (device config) inputs;
  run targets <- to lib (device config) targets;
  run '(output, t) <- model_call_no_grad lib t inputs;
  run output <- type_float32 lib output;
  run loss <- criterion_forward lib output targets;
  ok (inputs, targets, output, loss, t).

(** The body of the [for] loop. *)
Definition eval_batch (config : NfnetConfig) (st : eval_state) (t : Torch)
    (batch : Tensor * Tensor) : result (eval_state * Torch) :=
  run '(inputs, targets, output, loss, t) <- eval_step config t batch;
  run loss_item <- item lib loss;
  run size <- size0 lib inputs;
  let eval_loss := F64.add (eval_loss st) (F64.mul loss_item (F64.of_Z size)) in
  run predicted <- argmax1 lib output;
  run correct <- count_equal lib predicted targets;
  let correct_labels := ev_correct_labels st + correct in
  ok (mkEval eval_loss correct_labels, t).

Fixpoint eval_loop (config : NfnetConfig) (dataloader : DataLoader)
    (st : eval_state) (t : Torch) (batches : list (list nat))
  : M (eval_state * Torch) :=
  match batches with
  | [] => ret (st, t)
  | batch :: batches =>
      do '(data, t) <- next_batch lib dataloader batch t;
      do '(st, t) <- lift (eval_batch config st t data);
      eval_loop config dataloader st t batches
  end.

(** [NfnetModelUtils._eval_epoch]: the pair it returns and the object after
    the call. *)
Definition _eval_epoch (self : NfnetModelUtils Torch) (eval_dataset : Dataset)
  : M (float * float * NfnetModelUtils Torch) :=
  do t <- lift (model_eval lib (torch self));
  do dataloader <- data_loader eval_dataset;
  do '(batches, t) <- iterate lib dataloader t;
  do '(st, t) <- eval_loop (utils_config self) dataloader
                   (mkEval F64.zero 0) t batches;
  do n <- Dataset_len eval_dataset;
  do eval_loss <- lift (py_fdiv_int (eval_loss st) n);
  do n <- Dataset_len eval_dataset;
  do eval_acc <- lift (py_truediv (ev_correct_labels st) n);
  ret (eval_loss, eval_acc, mkUtils (utils_config self) t).

End EvalEpoch.

(** ** lab3/vae/model.py *)

Record ModelConfig : Set := mkModelConfig {
  latent_dims : Z;
  capacity : Z;
  variational_beta : Z;
  input_shape : list Z
}.

(** [INPUT_SHAPE[D.NMINST]], the class default. *)
Definition default_ModelConfig : ModelConfig := mkModelConfig 2 64 1 [28; 1].

Record Linear : Set := mkLinear { in_features : Z; out_features : Z }.

(** [torch.nn.Linear(in_features, out_features)], library code: the weight
    is allocated with [torch.empty((out_features, in_features))], which takes
    ints only and no negative size. *)
Definition nn_Linear (in_features out_features : pynum) : result Linear :=
  match in_features, out_features with
  | PInt i, PInt o =>
      if (i <? 0) || (o <? 0) then raise RuntimeError Torch
      else ok (mkLinear i o)
  | _, _ => raise TypeError Torch
  end.

Section Lab3.

(** The convolution layers and the tensors are the library's. *)
Variables Conv2d ConvTranspose2d Tensor Generator : Type.

(** [nn.Conv2d(i, o, kernel_size, stride, padding)] and the transposed one *)
Variable nn_Conv2d : Z -> Z -> Z -> Z -> Z -> result Conv2d.
Variable nn_ConvTranspose2d : Z -> Z -> Z -> Z -> Z -> result ConvTranspose2d.

(** Applying a layer, and the tensor operations the model uses. *)
Variable call_Conv2d : Conv2d -> Tensor -> result Tensor.
Variable call_ConvTranspose2d : ConvTranspose2d -> Tensor -> result Tensor.
Variable call_Linear : Linear -> Tensor -> result Tensor.
Variable relu : Tensor -> Tensor.
Variable reshape_rows : Tensor -> result Tensor.       (* x.reshape(x.size(0), -1) *)
Variable size0 : Tensor -> Z.                          (* x.size(0) *)
Variable view4 : Tensor -> Z -> Z -> Z -> Z -> result Tensor.
Variable softmax1 : Tensor -> result Tensor.           (* torch.softmax(x, dim=1) *)
Variable mul_scalar : Tensor -> float -> Tensor.       (* t.mul(0.5) *)
Variable exp_ : Tensor -> Tensor.
Variable normal_like : Tensor -> Generator -> Tensor * Generator.
Variable mul : Tensor -> Tensor -> result Tensor.
Variable add_ : Tensor -> Tensor -> result Tensor.

Record Encoder : Type := mkEncoder {
  enc_conv1 : Conv2d;
  enc_conv2 : Conv2d;
  enc_fc : Linear;
  fc_mu : Linear;
  fc_logvar : Linear
}.

(** [Encoder.__init__] *)
Definition Encoder_init (config : ModelConfig) : result Encoder :=
  run last <- py_index (input_shape config) (-1);
  let c := capacity config * last in
  run conv1 <- nn_Conv2d last c 4 2 1;
  run conv2 <- nn_Conv2d c (c * 2) 4 2 1;
  run first <- py_index (input_shape config) 0;
  run quarter <- py_floordiv first 4;
  let dim := c * 2 * quarter ^ 2 in
  run half <- py_truediv dim 2;
  run fc <- nn_Linear (PInt dim) (PFloat half);
  run half <- py_truediv dim 2;
  run fc_mu <- nn_Linear (PFloat half) (PInt (latent_dims config));
  run half <- py_truediv dim 2;
  run fc_logvar <- nn_Linear (PFloat half) (PInt (latent_dims config));
  ok (mkEncoder conv1 conv2 fc fc_mu fc_logvar).

(** [Encoder.forward] *)
Definition Encoder_forward (self : Encoder) (x : Tensor)
  : result (Tensor * Tensor) :=
  run x <- call_Conv2d (enc_conv1 self) x;
  let x := relu x in
  run x <- call_Conv2d (enc_conv2 self) x;
  let x := relu x in
  run x <- reshape_rows x;
  run x <- call_Linear (enc_fc self) x;
  let x := relu x in
  run x_mu <- call_Linear (fc_mu self) x;
  run x_logvar <- call_Linear (fc_logvar self) x;
  ok (x_mu, x_logvar).

Record Decoder : Type := mkDecoder {
  dec_config : ModelConfig;
  dec_fc : Linear * Linear;        (* Sequential(Linear, ReLU, Linear, ReLU) *)
  dec_conv2 : ConvTranspose2d;
  dec_conv1 : ConvTranspose2d
}.

(** [Decoder.__init__] *)
Definition Decoder_init (config : ModelConfig) : result Decoder :=
  run last <- py_index (input_shape config) (-1);
  let c := capacity config * last in
  run first <- py_index (input_shape config) 0;
  run quarter <- py_floordiv first 4;
  let dim := c * 2 * quarter ^ 2 in
  run half <- py_truediv dim 2;
  run fc1 <- nn_Linear (PInt (latent_dims config)) (PFloat half);
  run half <- py_truediv dim 2;
  run fc2 <- nn_Linear (PFloat half) (PInt dim);
  run conv2 <- nn_ConvTranspose2d (c * 2) c 4 2 1;
  run last <- py_index (input_shape config) (-1);
  run conv1 <- nn_ConvTranspose2d c last 4 2 1;
  ok (mkDecoder config (fc1, fc2) conv2 conv1).

(** [Decoder.forward] *)
Definition Decoder_forward (self : Decoder) (x : Tensor) : result Tensor :=
  run x <- call_Linear (fst (dec_fc self)) x;
  let x := relu x in
  run x <- call_Linear (snd (dec_fc self)) x;
  let x := relu x in
  run first <- py_index (input_shape (dec_config self)) 0;
  run dim <- py_floordiv first 4;
  run last <- py_index (input_shape (dec_config self)) (-1);
  let c := capacity (dec_config self) * 2 * last in
  run x <- view4 x (size0 x) c dim dim;
  run x <- call_ConvTranspose2d (dec_conv2 self) x;
  let x := relu x in
  run x <- call_ConvTranspose2d (dec_conv1 self) x;
  softmax1 x.

Record VariationalAutoencoder : Type := mkVAE {
  encoder : Encoder;
  decoder : Decoder;
  vae_config : ModelConfig;
  training : bool                  (* nn.Module.training *)
}.

(** [VariationalAutoencoder.__init__]; a new module is in training mode. *)
Definition VariationalAutoencoder_init (config : ModelConfig)
  : result VariationalAutoencoder :=
  run enc <- Encoder_init config;
  run dec <- Decoder_init config;
  ok (mkVAE enc dec config true).

(** [latent_sample]; the noise advances the random generator. *)
Definition latent_sample (self : VariationalAutoencoder)
    (mu logvar : Tensor) (g : Generator) : result (Tensor * Generator) :=
  if training self then
    let std := exp_ (mul_scalar logvar (F64.lit 5 10)) in
    let '(eps, g) := normal_like std g in
    run scaled <- mul eps std;
    run sample <- add_ scaled mu;
    ok (sample, g)
  else ok (mu, g).

(** [VariationalAutoencoder.forward] *)
Definition forward (self : VariationalAutoencoder) (x : Tensor)
    (g : Generator) : result (Tensor * Tensor * Tensor * Generator) :=
  run '(latent_mu, latent_logvar) <- Encoder_forward (encoder self) x;
  run '(latent, g) <- latent_sample self latent_mu latent_logvar g;
  run x_recon <- Decoder_forward (decoder self) latent;
  ok (x_recon, latent_mu, latent_logvar, g).

End Lab3.

(** ** Vocabulary of the statements *)

(** Positions that are rows of a dataframe with [n] rows. *)
Definition in_range (n : nat) (pos : list nat) : Prop :=
  Forall (fun i : nat => (i < n)%nat) pos.

(** What the assertions of [Dataset.__init__] ask of a dataframe. *)
Definition accepts (m : string) (d : DataFrame) : bool :=
  known_mode m
  && bool_decide (is_Some (df_columns d !! "img"))
  && (bool_decide (m = "inference")
      || match df_columns d !! "label" with
         | Some s => is_integer_dtype (s_dtype s)
         | None => false
         end).

(** The dataframe with its "label" column cast to int64. *)
Definition int64_labels (d : DataFrame) : DataFrame :=
  match df_columns d !! "label" with
  | Some s => set_column "label" (astype_int64 s) d
  | None => d
  end.

(** The dataframe a dataset of mode [m] holds once it is constructed. *)
Definition after_init (m : string) (d : DataFrame) : DataFrame :=
  if bool_decide (m = "inference") then d else int64_labels d.

Definition chosen_transform (m : string) (tr : option Compose) : Compose :=
  match tr with
  | None => if bool_decide (m = "train") then TRAIN_TRANSFORM else EVAL_TRANSFORM
  | Some t => t
  end.

(** Every column is as long as the index, as pandas keeps it. *)
Definition frame_ok (d : DataFrame) : Prop :=
  map_Forall (fun (_ : string) s => length (s_values s) = nrows d) (df_columns d).

(** In the store [σ] the dataset [ds] holds the rows of [d] at the positions
    [pos], in that order, as its constructor leaves them. *)
Definition holds_rows (σ : store) (d : DataFrame) (ds : Dataset)
    (pos : list nat) : Prop :=
  σ !! df ds = Some (after_init (mode ds) (take_rows pos d)).

(** Between [σ] and [σ'] the object [frame], which was [d], had its "label"
    column replaced by its int64 cast and nothing else changed: no other
    column, not the index, not the order of the columns, no other object. *)
Definition label_cast_in_place (σ : store) (frame : loc) (d : DataFrame)
    (σ' : store) : Prop :=
  exists label d',
    df_columns d !! "label" = Some label
    /\ σ' !! frame = Some d'
    /\ df_columns d' !! "label" = Some (astype_int64 label)
    /\ s_dtype (astype_int64 label) = Int64
    /\ (forall c, c <> "label" -> df_columns d' !! c = df_columns d !! c)
    /\ df_index d' = df_index d
    /\ df_order d' = df_order d
    /\ (forall l, l <> frame -> σ' !! l = σ !! l).

(** The numbers of rows of the three datasets a split returned. *)
Definition split_sizes (r : result (Dataset * Dataset * Dataset * store))
  : result (Z * Z * Z) :=
  match r with
  | inl e => inl e
  | inr ((train_set, valid_set, test_set), σ) =>
      run '(a, _) <- Dataset_len train_set σ;
      run '(b, _) <- Dataset_len valid_set σ;
      run '(c, _) <- Dataset_len test_set σ;
      ok (a, b, c)
  end.


(** A computation that changes no object: it returns in the store it was
    run in. *)
Definition reads_only {A} (c : M A) : Prop :=
  forall σ a σ', c σ = ok (a, σ') -> σ' = σ.

(** The loader of the dataset [ds] under the config [cfg], with the batch
    size read under [key]: the [KeyError] of a missing batch size, the
    library's [ValueError] for a number of workers or a batch size it
    refuses, and else the loader with these arguments. *)
Definition configured_loader (cfg : DatasetConfig) (ds : Dataset)
    (key : string) (shuffle : bool) : result DataLoader :=
  match batch_size cfg !! key with
  | None => raise KeyError Interpreter
  | Some size =>
      if (num_workers cfg <? 0)
         || (persistent_workers cfg && (num_workers cfg =? 0))
         || (size <=? 0)
      then raise ValueError Torch
      else ok (mkDataLoader ds size shuffle (num_workers cfg)
                 (persistent_workers cfg) (pin_memory cfg))
  end.

(** The columns in the order of [df.columns] are columns of the dataframe,
    each as long as the index. *)
Definition columns_ok (d : DataFrame) : Prop :=
  Forall (fun name => exists s, df_columns d !! name = Some s
                                /\ length (s_values s) = nrows d)
         (df_order d).

(** Two parameter groups that agree on every key but "weight_decay" and
    "clipping". *)
Definition same_but_decay_and_clipping {Param} (g g0 : param_group Param) : Prop :=
  pg_params _ g = pg_params _ g0
  /\ pg_name _ g = pg_name _ g0
  /\ pg_lr _ g = pg_lr _ g0
  /\ pg_momentum _ g = pg_momentum _ g0
  /\ pg_dampening _ g = pg_dampening _ g0
  /\ pg_nesterov _ g = pg_nesterov _ g0
  /\ pg_eps _ g = pg_eps _ g0.

(** The group [_get_optimizer] leaves for one named parameter. *)
Definition configured_group {Param} (model : NFNet Param) (config : NfnetConfig)
    (named : string * Param) : param_group Param :=
  mkGroup _ (snd named) (fst named) (learning_rate config) (momentum config)
    (PInt 0)
    (if exclude_from_weight_decay _ model (fst named) then PInt 0
     else PFloat (weight_decay config))
    (nesterov config)
    (if exclude_from_clipping _ model (fst named) then None
     else clipping config)
    (F64.lit 1 1000).

(** Two configurations that agree on the five fields the optimizer reads. *)
Definition same_hyperparameters (c c' : NfnetConfig) : Prop :=
  learning_rate c = learning_rate c'
  /\ momentum c = momentum c'
  /\ clipping c = clipping c'
  /\ weight_decay c = weight_decay c'
  /\ nesterov c = nesterov c'.

Section EpochTerms.

Context {Image Tensor Torch : Type} (lib : Library Image Tensor Torch).

(** What the batches of an epoch contribute, one entry per batch and in
    their order, each batch fetched and run on the library state the one
    before left: the batch loss times the batch size, and the number of
    samples whose argmax prediction equals the target; with the state after
    the last batch.  The exception, if a fetch or a call raises. *)
Fixpoint epoch_terms (config : NfnetConfig) (dataloader : DataLoader)
    (t : Torch) (batches : list (list nat)) (σ : store)
  : result (list (float * Z) * Torch) :=
  match batches with
  | [] => ok ([], t)
  | batch :: batches =>
      run '((data, t), _) <- next_batch lib dataloader batch t σ;
      run '(inputs, targets, output, loss, t) <- train_step lib config t data;
      run loss_item <- item lib loss;
      run size <- size0 lib inputs;
      run predicted <- argmax1 lib output;
      run correct <- count_equal lib predicted targets;
      run '(terms, t') <- epoch_terms config dataloader t batches σ;
      ok ((F64.mul loss_item (F64.of_Z size), correct) :: terms, t')
  end.

(** What the batches of an evaluation contribute, as [epoch_terms] for a
    training epoch. *)
Fixpoint eval_terms (config : NfnetConfig) (dataloader : DataLoader)
    (t : Torch) (batches : list (list nat)) (σ : store)
  : result (list (float * Z) * Torch) :=
  match batches with
  | [] => ok ([], t)
  | batch :: batches =>
      run '((data, t), _) <- next_batch lib dataloader batch t σ;
      run '(inputs, targets, output, loss, t) <- eval_step lib config t data;
      run loss_item <- item lib loss;
      run size <- size0 lib inputs;
      run predicted <- argmax1 lib output;
      run correct <- count_equal lib predicted targets;
      run '(terms, t') <- eval_terms config dataloader t batches σ;
      ok ((F64.mul loss_item (F64.of_Z size), correct) :: terms, t')
  end.

End EpochTerms.

(** The float sum of the loss terms, accumulated from 0.0 in their order. *)
Definition sum_losses (terms : list (float * Z)) : float :=
  fold_left F64.add (fst <$> terms) F64.zero.

Definition sum_correct (terms : list (float * Z)) : Z :=
  foldr Z.add 0 (snd <$> terms).

(** The size of the first part of a split of [n] rows at [ratio], as far as
    the numbers decide it: the assertion on the ratio, the product and its
    conversion, and the library's check of the size. *)
Definition part_size (n : nat) (ratio : float) : result Z :=
  run _ <- py_assert (F64.ltb ratio F64.one);
  run k <- train_set_size n ratio;
  if (k >=? Z.of_nat n) || (k <=? 0) then raise ValueError Sklearn else ok k.

(** The sizes of train, valid and test for [n] rows and a pair of ratios, or
    the exception the numbers lead to. *)
Definition three_way_sizes (n : nat) (rs : float * float) : result (Z * Z * Z) :=
  run _ <- py_assert (F64.leb (sumation rs) F64.one);
  run k0 <- part_size n (fst rs);
  run v <- valid_set_ratio rs;
  run k1 <- part_size (n - Z.to_nat k0) v;
  ok (k0, k1, Z.of_nat n - k0 - k1).

(** The line [_train_epoch] prints when the loss term of a batch is NaN and
    the one before was not ([was_nan] false), or the other way round. *)
Definition nan_line (was_nan : bool) : string :=
  if was_nan then "no longer nan" else "nan!".

(** Lines that are, in turn, the line for [was_nan], the line for its
    negation, and so on. *)
Fixpoint alternating (was_nan : bool) (lines : list string) : Prop :=
  match lines with
  | [] => True
  | line :: lines => line = nan_line was_nan /\ alternating (negb was_nan) lines
  end.

Definition term_is_nan (term : float * Z) : bool := F64.is_nan (fst term).

(** ** Sample inputs *)

(** A shuffle: the positions in reverse order, whatever the seed. *)
Definition reversed (seed : Z) (n : nat) : list nat := rev (seq 0 n).

(** [n] rows labelled [0 .. n-1], with an int32 label column. *)
Definition labelled_frame (n : nat) : DataFrame :=
  mkDataFrame (Z.of_nat <$> seq 0 n)
    (<["img" := mkSeries Object_ ((fun _ => CStr "cat.png") <$> seq 0 n)]>
       (<["label" := mkSeries Int32 ((fun i => CInt (Z.of_nat i)) <$> seq 0 n)]> ∅))
    ["img"; "label"].

(** The batch sizes and workers [train_nfnet] of do.py sets. *)
Definition sample_config : DatasetConfig :=
  mkDatasetConfig (<["train" := 16]> (<["eval" := 16]> ∅)) 4 false false.

(** A store whose only object, at reference 0, is [d]. *)
Definition sole (d : DataFrame) : store := <[0%nat := d]> ∅.

(** A toy instance of the tensor library: a tensor is one integer, every
    layer adds one, the noise is the generator's counter. *)
Definition toy_layer {L : Type} (_ : L) (x : Z) : result Z := ok (x + 1).

Definition toy_forward (self : VariationalAutoencoder unit unit) (x : Z) (g : nat)
  : result (Z * Z * Z * nat) :=
  forward unit unit Z nat toy_layer toy_layer toy_layer
    (fun x => Z.max x 0) (fun x => ok x) (fun _ => 1)
    (fun x _ _ _ _ => ok x) (fun x => ok x)
    (fun x _ => x) (fun x => x) (fun x g => (Z.of_nat g, S g))
    (fun x y => ok (x * y)) (fun x y => ok (x + y)) self x g.

Definition toy_vae (training : bool) : VariationalAutoencoder unit unit :=
  mkVAE unit unit
    (mkEncoder unit tt tt (mkLinear 6272 3136) (mkLinear 3136 2) (mkLinear 3136 2))
    (mkDecoder unit default_ModelConfig (mkLinear 2 3136, mkLinear 3136 6272) tt tt)
    default_ModelConfig training.

(** A model of three parameters; gains and biases are kept out of weight
    decay and the linear layer out of clipping. *)
Definition sample_model : NFNet unit :=
  mkNFNet unit
    [("stem.conv0.weight", tt); ("stem.conv0.gain", tt); ("linear.weight", tt)]
    (fun name => bool_decide (name = "stem.conv0.gain"))
    (fun name => bool_decide (name = "linear.weight")).

(** The default configuration with weight decay switched off. *)
Definition no_decay_config : NfnetConfig :=
  mkNfnetConfig false "F1" 15 "gelu" (F64.lit 25 100) (F64.lit 2 10)
    (F64.lit 5 10) false false (F64.lit 9 10) F64.zero true true
    (Some (F64.lit 1 10)) 1 (F64.lit 1 1000) "cuda".

(** A toy instance of the libraries: an image is the length of its path, a
    tensor a list of integers, one per sample, and the library state counts
    the optimizer steps; the model returns its input, the loss of a batch is
    the sum of its outputs, the class predicted for a sample is its output
    modulo 2, and a shuffle reverses the order.  With [nan_on_even] a loss
    that is even reads as NaN. *)
Definition toy_library (nan_on_even : bool) : Library Z (list Z) nat :=
  mkLibrary
    (fun imgpath => match imgpath with
                    | CStr path => ok (Z.of_nat (String.length path))
                    | _ => raise TypeError Interpreter
                    end)
    (fun _ img t => ok ([img], t))
    (fun n t => ok (rev (seq 0 n), t))
    (fun _ data => ok (concat (fst <$> data),
                       (fun sample => match snd sample with
                                      | CInt z => z
                                      | _ => 0
                                      end) <$> data))
    ok ok ok (fun _ x => ok x) ok
    (fun _ t x => ok (x, t)) (fun t x => ok (x, t))
    (fun output _ => ok [foldr Z.add 0 output])
    (fun output _ => ok [foldr Z.add 0 output])
    (fun t _ => ok t) (fun t => ok (S t)) ok ok
    (fun loss => match loss with
                 | [x] => ok (if nan_on_even && Z.even x then S754_nan
                              else F64.of_Z x)
                 | _ => raise ValueError Torch
                 end)
    (fun x => ok (Z.of_nat (length x)))
    (fun output => ok ((fun x => x mod 2) <$> output))
    (fun predicted targets =>
       ok (Z.of_nat (length (filter (fun p : Z * Z => p.1 = p.2)
                               (zip predicted targets))))).

Definition toy_utils : NfnetModelUtils nat := mkUtils default_NfnetConfig 0%nat.

Definition train_dataset_at (frame : loc) : Dataset :=
  mkDataset "train" frame TRAIN_TRANSFORM sample_config.

(** Four pictures; the class of the first three is the length of the path
    modulo 2, the class of the last is not. *)
Definition pictures_frame : DataFrame :=
  mkDataFrame [0; 1; 2; 3]
    (<["img" := mkSeries Object_
                  [CStr "a.png"; CStr "bb.png"; CStr "ccc.png"; CStr "dddd.png"]]>
       (<["label" := mkSeries Int64 [CInt 1; CInt 0; CInt 1; CInt 1]]> ∅))
    ["img"; "label"].

(** Batches of [size] samples, loaded in the main process. *)
Definition batches_config (size : Z) : DatasetConfig :=
  mkDatasetConfig (<["train" := size]> (<["eval" := size]> ∅)) 0 false false.

Definition pictures_dataset (m : string) (size : Z) : Dataset :=
  mkDataset m 0%nat (chosen_transform m None) (batches_config size).

Definition pictures_loader (m : string) (size : Z) : DataLoader :=
  mkDataLoader (pictures_dataset m size) size (bool_decide (m = "train")) 0
    false false.

(** What the four pictures contribute to an epoch of training in batches of
    one, with the toy library whose even losses are NaN, and the lines the
    epoch prints. *)
Definition nan_epoch_terms : list (float * Z) :=
  [(S754_nan, 0); (F64.of_Z 7, 1); (S754_nan, 1); (F64.of_Z 5, 1)].

Definition nan_epoch_lines : list string :=
  ["nan!"; "no longer nan"; "nan!"; "no longer nan"].

(** The pictures with a third column, which the constructor does not look
    at. *)
Definition three_columns_frame : DataFrame :=
  set_column "photographer"
    (mkSeries Object_ [CStr "ann"; CStr "bob"; CStr "ann"; CStr "eve"])
    pictures_frame.

(** What the library constructor returns for [sample_model] and the default
    configuration. *)
Definition sample_library_optimizer : Optimizer unit :=
  mkOptimizer unit
    ((fun '(name, param) =>
        mkGroup unit param name (F64.lit 1 1000) (F64.lit 9 10) (PInt 0)
          (PFloat (F64.lit 2 100000)) true (Some (F64.lit 1 10))
          (F64.lit 1 1000)) <$> named_parameters _ sample_model).

(** [n] rows with an "img" column only, as a test csv gives them. *)
Definition unlabelled_frame (n : nat) : DataFrame :=
  mkDataFrame (Z.of_nat <$> seq 0 n)
    (<["img" := mkSeries Object_ ((fun _ => CStr "cat.png") <$> seq 0 n)]> ∅)
    ["img"].

(** Two rows with a uint64 label column: one label that fits int64 and one
    that does not. *)
Definition uint64_frame : DataFrame :=
  mkDataFrame [0; 1]
    (<["img" := mkSeries Object_ [CStr "cat.png"; CStr "dog.png"]]>
       (<["label" := mkSeries UInt64 [CInt 7; CInt (2 ^ 63 + 5)]]> ∅))
    ["img"; "label"].

(** The two datasets and the store [train_test_split] returns for the ten
    labelled rows, the ratio 0.7 and the reversed shuffle. *)
Definition ten_rows_eval_set : Dataset :=
  mkDataset "eval" 2%nat EVAL_TRANSFORM sample_config.

Definition ten_rows_split_store : store :=
  <[2%nat := after_init "eval" (take_rows [9; 8; 7]%nat (labelled_frame 10))]>
    (<[1%nat := after_init "train"
                  (take_rows [6; 5; 4; 3; 2; 1; 0]%nat (labelled_frame 10))]>
       (sole (labelled_frame 10))).

(** The three datasets and the store [split] returns for the ten labelled
    rows, the ratios (0.7, 0.15) and the reversed shuffle. *)
Definition ten_rows_valid_set : Dataset :=
  mkDataset "eval" 3%nat EVAL_TRANSFORM sample_config.

Definition ten_rows_test_set : Dataset :=
  mkDataset "eval" 4%nat EVAL_TRANSFORM sample_config.

Definition ten_rows_three_way_store : store :=
  <[4%nat := after_init "eval" (take_rows [7; 8]%nat (labelled_frame 10))]>
    (<[3%nat := after_init "eval" (take_rows [9]%nat (labelled_frame 10))]>
       ten_rows_split_store).

(** The ratios every driver of do.py passes to [split]. *)
Definition do_py_ratios : float * float := (F64.lit 7 10, F64.lit 15 100).

(** [part_size] and [three_way_sizes] with the number of rows in binary, to
    compute with. *)
Definition part_size_Z (n : Z) (ratio : float) : result Z :=
  run _ <- py_assert (F64.ltb ratio F64.one);
  run x <- py_float_of_int n;
  run k <- py_int (F64.mul x ratio);
  if (k >=? n) || (k <=? 0) then raise ValueError Sklearn else ok k.

Definition three_way_sizes_Z (n : Z) (rs : float * float) : result (Z * Z * Z) :=
  run _ <- py_assert (F64.leb (sumation rs) F64.one);
  run k0 <- part_size_Z n (fst rs);
  run v <- valid_set_ratio rs;
  run k1 <- part_size_Z (n - k0) v;
  ok (k0, k1, n - k0 - k1).

(** For [n] rows and the ratios of do.py: the numbers give three sizes when
    there are 7 rows or more, and the library's [ValueError] when there are
    fewer. *)
Definition do_py_rows_checked (n : Z) : bool :=
  match three_way_sizes_Z n do_py_ratios with
  | inr _ => 7 <=? n
  | inl (Raise ValueError Sklearn) => n <? 7
  | inl _ => false
  end.

(** The check for the [count] numbers from [n] on. *)
Fixpoint do_py_rows_checked_from (count : nat) (n : Z) : bool :=
  match count with
  | O => true
  | S count => do_py_rows_checked n && do_py_rows_checked_from count (n + 1)
  end.

(** * Properties *)

(** ** Selecting rows by position *)

Section Select.
Context {A : Type}.
Implicit Types (l : list A) (pos : list nat).

Lemma in_range_forallb n pos :
  in_range n pos -> forallb (fun i => Nat.ltb i n) pos = true.
Proof.
  induction 1 as [|i pos Hi _ IH]; simpl; [done|].
  rewrite IH, andb_true_r. by apply Nat.ltb_lt.
Qed.


Lemma select_cons_in i pos l x :
  l !! i = Some x -> select (i :: pos) l = x :: select pos l.
Proof. unfold select; simpl; intros ->; done. Qed.

Lemma select_length pos l :
  in_range (length l) pos -> length (select pos l) = length pos.
Proof.
  induction 1 as [|i pos Hi _ IH]; [done|].
  destruct (lookup_lt_is_Some_2 l i Hi) as [x Hx].
  rewrite (select_cons_in _ _ _ _ Hx); simpl; by rewrite IH.
Qed.

Lemma select_lookup pos l (j : nat) :
  in_range (length l) pos ->
  select pos l !! j = pos !! j ≫= fun i : nat => l !! i.
Proof.
  intros H; revert j.
  induction H as [|i pos Hi _ IH]; intros j; [done|].
  destruct (lookup_lt_is_Some_2 l i Hi) as [x Hx].
  rewrite (select_cons_in _ _ _ _ Hx).
  destruct j as [|j]; simpl; [by rewrite Hx|apply IH].
Qed.



End Select.

Lemma in_range_Permutation n (p q : list nat) :
  p ≡ₚ q -> in_range n p -> in_range n q.
Proof. unfold in_range; intros H; by rewrite H. Qed.

Lemma in_range_seq n : in_range n (seq 0 n).
Proof. apply Forall_forall; intros i Hi; apply elem_of_seq in Hi; lia. Qed.

Lemma in_range_app n (p q : list nat) :
  in_range n (p ++ q) <-> in_range n p /\ in_range n q.
Proof. apply Forall_app. Qed.



(** ** Rows of a selection *)

Lemma nrows_take_rows pos d :
  in_range (nrows d) pos -> nrows (take_rows pos d) = length pos.
Proof. intros H; unfold nrows; simpl; by apply select_length. Qed.

Lemma row_take_rows d pos (j i : nat) :
  frame_ok d -> in_range (nrows d) pos -> pos !! j = Some i ->
  row (take_rows pos d) j = row d i.
Proof.
  intros Hok Hr Hj. unfold row, take_rows; simpl. f_equal.
  - rewrite select_lookup by done. by rewrite Hj.
  - apply map_eq; intros name. rewrite !lookup_omap, lookup_fmap.
    destruct (df_columns d !! name) as [s|] eqn:E; simpl; [|done].
    rewrite select_lookup by (by rewrite (Hok name s E)).
    by rewrite Hj.
Qed.

Lemma take_rows_column pos d name :
  df_columns (take_rows pos d) !! name =
  (fun s => mkSeries (s_dtype s) (select pos (s_values s))) <$> df_columns d !! name.
Proof. unfold take_rows; simpl; apply lookup_fmap. Qed.

(** ** The constructor *)

Lemma Dataset_init_ok σ frame d cfg m tr :
  σ !! frame = Some d ->
  accepts m d = true ->
  Dataset_init frame cfg m tr σ =
    ok (mkDataset m frame (chosen_transform m tr) cfg,
        <[frame := after_init m d]> σ).
Proof.
  intros Hd Hacc. unfold accepts in Hacc.
  apply andb_prop in Hacc as [Hacc Hlab].
  apply andb_prop in Hacc as [Hmode Himg].
  unfold Dataset_init, bind, lift, deref, py_assert, after_init.
  rewrite Hmode; simpl. rewrite Hd; simpl. rewrite Himg; simpl.
  destruct (bool_decide (m = "inference")); simpl.
  - by rewrite insert_id.
  - unfold int64_labels.
    destruct (df_columns d !! "label") as [s|]; [|done]; simpl in *.
    by rewrite Hlab.
Qed.

Lemma Dataset_init_inv σ frame d cfg m tr ds σ' :
  σ !! frame = Some d ->
  Dataset_init frame cfg m tr σ = ok (ds, σ') ->
  accepts m d = true.
Proof.
  intros Hd. unfold Dataset_init, bind, lift, deref, py_assert, accepts.
  destruct (known_mode m); simpl; [|done].
  rewrite Hd; simpl.
  destruct (bool_decide (is_Some (df_columns d !! "img"))); simpl; [|done].
  destruct (bool_decide (m = "inference")); simpl; [done|].
  destruct (df_columns d !! "label") as [s|]; simpl; [|done].
  by destruct (is_integer_dtype (s_dtype s)).
Qed.

Lemma accepts_take_rows m pos d :
  accepts m (take_rows pos d) = accepts m d.
Proof.
  unfold accepts. rewrite !take_rows_column.
  destruct (df_columns d !! "img"), (df_columns d !! "label"); simpl;
    repeat f_equal; apply bool_decide_ext;
    split; intros []; eauto; discriminate.
Qed.

(** ** The library split *)

Section SplitLemmas.

Variable permutation : Z -> nat -> list nat.

Lemma shuffle_split_partition seed n k :
  permutation seed n ≡ₚ seq 0 n ->
  0 < k < Z.of_nat n ->
  let '(tr, te) := shuffle_split permutation seed n k (Z.of_nat n - k) in
  tr ++ te ≡ₚ seq 0 n /\ length tr = Z.to_nat k
  /\ length te = (n - Z.to_nat k)%nat.
Proof.
  intros Hperm Hk. unfold shuffle_split.
  set (P := permutation seed n) in *.
  assert (length P = n) as Hlen.
  { rewrite (Permutation_length Hperm). apply length_seq. }
  replace (Z.to_nat (Z.of_nat n - k)) with (n - Z.to_nat k)%nat by lia.
  rewrite (take_ge (drop _ P)) by (rewrite length_drop; lia).
  split; [|split].
  - rewrite <- Hperm, Permutation_app_comm. by rewrite take_drop.
  - rewrite length_drop; lia.
  - rewrite length_take; lia.
Qed.

Lemma sk_train_test_split_ok d k seed :
  permutation seed (nrows d) ≡ₚ seq 0 (nrows d) ->
  0 < k < Z.of_nat (nrows d) ->
  exists tr te,
    sk_train_test_split permutation d k seed
      = ok (take_rows tr d, take_rows te d)
    /\ tr ++ te ≡ₚ seq 0 (nrows d)
    /\ length tr = Z.to_nat k
    /\ length te = (nrows d - Z.to_nat k)%nat.
Proof.
  intros Hperm Hk.
  pose proof (shuffle_split_partition seed (nrows d) k Hperm Hk) as Hsp.
  unfold sk_train_test_split, validate_shuffle_split.
  replace (k >=? Z.of_nat (nrows d)) with false by lia.
  replace (k <=? 0) with false by lia.
  replace (k =? 0) with false by lia.
  unfold rbind at 1, ok at 1; cbn [orb].
  destruct (shuffle_split permutation seed (nrows d) k (Z.of_nat (nrows d) - k))
    as [tr te].
  destruct Hsp as (Hp & Htr & Hte).
  assert (in_range (nrows d) (tr ++ te)) as Hr.
  { eapply in_range_Permutation; [symmetry; exact Hp|apply in_range_seq]. }
  apply in_range_app in Hr as [Hr1 Hr2].
  exists tr, te. unfold iloc.
  rewrite (in_range_forallb _ _ Hr1), (in_range_forallb _ _ Hr2). simpl. auto.
Qed.

(** A split that passes the assertions and gets a valid size returns two
    new dataframe objects, one per dataset. *)
Lemma train_test_split_ok σ frame d r cfg tf modes k :
  permutation SEED (nrows d) ≡ₚ seq 0 (nrows d) ->
  σ !! frame = Some d ->
  F64.ltb r F64.one = true ->
  train_set_size (nrows d) r = ok k ->
  0 < k < Z.of_nat (nrows d) ->
  accepts (fst modes) d = true ->
  accepts (snd modes) d = true ->
  exists tr te l1 l2,
    tr ++ te ≡ₚ seq 0 (nrows d)
    /\ length tr = Z.to_nat k
    /\ length te = (nrows d - Z.to_nat k)%nat
    /\ σ !! l1 = None /\ σ !! l2 = None /\ l1 <> l2
    /\ train_test_split permutation frame r cfg tf modes σ =
         ok ((mkDataset (fst modes) l1
                (chosen_transform (fst modes) (fst (default (None, None) tf))) cfg,
              mkDataset (snd modes) l2
                (chosen_transform (snd modes) (snd (default (None, None) tf))) cfg),
             <[l2 := after_init (snd modes) (take_rows te d)]>
               (<[l1 := after_init (fst modes) (take_rows tr d)]> σ)).
Proof.
  intros Hperm Hd Hlt Hsize Hk Hm1 Hm2.
  destruct (sk_train_test_split_ok d k SEED Hperm Hk)
    as (tr & te & Hsk & Hp & Htr & Hte).
  set (l1 := fresh (dom σ)).
  set (σ1 := <[l1 := take_rows tr d]> σ).
  set (l2 := fresh (dom σ1)).
  assert (σ !! l1 = None) as Hl1.
  { apply not_elem_of_dom. apply is_fresh. }
  assert (σ1 !! l2 = None) as Hl2.
  { apply not_elem_of_dom. apply is_fresh. }
  assert (l1 <> l2) as Hne.
  { intros E. subst σ1. rewrite <- E, lookup_insert_eq in Hl2. done. }
  assert (σ !! l2 = None) as Hl2'.
  { subst σ1. by rewrite lookup_insert_ne in Hl2. }
  exists tr, te, l1, l2. repeat (split; [done|]).
  unfold train_test_split, bind at 1, lift at 1, py_assert.
  rewrite Hlt; simpl.
  unfold bind at 1, deref. rewrite Hd; simpl.
  unfold bind at 1, lift at 1. rewrite Hsize; simpl.
  unfold bind at 1, lift at 1. rewrite Hsk; simpl.
  unfold bind at 1, alloc at 1. simpl.
  unfold bind at 1, alloc at 1. simpl.
  fold l1. fold σ1. fold l2.
  unfold bind at 1.
  rewrite (Dataset_init_ok _ l1 (take_rows tr d)); cycle 1.
  { rewrite lookup_insert_ne by done. apply lookup_insert_eq. }
  { by rewrite accepts_take_rows. }
  cbn beta iota delta [ok]. unfold bind at 1.
  rewrite (Dataset_init_ok _ l2 (take_rows te d)); cycle 1.
  { rewrite lookup_insert_ne by done. apply lookup_insert_eq. }
  { by rewrite accepts_take_rows. }
  unfold ret, ok. do 2 f_equal.
  subst σ1.
  rewrite (insert_insert_ne _ l1 l2) by done.
  by rewrite !insert_insert_eq.
Qed.

End SplitLemmas.

(** ** Truncation and floor *)

Lemma magnitude_nonneg m e : 0 <= F64.magnitude m e.
Proof.
  unfold F64.magnitude. destruct e.
  - apply Z.shiftl_nonneg; lia.
  - apply Z.shiftl_nonneg; lia.
  - apply Z.shiftr_nonneg; lia.
Qed.

Lemma trunc_pos_floor x k :
  F64.trunc x = Some k -> 0 < k -> F64.floor x = Some k.
Proof.
  destruct x as [s|s| |s m e]; simpl; try done.
  intros [= <-] Hk. destruct s; simpl in *.
  - pose proof (magnitude_nonneg m e). lia.
  - by destruct e.
Qed.

Lemma train_set_size_floor n r k :
  train_set_size n r = ok k -> 0 < k ->
  F64.floor (F64.mul (F64.of_Z (Z.of_nat n)) r) = Some k.
Proof.
  unfold train_set_size, py_float_of_int, rbind.
  destruct (F64.is_finite _); [|done]. simpl.
  unfold py_int. intros H Hk.
  destruct (F64.trunc _) as [z|] eqn:E.
  - injection H as ->. by apply trunc_pos_floor.
  - by destruct (F64.is_nan _).
Qed.

(** ** What a constructed dataset holds *)

Lemma nrows_after_init m d : nrows (after_init m d) = nrows d.
Proof.
  unfold after_init, int64_labels.
  destruct (bool_decide _); [done|].
  by destruct (df_columns d !! "label").
Qed.

Lemma accepts_after_init m d : accepts m d = true -> accepts m (after_init m d) = true.
Proof.
  unfold accepts, after_init, int64_labels. intros H.
  destruct (bool_decide (m = "inference")) eqn:E; [done|].
  apply andb_prop in H as [H1 H2].
  destruct (df_columns d !! "label") as [s|] eqn:El; [|done].
  unfold set_column; simpl.
  rewrite lookup_insert_eq, lookup_insert_ne by done.
  by rewrite H1.
Qed.

Lemma Dataset_len_holds σ d ds pos :
  holds_rows σ d ds pos -> in_range (nrows d) pos ->
  Dataset_len ds σ = ok (Z.of_nat (length pos), σ).
Proof.
  unfold holds_rows, Dataset_len, bind, deref, ret. intros -> Hr.
  simpl. by rewrite nrows_after_init, nrows_take_rows.
Qed.

Lemma reversed_Permutation seed n : reversed seed n ≡ₚ seq 0 n.
Proof. unfold reversed. symmetry. apply Permutation_rev. Qed.

(** ** Dataset.__init__ *)

(** C9. For a dataframe object passed with mode "train" or "eval", the
    constructor returns exactly when its assertions hold of the dataframe,
    and once it has returned, the dataset refers to the very object the
    caller passed, whose "label" column is now the int64 cast of the old one;
    every other column, the index and every other object are as before. *)
Theorem Dataset_init_casts_in_place σ frame d cfg m tr :
  σ !! frame = Some d ->
  m = "train" \/ m = "eval" ->
  (accepts m d = true <->
     exists ds σ', Dataset_init frame cfg m tr σ = ok (ds, σ'))
  /\ forall ds σ',
       Dataset_init frame cfg m tr σ = ok (ds, σ') ->
       df ds = frame /\ label_cast_in_place σ frame d σ'.
Proof.
  intros Hd Hm.
  assert (bool_decide (m = "inference") = false) as Hinf.
  { apply bool_decide_eq_false. by destruct Hm as [-> | ->]. }
  split.
  - split.
    + intros Hacc. rewrite (Dataset_init_ok σ frame d) by done. by eauto.
    + intros (ds & σ' & H). by eapply Dataset_init_inv.
  - intros ds σ' H.
    pose proof (Dataset_init_inv _ _ _ _ _ _ _ _ Hd H) as Hacc.
    rewrite (Dataset_init_ok σ frame d) in H by done.
    injection H as <- <-. split; [done|].
    unfold accepts in Hacc. rewrite Hinf in Hacc.
    apply andb_prop in Hacc as [_ Hlab]. simpl in Hlab.
    destruct (df_columns d !! "label") as [label|] eqn:El; [|done].
    exists label, (after_init m d).
    unfold after_init, int64_labels. rewrite Hinf, El.
    split; [done|]. split; [apply lookup_insert_eq|].
    unfold set_column; simpl.
    split; [apply lookup_insert_eq|]. split; [done|].
    split; [|split; [done|split; [by rewrite El|]]].
    + intros c Hc. by rewrite lookup_insert_ne.
    + intros l Hl. by rewrite lookup_insert_ne.
Qed.

Lemma Dataset_init_casts_in_place_witness :
  (accepts "train" (labelled_frame 3) = true <->
     exists ds σ',
       Dataset_init 0%nat sample_config "train" None (sole (labelled_frame 3))
       = ok (ds, σ'))
  /\ forall ds σ',
       Dataset_init 0%nat sample_config "train" None (sole (labelled_frame 3))
       = ok (ds, σ') ->
       df ds = 0%nat
       /\ label_cast_in_place (sole (labelled_frame 3)) 0%nat (labelled_frame 3) σ'.
Proof.
  apply (Dataset_init_casts_in_place (sole (labelled_frame 3)) 0%nat
           (labelled_frame 3) sample_config "train" None).
  - reflexivity.
  - left; reflexivity.
Defined.

(** ** Dataset.train_test_split *)

Lemma Permutation_app_disjoint (p q : list nat) n :
  p ++ q ≡ₚ seq 0 n -> forall i, i ∈ p -> i ∉ q.
Proof.
  intros H. assert (NoDup (p ++ q)) as Hnd.
  { rewrite H. apply NoDup_seq. }
  apply NoDup_app in Hnd. tauto.
Qed.

(** C1, at a ratio it covers: with [train_ratio = 0.0] the requested
    train size is 0, which the library split refuses; no pair is returned. *)
Lemma train_test_split_ratio_zero_raises :
  F64.leb F64.zero F64.zero = true
  /\ F64.ltb F64.zero F64.one = true
  /\ accepts "train" (labelled_frame 2) = true
  /\ train_test_split reversed 0%nat F64.zero sample_config None default_modes
       (sole (labelled_frame 2))
     = raise ValueError Sklearn.
Proof. vm_compute. auto. Qed.

(** C1, amended.  For a dataframe [d] of [n] rows that the constructor
    accepts in both modes, and a [train_ratio < 1] whose train size
    [k = int(n * train_ratio)] satisfies [0 < k < n], the split returns two
    datasets on two new, distinct dataframe objects; the train dataset holds
    the rows at positions [tr], the other one the rows at [te], where
    [tr ++ te] lists every position of [d] exactly once (so the two are
    disjoint and together are the rows of [d]); the train part has [k] rows,
    [k] being the floor of the double-precision product, and the other part
    the remaining [n - k]; the caller's dataframe is untouched. *)
Theorem train_test_split_partition
    (permutation : Z -> nat -> list nat) σ frame d r cfg tf modes k :
  permutation SEED (nrows d) ≡ₚ seq 0 (nrows d) ->
  σ !! frame = Some d ->
  accepts (fst modes) d = true ->
  accepts (snd modes) d = true ->
  F64.ltb r F64.one = true ->
  train_set_size (nrows d) r = ok k ->
  0 < k < Z.of_nat (nrows d) ->
  exists train_set eval_set σ' tr te,
    train_test_split permutation frame r cfg tf modes σ
      = ok ((train_set, eval_set), σ')
    /\ mode train_set = fst modes /\ mode eval_set = snd modes
    /\ holds_rows σ' d train_set tr
    /\ holds_rows σ' d eval_set te
    /\ df train_set <> df eval_set
    /\ tr ++ te ≡ₚ seq 0 (nrows d)
    /\ (forall i, i ∈ tr -> i ∉ te)
    /\ F64.floor (F64.mul (F64.of_Z (Z.of_nat (nrows d))) r) = Some k
    /\ Dataset_len train_set σ' = ok (k, σ')
    /\ Dataset_len eval_set σ' = ok (Z.of_nat (nrows d) - k, σ')
    /\ σ' !! frame = Some d.
Proof.
  intros Hperm Hd Hm1 Hm2 Hlt Hsize Hk.
  destruct (train_test_split_ok permutation σ frame d r cfg tf modes k)
    as (tr & te & l1 & l2 & Hp & Htr & Hte & Hl1 & Hl2 & Hne & Hrun); try done.
  assert (in_range (nrows d) (tr ++ te)) as Hr.
  { eapply in_range_Permutation; [symmetry; exact Hp|apply in_range_seq]. }
  apply in_range_app in Hr as [Hr1 Hr2].
  eexists _, _, _, tr, te. split; [exact Hrun|].
  assert (holds_rows
            (<[l2:=after_init modes.2 (take_rows te d)]>
               (<[l1:=after_init modes.1 (take_rows tr d)]> σ)) d
            (mkDataset modes.1 l1
               (chosen_transform modes.1 (default (None, None) tf).1) cfg) tr)
    as Hh1.
  { unfold holds_rows; simpl.
    rewrite lookup_insert_ne by done. apply lookup_insert_eq. }
  assert (holds_rows
            (<[l2:=after_init modes.2 (take_rows te d)]>
               (<[l1:=after_init modes.1 (take_rows tr d)]> σ)) d
            (mkDataset modes.2 l2
               (chosen_transform modes.2 (default (None, None) tf).2) cfg) te)
    as Hh2.
  { unfold holds_rows; simpl. apply lookup_insert_eq. }
  repeat (split; [done|]).
  split; [by eapply Permutation_app_disjoint|].
  split; [by apply train_set_size_floor; [|lia]|].
  split; [|split].
  - rewrite (Dataset_len_holds _ d _ tr) by done. do 2 f_equal. lia.
  - rewrite (Dataset_len_holds _ d _ te) by done. do 2 f_equal. lia.
  - rewrite !lookup_insert_ne; [done| |]; intros ->; congruence.
Qed.

Lemma train_test_split_partition_witness :
  exists train_set eval_set σ' tr te,
    train_test_split reversed 0%nat (F64.lit 7 10) sample_config None
        default_modes (sole (labelled_frame 10))
      = ok ((train_set, eval_set), σ')
    /\ mode train_set = "train" /\ mode eval_set = "eval"
    /\ holds_rows σ' (labelled_frame 10) train_set tr
    /\ holds_rows σ' (labelled_frame 10) eval_set te
    /\ df train_set <> df eval_set
    /\ tr ++ te ≡ₚ seq 0 10
    /\ (forall i, i ∈ tr -> i ∉ te)
    /\ F64.floor (F64.mul (F64.of_Z 10) (F64.lit 7 10)) = Some 7
    /\ Dataset_len train_set σ' = ok (7, σ')
    /\ Dataset_len eval_set σ' = ok (3, σ')
    /\ σ' !! 0%nat = Some (labelled_frame 10).
Proof.
  apply (train_test_split_partition reversed (sole (labelled_frame 10)) 0%nat
           (labelled_frame 10) (F64.lit 7 10) sample_config None
           default_modes 7).
  - apply reversed_Permutation.
  - reflexivity.
  - reflexivity.
  - reflexivity.
  - reflexivity.
  - reflexivity.
  - vm_compute. split; reflexivity.
Defined.

(** ** Splitting a split *)




Lemma wrap_int64_idem z : wrap_int64 (wrap_int64 z) = wrap_int64 z.
Proof.
  unfold wrap_int64.
  replace ((z + 2 ^ 63) mod 2 ^ 64 - 2 ^ 63 + 2 ^ 63)
    with ((z + 2 ^ 63) mod 2 ^ 64) by lia.
  by rewrite Z.mod_mod.
Qed.

Lemma astype_int64_idem s : astype_int64 (astype_int64 s) = astype_int64 s.
Proof.
  unfold astype_int64; simpl. f_equal.
  rewrite <- list_fmap_compose. apply list_fmap_ext.
  intros _ [z| | |] _; simpl; [|done..]. by rewrite wrap_int64_idem.
Qed.

Lemma after_init_idem m d : after_init m (after_init m d) = after_init m d.
Proof.
  unfold after_init. destruct (bool_decide _); [done|].
  unfold int64_labels.
  destruct (df_columns d !! "label") as [s|] eqn:E; [|by rewrite E].
  unfold set_column; simpl. rewrite lookup_insert_eq, E. simpl.
  by rewrite insert_insert_eq, astype_int64_idem.
Qed.



(** ** Dataset.split *)

Section SplitRun.

Variable permutation : Z -> nat -> list nat.

(** The four steps of [split], each propagating what the one before
    raised. *)
Lemma split_unfold σ frame rs cfg tf :
  split permutation frame rs cfg tf σ =
    match py_assert (F64.leb (sumation rs) F64.one) with
    | inl e => inl e
    | inr _ =>
      match train_test_split permutation frame (fst rs) cfg tf default_modes σ with
      | inl e => inl e
      | inr ((train_set, eval_set), σ1) =>
        match valid_set_ratio rs with
        | inl e => inl e
        | inr v =>
          match train_test_split permutation (df eval_set) v cfg tf
                  ("eval", "eval") σ1 with
          | inl e => inl e
          | inr ((valid_set, test_set), σ2) =>
              ok ((train_set, valid_set, test_set), σ2)
          end
        end
      end
    end.
Proof.
  unfold split, bind at 1, lift at 1.
  destruct (py_assert _) as [e|[]]; [reflexivity|].
  cbn beta iota delta [ok]. unfold bind at 1.
  destruct (train_test_split permutation frame _ _ _ _ σ)
    as [e|[[train_set eval_set] σ1]]; [reflexivity|].
  unfold bind at 1, lift at 1.
  destruct (valid_set_ratio rs) as [e|v]; [reflexivity|].
  cbn beta iota delta [ok]. unfold bind at 1.
  destruct (train_test_split permutation (df eval_set) _ _ _ _ σ1)
    as [e|[[valid_set test_set] σ2]]; reflexivity.
Qed.

(** A ratio that is not below 1 stops at the first statement. *)
Lemma train_test_split_assert_fails σ frame r cfg tf modes :
  F64.ltb r F64.one = false ->
  train_test_split permutation frame r cfg tf modes σ
    = raise AssertionError Repository.
Proof.
  intros H. unfold train_test_split, bind at 1, lift at 1, py_assert.
  by rewrite H.
Qed.

End SplitRun.









(** ** Failures *)



Section Failures.

Variable permutation : Z -> nat -> list nat.




End Failures.


(** The steps of [train_test_split], one after the other. *)
Section Propagation.

Variable permutation : Z -> nat -> list nat.


End Propagation.




(** ** lab3: constructing the model *)

Lemma nn_Linear_float_out a h : nn_Linear a (PFloat h) = raise TypeError Torch.
Proof. by destruct a. Qed.

Lemma nn_Linear_float_in h b : nn_Linear (PFloat h) b = raise TypeError Torch.
Proof. done. Qed.

Section Construction.

Variables Conv2d ConvTranspose2d : Type.
Variable nn_Conv2d : Z -> Z -> Z -> Z -> Z -> result Conv2d.
Variable nn_ConvTranspose2d : Z -> Z -> Z -> Z -> Z -> result ConvTranspose2d.

Lemma Encoder_init_fails config :
  exists e, Encoder_init Conv2d nn_Conv2d config = inl e.
Proof.
  unfold Encoder_init, rbind.
  destruct (py_index _ (-1)) as [e|last]; [by eauto|].
  destruct (nn_Conv2d last _ _ _ _) as [e|conv1]; [by eauto|].
  destruct (nn_Conv2d _ _ _ _ _) as [e|conv2]; [by eauto|].
  destruct (py_index _ 0) as [e|first]; [by eauto|].
  destruct (py_floordiv _ _) as [e|quarter]; [by eauto|].
  destruct (py_truediv _ _) as [e|half]; [by eauto|].
  rewrite nn_Linear_float_out. by eauto.
Qed.

Lemma Decoder_init_fails config :
  exists e, Decoder_init ConvTranspose2d nn_ConvTranspose2d config = inl e.
Proof.
  unfold Decoder_init, rbind.
  destruct (py_index _ (-1)) as [e|last]; [by eauto|].
  destruct (py_index _ 0) as [e|first]; [by eauto|].
  destruct (py_floordiv _ _) as [e|quarter]; [by eauto|].
  destruct (py_truediv _ _) as [e|half]; [by eauto|].
  rewrite nn_Linear_float_out. by eauto.
Qed.

(** C6. Whatever the configuration and whatever the convolution layers
    do, constructing an [Encoder] or a [Decoder] fails, and so does
    constructing a [VariationalAutoencoder]: [dim / 2] is a float (when it
    is a value at all), and a linear layer with a float size is refused
    with [TypeError], as input size as well as output size. *)
Theorem model_construction_fails config :
  (exists e, Encoder_init Conv2d nn_Conv2d config = inl e)
  /\ (exists e, Decoder_init ConvTranspose2d nn_ConvTranspose2d config = inl e)
  /\ (exists e,
        VariationalAutoencoder_init Conv2d ConvTranspose2d nn_Conv2d
          nn_ConvTranspose2d config = inl e)
  /\ (forall (half : float) (size : pynum),
        nn_Linear size (PFloat half) = raise TypeError Torch
        /\ nn_Linear (PFloat half) size = raise TypeError Torch).
Proof.
  split; [apply Encoder_init_fails|].
  split; [apply Decoder_init_fails|].
  split.
  - unfold VariationalAutoencoder_init, rbind.
    destruct (Encoder_init_fails config) as [e ->]. by eauto.
  - intros half size. split; [apply nn_Linear_float_out|done].
Qed.

End Construction.

(** With convolution layers that can be built, the default configuration
    stops at the first linear layer, of sizes 6272 and 3136.0. *)
Lemma default_Encoder_init :
  Encoder_init unit (fun _ _ _ _ _ => ok tt) default_ModelConfig
    = raise TypeError Torch
  /\ py_truediv 6272 2 = ok (F64.of_Z 3136).
Proof. by vm_compute. Qed.

(** ** lab3: the forward pass *)

Section Forward.

Variables Conv2d ConvTranspose2d Tensor Generator : Type.
Variable call_Conv2d : Conv2d -> Tensor -> result Tensor.
Variable call_ConvTranspose2d : ConvTranspose2d -> Tensor -> result Tensor.
Variable call_Linear : Linear -> Tensor -> result Tensor.
Variable relu : Tensor -> Tensor.
Variable reshape_rows : Tensor -> result Tensor.
Variable size0 : Tensor -> Z.
Variable view4 : Tensor -> Z -> Z -> Z -> Z -> result Tensor.
Variable softmax1 : Tensor -> result Tensor.
Variable mul_scalar : Tensor -> float -> Tensor.
Variable exp_ : Tensor -> Tensor.
Variable normal_like : Tensor -> Generator -> Tensor * Generator.
Variable mul : Tensor -> Tensor -> result Tensor.
Variable add_ : Tensor -> Tensor -> result Tensor.

Local Abbreviation enc := (Encoder_forward Conv2d Tensor call_Conv2d call_Linear relu reshape_rows).
Local Abbreviation dec := (Decoder_forward ConvTranspose2d Tensor call_ConvTranspose2d
             call_Linear relu size0 view4 softmax1).
Local Abbreviation sample := (latent_sample Conv2d ConvTranspose2d Tensor Generator
                mul_scalar exp_ normal_like mul add_).
Local Abbreviation fwd := (forward Conv2d ConvTranspose2d Tensor Generator call_Conv2d
             call_ConvTranspose2d call_Linear relu reshape_rows size0 view4
             softmax1 mul_scalar exp_ normal_like mul add_).

(** C7. [forward(x)] returns [(x_recon, mu, logvar)] exactly when the
    encoder returns [(mu, logvar)] on [x], [latent_sample] returns some
    [latent] on them, and the decoder returns [x_recon] on [latent]; and
    when the model is not in training mode, [latent_sample(mu, logvar)] is
    [mu] itself, with no noise drawn, so that [forward] is the decoder on
    [mu] together with [mu] and [logvar]. *)
Theorem forward_returns (self : VariationalAutoencoder Conv2d ConvTranspose2d)
    (x : Tensor) (g : Generator) :
  (forall x_recon mu logvar g',
     fwd self x g = ok (x_recon, mu, logvar, g') <->
     exists latent,
       enc (encoder _ _ self) x = ok (mu, logvar)
       /\ sample self mu logvar g = ok (latent, g')
       /\ dec (decoder _ _ self) latent = ok x_recon)
  /\ (training _ _ self = false ->
      (forall mu logvar, sample self mu logvar g = ok (mu, g))
      /\ fwd self x g =
           run '(mu, logvar) <- enc (encoder _ _ self) x;
           run x_recon <- dec (decoder _ _ self) mu;
           ok (x_recon, mu, logvar, g)).
Proof.
  split.
  - intros x_recon mu logvar g'.
    unfold forward, rbind.
    destruct (Encoder_forward _ _ _ _ _ _ _ x) as [e|[m l]].
    { split; [done|]. by intros (latent & H & _). }
    destruct (latent_sample _ _ _ _ _ _ _ _ _ self m l g) as [e|[z g1]] eqn:Es.
    { split; [done|]. intros (latent & [= <- <-] & H & _).
      rewrite Es in H. done. }
    destruct (Decoder_forward _ _ _ _ _ _ _ _ _ z) as [e|r] eqn:Ed.
    { split; [done|]. intros (latent & [= <- <-] & H & H').
      rewrite Es in H. injection H as <- <-. rewrite Ed in H'. done. }
    split.
    + intros [= <- <- <- <-]. by exists z.
    + intros (latent & [= <- <-] & H & H').
      rewrite Es in H. injection H as <- <-.
      rewrite Ed in H'. by injection H' as <-.
  - intros Heval.
    assert (forall mu logvar, sample self mu logvar g = ok (mu, g)) as Hs.
    { intros mu logvar. unfold latent_sample. by rewrite Heval. }
    split; [exact Hs|].
    unfold forward, rbind.
    destruct (Encoder_forward _ _ _ _ _ _ _ x) as [e|[m l]]; [done|].
    by rewrite Hs.
Qed.

End Forward.

Lemma forward_returns_witness :
  (forall x_recon mu logvar g',
     toy_forward (toy_vae false) 5 0%nat = ok (x_recon, mu, logvar, g') <->
     exists latent,
       Encoder_forward unit Z toy_layer toy_layer (fun x => Z.max x 0)
           (fun x => ok x) (encoder _ _ (toy_vae false)) 5 = ok (mu, logvar)
       /\ latent_sample unit unit Z nat (fun x _ => x) (fun x => x)
            (fun x g => (Z.of_nat g, S g)) (fun x y => ok (x * y))
            (fun x y => ok (x + y)) (toy_vae false) mu logvar 0%nat
          = ok (latent, g')
       /\ Decoder_forward unit Z toy_layer toy_layer (fun x => Z.max x 0)
            (fun _ => 1) (fun x _ _ _ _ => ok x) (fun x => ok x)
            (decoder _ _ (toy_vae false)) latent = ok x_recon)
  /\ (training _ _ (toy_vae false) = false ->
      (forall mu logvar,
         latent_sample unit unit Z nat (fun x _ => x) (fun x => x)
           (fun x g => (Z.of_nat g, S g)) (fun x y => ok (x * y))
           (fun x y => ok (x + y)) (toy_vae false) mu logvar 0%nat
         = ok (mu, 0%nat))
      /\ toy_forward (toy_vae false) 5 0%nat = ok (13, 9, 9, 0%nat)).
Proof.
  apply (forward_returns unit unit Z nat toy_layer toy_layer toy_layer
           (fun x => Z.max x 0) (fun x => ok x) (fun _ => 1)
           (fun x _ _ _ _ => ok x) (fun x => ok x)
           (fun x _ => x) (fun x => x) (fun x g => (Z.of_nat g, S g))
           (fun x y => ok (x * y)) (fun x y => ok (x + y))
           (toy_vae false) 5 0%nat).
Defined.

(** ** lab2/nfnet: the optimizer *)

Section OptimizerProperties.

Variable Param : Type.
Variable model : NFNet Param.

Lemma exclude_all_map groups :
  exclude_all Param model groups = exclude Param model <$> groups.
Proof. induction groups as [|g groups IH]; simpl; by rewrite ?IH. Qed.

Lemma exclude_same g : same_but_decay_and_clipping (exclude Param model g) g.
Proof.
  unfold exclude, same_but_decay_and_clipping.
  destruct (exclude_from_weight_decay _ _ _), (exclude_from_clipping _ _ _);
    by simpl.
Qed.

Lemma exclude_configured config named :
  exclude Param model
    (mkGroup _ (snd named) (fst named) (learning_rate config)
       (momentum config) (PInt 0) (PFloat (weight_decay config))
       (nesterov config) (clipping config) (F64.lit 1 1000))
  = configured_group model config named.
Proof.
  unfold exclude, configured_group. simpl.
  destruct (exclude_from_weight_decay _ _ _), (exclude_from_clipping _ _ _);
    by simpl.
Qed.

Lemma SGD_AGC_groups named lr mom clip wd nest library :
  SGD_AGC Param named lr mom clip wd nest = ok library ->
  param_groups _ library =
    (fun '(name, param) =>
       mkGroup _ param name lr mom (PInt 0) (PFloat wd) nest clip
         (F64.lit 1 1000)) <$> named.
Proof.
  unfold SGD_AGC, raise, ok. cbv zeta.
  destruct (F64.ltb lr F64.zero); [discriminate|].
  destruct (F64.ltb mom F64.zero); [discriminate|].
  destruct (F64.ltb wd F64.zero); [discriminate|].
  destruct (nest && _); [discriminate|].
  destruct named; [discriminate|]. by intros [= <-].
Qed.

(** C8, amended.  Whenever the library constructor accepts the
    hyperparameters, [_get_optimizer] returns its optimizer with one group
    per named parameter, in order; a group's "weight_decay" is 0 if
    [exclude_from_weight_decay] holds for its name and the config's
    [weight_decay] otherwise, its "clipping" is [None] if
    [exclude_from_clipping] holds for its name and the config's [clipping]
    otherwise; every other key of every group is as the library set it; and
    a config that agrees on [learning_rate], [momentum], [clipping],
    [weight_decay] and [nesterov] gives the same result. *)
Theorem _get_optimizer_configures config library :
  SGD_AGC Param (named_parameters _ model) (learning_rate config)
    (momentum config) (clipping config) (weight_decay config)
    (nesterov config) = ok library ->
  exists optimizer,
    _get_optimizer Param model config = ok optimizer
    /\ param_groups _ optimizer
       = configured_group model config <$> named_parameters _ model
    /\ Forall2 same_but_decay_and_clipping
         (param_groups _ optimizer) (param_groups _ library)
    /\ (forall g, g ∈ param_groups _ optimizer ->
          (num_is_zero (pg_weight_decay _ g) = true <->
             exclude_from_weight_decay _ model (pg_name _ g) = true
             \/ F64.is_zero (weight_decay config) = true)
          /\ (pg_clipping _ g = None <->
                exclude_from_clipping _ model (pg_name _ g) = true
                \/ clipping config = None))
    /\ (forall config',
          same_hyperparameters config config' ->
          _get_optimizer Param model config'
          = _get_optimizer Param model config).
Proof.
  intros Hlib. pose proof (SGD_AGC_groups _ _ _ _ _ _ _ Hlib) as Hgroups.
  exists (mkOptimizer _ (exclude_all Param model (param_groups _ library))).
  assert (exclude_all Param model (param_groups _ library)
          = configured_group model config <$> named_parameters _ model) as Heq.
  { rewrite exclude_all_map, Hgroups, <- list_fmap_compose.
    apply list_fmap_ext. intros _ [name param] _.
    apply (exclude_configured config (name, param)). }
  split; [unfold _get_optimizer; by rewrite Hlib|].
  split; [exact Heq|].
  split.
  { simpl. rewrite exclude_all_map. apply Forall2_fmap_l, Forall_Forall2_diag.
    apply Forall_forall. intros g _. apply exclude_same. }
  split.
  { simpl. rewrite Heq. intros g Hg.
    apply list_elem_of_fmap in Hg as ([name param] & -> & _).
    unfold configured_group; simpl.
    destruct (exclude_from_weight_decay _ _ _),
             (exclude_from_clipping _ _ _); simpl;
      split; split; intros H; auto; try done;
      destruct H as [H|H]; done. }
  intros config' (H1 & H2 & H3 & H4 & H5).
  unfold _get_optimizer. by rewrite H1, H2, H3, H4, H5.
Qed.

End OptimizerProperties.

(** C8, with weight decay switched off in the config: the group of
    "stem.conv0.weight" has a weight decay of 0 although the model does not
    exclude that name. *)
Lemma zero_decay_without_exclusion :
  exists optimizer g,
    _get_optimizer unit sample_model no_decay_config = ok optimizer
    /\ g ∈ param_groups _ optimizer
    /\ pg_name _ g = "stem.conv0.weight"
    /\ num_is_zero (pg_weight_decay _ g) = true
    /\ exclude_from_weight_decay _ sample_model (pg_name _ g) = false.
Proof.
  eexists _, (configured_group sample_model no_decay_config
                ("stem.conv0.weight", tt)).
  split; [vm_compute; reflexivity|].
  split; [|by vm_compute].
  vm_compute. apply list_elem_of_here.
Qed.

(** ** Computations that only read the objects *)

Lemma reads_only_ret {A} (a : A) : reads_only (ret a).
Proof. intros σ a' σ'. unfold ret. by intros [= _ <-]. Qed.

Lemma reads_only_lift {A} (c : result A) : reads_only (lift c).
Proof. intros σ a σ'. unfold lift. destruct c; [done|]. by intros [= _ <-]. Qed.

Lemma reads_only_deref l : reads_only (deref l).
Proof.
  intros σ a σ'. unfold deref. destruct (σ !! l); [|done]. by intros [= _ <-].
Qed.

Lemma reads_only_bind {A B} (c : M A) (k : A -> M B) :
  reads_only c -> (forall a, reads_only (k a)) -> reads_only (bind c k).
Proof.
  intros Hc Hk σ b σ'. unfold bind.
  destruct (c σ) as [e|[a σ1]] eqn:E; [done|].
  apply Hc in E as ->. apply Hk.
Qed.

Lemma bind_ok_inv {A B} (c : M A) (k : A -> M B) σ b σ' :
  bind c k σ = ok (b, σ') ->
  exists a σ1, c σ = ok (a, σ1) /\ k a σ1 = ok (b, σ').
Proof.
  unfold bind. destruct (c σ) as [e|[a σ1]]; [done|]. by eauto.
Qed.

Lemma reads_only_Dataset_len ds : reads_only (Dataset_len ds).
Proof.
  apply reads_only_bind; [apply reads_only_deref|].
  intros d. apply reads_only_ret.
Qed.

Lemma reads_only_torch_DataLoader ds size shuffle workers persistent pin :
  reads_only (torch_DataLoader ds size shuffle workers persistent pin).
Proof.
  unfold torch_DataLoader.
  apply reads_only_bind; [apply reads_only_lift|]. intros _.
  apply reads_only_bind; [apply reads_only_lift|]. intros _.
  apply reads_only_bind.
  { destruct shuffle; [|apply reads_only_ret].
    apply reads_only_bind; [apply reads_only_Dataset_len|].
    intros n. apply reads_only_lift. }
  intros _. apply reads_only_bind; [apply reads_only_lift|]. intros _.
  apply reads_only_ret.
Qed.

Lemma reads_only_data_loader ds : reads_only (data_loader ds).
Proof.
  apply reads_only_bind; [apply reads_only_lift|].
  intros size. apply reads_only_torch_DataLoader.
Qed.

Section Reading.

Context {Image Tensor Torch : Type} (lib : Library Image Tensor Torch).

Lemma reads_only_Dataset_getitem ds index t :
  reads_only (Dataset_getitem lib ds index t).
Proof.
  unfold Dataset_getitem.
  apply reads_only_bind; [apply reads_only_deref|]. intros d.
  apply reads_only_bind; [apply reads_only_lift|]. intros [imgpath label].
  apply reads_only_bind; [apply reads_only_lift|]. intros img.
  apply reads_only_bind; [apply reads_only_lift|]. intros [img' t'].
  destruct (negb _); apply reads_only_ret.
Qed.

Lemma reads_only_fetch ds batch t : reads_only (fetch lib ds batch t).
Proof.
  revert t. induction batch as [|idx batch IH]; intros t; simpl.
  - apply reads_only_ret.
  - apply reads_only_bind; [apply reads_only_Dataset_getitem|].
    intros [data t1]. apply reads_only_bind; [apply IH|].
    intros [rest t2]. apply reads_only_ret.
Qed.

Lemma reads_only_next_batch dl batch t : reads_only (next_batch lib dl batch t).
Proof.
  apply reads_only_bind; [apply reads_only_fetch|]. intros [data t1].
  apply reads_only_bind; [apply reads_only_lift|]. intros data'.
  apply reads_only_ret.
Qed.

Lemma reads_only_iterate dl t : reads_only (iterate lib dl t).
Proof.
  apply reads_only_bind; [apply reads_only_Dataset_len|]. intros n.
  apply reads_only_bind; [apply reads_only_lift|]. intros [sampler t1].
  apply reads_only_ret.
Qed.

End Reading.

(** ** lab2/nfnet: one epoch *)

(** [x / len(dataset)] on a dataset without rows. *)
Lemma py_fdiv_int_zero x : py_fdiv_int x 0 = raise ZeroDivisionError Interpreter.
Proof. done. Qed.

Section EpochProperties.

Context {Image Tensor Torch : Type} (lib : Library Image Tensor Torch).

(** The body of the loop, with the flag and the lines in closed form. *)
Lemma train_batch_run config st t data :
  train_batch lib config st t data
  = run '(inputs, targets, output, loss, t) <- train_step lib config t data;
    run loss_item <- item lib loss;
    run size <- size0 lib inputs;
    run predicted <- argmax1 lib output;
    run correct <- count_equal lib predicted targets;
    let tem := F64.mul loss_item (F64.of_Z size) in
    ok (mkEpoch (F64.add (running_loss st) tem) (correct_labels st + correct)
          (F64.is_nan tem)
          (printed st ++ if xorb (F64.is_nan tem) (is_nan st)
                         then [nan_line (is_nan st)] else []), t).
Proof.
  unfold train_batch, rbind.
  destruct (train_step lib config t data)
    as [e|[[[[inputs targets] output] loss] t2]]; [done|].
  destruct (item lib loss) as [e|loss_item]; [done|].
  destruct (size0 lib inputs) as [e|size]; [done|].
  cbv zeta.
  destruct (F64.is_nan _) eqn:En, (is_nan st) eqn:Eb; cbn [negb xorb nan_line];
    destruct (argmax1 lib output) as [e|predicted]; try done;
    destruct (count_equal lib predicted targets) as [e|correct]; try done;
    by rewrite ?app_nil_r.
Qed.

Lemma train_loop_cons config dl batch batches σ st t :
  train_loop lib config dl st t (batch :: batches) σ
  = match next_batch lib dl batch t σ with
    | inl e => inl e
    | inr ((data, t), σ) =>
        match train_batch lib config st t data with
        | inl e => inl e
        | inr (st, t) => train_loop lib config dl st t batches σ
        end
    end.
Proof.
  cbn [train_loop]. unfold bind at 1.
  destruct (next_batch lib dl batch t σ) as [e|[[data t1] σ1]]; [done|].
  unfold bind, lift. by destruct (train_batch lib config st t1 data) as [e|[st1 t2]].
Qed.

(** The invariant of the loop: the accumulators are the sums of the terms
    of the batches run so far, the lines alternate, and an exception of a
    fetch or of a call ends the loop. *)
Lemma train_loop_terms config dl batches σ st t :
  match epoch_terms lib config dl t batches σ with
  | inl e => train_loop lib config dl st t batches σ = inl e
  | inr (terms, t') =>
      exists st' lines,
        train_loop lib config dl st t batches σ = ok ((st', t'), σ)
        /\ running_loss st' = fold_left F64.add (fst <$> terms) (running_loss st)
        /\ correct_labels st' = correct_labels st + sum_correct terms
        /\ printed st' = printed st ++ lines
        /\ alternating (is_nan st) lines
        /\ (lines = [] <->
            Forall (fun term => term_is_nan term = is_nan st) terms)
        /\ length terms = length batches
  end.
Proof.
  revert st t. induction batches as [|batch batches IH]; intros st t.
  - simpl. exists st, []. unfold ret, sum_correct. simpl.
    rewrite app_nil_r, Z.add_0_r. by repeat split.
  - rewrite train_loop_cons. cbn [epoch_terms]. unfold rbind at 1.
    destruct (next_batch lib dl batch t σ) as [e|[[data t1] σ1]] eqn:Hn; [done|].
    apply reads_only_next_batch in Hn as ->.
    rewrite train_batch_run. unfold rbind.
    destruct (train_step lib config t1 data)
      as [e|[[[[inputs targets] output] loss] t2]]; [done|].
    destruct (item lib loss) as [e|loss_item]; [done|].
    destruct (size0 lib inputs) as [e|size]; [done|].
    destruct (argmax1 lib output) as [e|predicted]; [done|].
    destruct (count_equal lib predicted targets) as [e|correct]; [done|].
    cbv zeta. cbn beta iota delta [ok].
    set (tem := F64.mul loss_item (F64.of_Z size)).
    match goal with
    | |- context [train_loop lib config dl ?s t2 batches σ] =>
        specialize (IH s t2)
    end.
    destruct (epoch_terms lib config dl t2 batches σ) as [e|[terms t']];
      [done|].
    destruct IH as (st' & lines & Hrun & Hloss & Hcorrect & Hprinted & Halt
                    & Hnone & Hlen).
    cbn [running_loss correct_labels printed is_nan] in *.
    exists st'. eexists. split; [exact Hrun|].
    split; [by rewrite Hloss|].
    split; [rewrite Hcorrect; unfold sum_correct; simpl; symmetry;
            apply Z.add_assoc|].
    split; [by rewrite Hprinted, <- app_assoc|].
    split; [|split; [|by simpl; rewrite Hlen]].
    + destruct (F64.is_nan tem), (is_nan st); cbn [xorb nan_line app];
        by try split.
    + rewrite Forall_cons. unfold term_is_nan at 1; cbn [fst]. fold tem.
      destruct (F64.is_nan tem) eqn:En, (is_nan st) eqn:Eb;
        cbn [xorb nan_line app]; rewrite ?Hnone; try tauto;
        (split; [done|intros [? _]; done]).
Qed.

Lemma reads_only_train_loop config dl st t batches :
  reads_only (train_loop lib config dl st t batches).
Proof.
  revert st t. induction batches as [|batch batches IH]; intros st t; simpl.
  - apply reads_only_ret.
  - apply reads_only_bind; [apply reads_only_next_batch|]. intros [data t1].
    apply reads_only_bind; [apply reads_only_lift|]. intros [st1 t2].
    apply IH.
Qed.

(** The epoch, once the loader is made and iterated. *)
Lemma _train_epoch_run self train_dataset σ t dataloader batches t0 n :
  model_train lib (torch self) = ok t ->
  data_loader train_dataset σ = ok (dataloader, σ) ->
  iterate lib dataloader t σ = ok ((batches, t0), σ) ->
  Dataset_len train_dataset σ = ok (n, σ) ->
  _train_epoch lib self train_dataset σ
  = match train_loop lib (utils_config self) dataloader
            (mkEpoch F64.zero 0 false []) t0 batches σ with
    | inl e => inl e
    | inr ((st, t'), _) =>
        run running_loss <- py_fdiv_int (running_loss st) n;
        run train_acc <- py_truediv (correct_labels st) n;
        ok ((running_loss, train_acc, mkUtils (utils_config self) t',
             printed st), σ)
    end.
Proof.
  intros Ht Hdl Hit Hlen. unfold _train_epoch.
  unfold bind at 1, lift at 1. rewrite Ht. cbn beta iota delta [ok].
  unfold bind at 1. rewrite Hdl. cbn beta iota delta [ok].
  unfold bind at 1. rewrite Hit. cbn beta iota delta [ok].
  unfold bind at 1.
  destruct (train_loop _ _ _ _ _ _ _) as [e|[[st t'] σ1]] eqn:Hloop; [done|].
  apply reads_only_train_loop in Hloop as ->.
  unfold bind at 1. rewrite Hlen. cbn beta iota delta [ok].
  unfold bind at 1, lift at 1, rbind at 1.
  destruct (py_fdiv_int _ n) as [e|l]; [done|].
  cbn beta iota delta [ok]. unfold bind at 1. rewrite Hlen.
  cbn beta iota delta [ok]. unfold bind at 1, lift at 1, rbind at 1.
  by destruct (py_truediv _ n) as [e|a].
Qed.

(** C4, amended.  Take a training dataset for which the model is put in
    training mode, the loader is made and its iteration starts, and let [n]
    be the length of the dataset.  If fetching a batch (the [__getitem__] of
    its items and their collation) or a library call of a step raises, that
    exception is the outcome of [_train_epoch].  Otherwise every batch of the
    loader is run once, in order, and [_train_epoch] returns
    [(running_loss, train_acc)]: the float sum, over the batches in order,
    of batch loss times batch size, divided by [n], and the number of samples
    whose argmax prediction equals the target divided by [n] (both quotients
    being representable); the library state is the one the last batch left
    and the store of dataframes is unchanged.  With [n = 0] the division
    raises [ZeroDivisionError]. *)
Theorem _train_epoch_returns self train_dataset σ t dataloader batches t0 n :
  model_train lib (torch self) = ok t ->
  data_loader train_dataset σ = ok (dataloader, σ) ->
  iterate lib dataloader t σ = ok ((batches, t0), σ) ->
  Dataset_len train_dataset σ = ok (n, σ) ->
  match epoch_terms lib (utils_config self) dataloader t0 batches σ with
  | inl e => _train_epoch lib self train_dataset σ = inl e
  | inr (terms, t') =>
      length terms = length batches
      /\ (n = 0 ->
          _train_epoch lib self train_dataset σ
          = raise ZeroDivisionError Interpreter)
      /\ (n <> 0 ->
          forall nf train_acc,
            py_float_of_int n = ok nf ->
            py_truediv (sum_correct terms) n = ok train_acc ->
            exists out,
              _train_epoch lib self train_dataset σ
              = ok ((F64.div (sum_losses terms) nf, train_acc,
                     mkUtils (utils_config self) t', out), σ))
  end.
Proof.
  intros Ht Hdl Hit Hlen.
  rewrite (_train_epoch_run self train_dataset σ t dataloader batches t0 n)
    by done.
  pose proof (train_loop_terms (utils_config self) dataloader batches σ
                (mkEpoch F64.zero 0 false []) t0) as Hloop.
  destruct (epoch_terms _ _ _ _ _ _) as [e|[terms t']]; [by rewrite Hloop|].
  destruct Hloop as (st & lines & -> & Hloss & Hcorrect & _ & _ & _ & Hl).
  cbn [running_loss correct_labels] in Hloss, Hcorrect.
  cbn beta iota delta [ok].
  rewrite Hloss, Hcorrect, Z.add_0_l. fold (sum_losses terms).
  split; [done|]. split.
  - intros ->. by rewrite py_fdiv_int_zero.
  - intros Hn nf train_acc Hnf Hacc. exists (printed st).
    unfold py_fdiv_int, rbind. rewrite Hnf, Hacc.
    by destruct (n =? 0) eqn:E; [lia|].
Qed.

End EpochProperties.

(** C4, on an empty training dataset: the constructor accepts a dataframe
    without rows; in mode "train" the library refuses to make a shuffling
    loader for it, and where a loader is made (mode "eval") the loop has no
    batch to run and the division of the running loss by
    [len(train_dataset) = 0] raises; no pair is returned. *)
Lemma _train_epoch_empty_dataset_raises :
  Dataset_init 0%nat sample_config "train" None (sole (labelled_frame 0))
    = ok (train_dataset_at 0%nat, sole (int64_labels (labelled_frame 0)))
  /\ Dataset_len (train_dataset_at 0%nat) (sole (int64_labels (labelled_frame 0)))
     = ok (0, sole (int64_labels (labelled_frame 0)))
  /\ _train_epoch (toy_library false) toy_utils (train_dataset_at 0%nat)
       (sole (int64_labels (labelled_frame 0)))
     = raise ValueError Torch
  /\ _train_epoch (toy_library false) toy_utils
       (mkDataset "eval" 0%nat EVAL_TRANSFORM sample_config)
       (sole (int64_labels (labelled_frame 0)))
     = raise ZeroDivisionError Interpreter.
Proof. repeat split; by vm_compute. Qed.

Lemma _train_epoch_returns_witness :
  exists out,
    _train_epoch (toy_library false) toy_utils (pictures_dataset "train" 2)
      (sole pictures_frame)
    = ok ((F64.of_Z 13, F64.lit 3 4, mkUtils default_NfnetConfig 2%nat, out),
          sole pictures_frame).
Proof.
  pose proof (_train_epoch_returns (toy_library false) toy_utils
                (pictures_dataset "train" 2) (sole pictures_frame) 0%nat
                (pictures_loader "train" 2) [[3; 2]; [1; 0]]%nat 0%nat 4
                eq_refl eq_refl eq_refl eq_refl) as H.
  vm_compute epoch_terms in H.
  destruct H as (_ & _ & H).
  apply (H ltac:(lia) (F64.of_Z 4) (F64.lit 3 4)); reflexivity.
Defined.

Lemma _get_optimizer_configures_witness :
  exists optimizer,
    _get_optimizer unit sample_model default_NfnetConfig = ok optimizer
    /\ param_groups _ optimizer
       = configured_group sample_model default_NfnetConfig
           <$> named_parameters _ sample_model
    /\ Forall2 same_but_decay_and_clipping (param_groups _ optimizer)
         (param_groups _ sample_library_optimizer)
    /\ (forall g, g ∈ param_groups _ optimizer ->
          (num_is_zero (pg_weight_decay _ g) = true <->
             exclude_from_weight_decay _ sample_model (pg_name _ g) = true
             \/ F64.is_zero (weight_decay default_NfnetConfig) = true)
          /\ (pg_clipping _ g = None <->
                exclude_from_clipping _ sample_model (pg_name _ g) = true
                \/ clipping default_NfnetConfig = None))
    /\ (forall config',
          same_hyperparameters default_NfnetConfig config' ->
          _get_optimizer unit sample_model config'
          = _get_optimizer unit sample_model default_NfnetConfig).
Proof.
  apply (_get_optimizer_configures unit sample_model default_NfnetConfig
           sample_library_optimizer).
  reflexivity.
Defined.

(** * Further properties *)

(** ** What a returned dataset is *)

Lemma forallb_in_range n (pos : list nat) :
  forallb (fun i => Nat.ltb i n) pos = true -> in_range n pos.
Proof.
  intros H. apply Forall_forall. intros i Hi.
  rewrite forallb_forall in H. apply Nat.ltb_lt, H.
  by apply list_elem_of_In.
Qed.

Lemma Dataset_init_result σ frame cfg m tr ds σ' :
  Dataset_init frame cfg m tr σ = ok (ds, σ') ->
  exists d,
    σ !! frame = Some d
    /\ accepts m d = true
    /\ ds = mkDataset m frame (chosen_transform m tr) cfg
    /\ σ' = <[frame := after_init m d]> σ.
Proof.
  intros H. destruct (σ !! frame) as [d|] eqn:Hd.
  - exists d. pose proof (Dataset_init_inv _ _ _ _ _ _ _ _ Hd H) as Hacc.
    rewrite (Dataset_init_ok σ frame d) in H by done.
    injection H as <- <-. done.
  - unfold Dataset_init, bind, lift, deref, py_assert in H.
    destruct (known_mode m); simpl in H; [|done].
    by rewrite Hd in H.
Qed.

Section Inversion.

Variable permutation : Z -> nat -> list nat.

Lemma sk_train_test_split_inv d k seed train test :
  sk_train_test_split permutation d k seed = ok (train, test) ->
  0 < k < Z.of_nat (nrows d)
  /\ exists tr te,
       shuffle_split permutation seed (nrows d) k (Z.of_nat (nrows d) - k)
         = (tr, te)
       /\ in_range (nrows d) tr /\ in_range (nrows d) te
       /\ train = take_rows tr d /\ test = take_rows te d.
Proof.
  unfold sk_train_test_split, validate_shuffle_split, rbind, iloc.
  destruct (k >=? Z.of_nat (nrows d)) eqn:E1; [done|].
  destruct (k <=? 0) eqn:E2; [done|].
  destruct (k =? 0) eqn:E3; [done|].
  cbn beta iota delta [ok orb].
  destruct (shuffle_split _ _ _ _ _) as [tr te].
  destruct (forallb _ tr) eqn:F1; [|done].
  destruct (forallb _ te) eqn:F2; [|done].
  intros [= <- <-]. split; [lia|].
  exists tr, te. repeat split; try done; by apply forallb_in_range.
Qed.

(** Everything a returned pair tells about the call that returned it. *)
Lemma train_test_split_inv σ frame r cfg tf modes train_set eval_set σ' :
  train_test_split permutation frame r cfg tf modes σ
    = ok ((train_set, eval_set), σ') ->
  exists d k tr te,
    σ !! frame = Some d
    /\ F64.ltb r F64.one = true
    /\ train_set_size (nrows d) r = ok k
    /\ 0 < k < Z.of_nat (nrows d)
    /\ shuffle_split permutation SEED (nrows d) k (Z.of_nat (nrows d) - k)
       = (tr, te)
    /\ in_range (nrows d) tr /\ in_range (nrows d) te
    /\ accepts (fst modes) d = true /\ accepts (snd modes) d = true
    /\ σ !! df train_set = None /\ σ !! df eval_set = None
    /\ df train_set <> df eval_set
    /\ train_set = mkDataset (fst modes) (df train_set)
                     (chosen_transform (fst modes) (fst (default (None, None) tf)))
                     cfg
    /\ eval_set = mkDataset (snd modes) (df eval_set)
                    (chosen_transform (snd modes) (snd (default (None, None) tf)))
                    cfg
    /\ σ' = <[df eval_set := after_init (snd modes) (take_rows te d)]>
              (<[df train_set := after_init (fst modes) (take_rows tr d)]> σ).
Proof.
  unfold train_test_split, bind at 1, lift at 1, py_assert.
  destruct (F64.ltb r F64.one) eqn:Hlt; [|done].
  cbn beta iota delta [ok]. unfold bind at 1, deref.
  destruct (σ !! frame) as [d|] eqn:Hd; [|done].
  cbn beta iota delta [ok]. unfold bind at 1, lift at 1.
  destruct (train_set_size _ _) as [e|k] eqn:Hk; [done|].
  cbn beta iota delta [ok]. unfold bind at 1, lift at 1.
  destruct (sk_train_test_split _ _ _ _) as [e|[train_d eval_d]] eqn:Hsk; [done|].
  apply sk_train_test_split_inv in Hsk
    as (Hkr & tr & te & Hsp & Hr1 & Hr2 & -> & ->).
  cbn beta iota delta [ok]. unfold bind at 1, alloc at 1.
  cbn beta iota zeta delta [ok].
  unfold bind at 1, alloc at 1. cbn beta iota zeta delta [ok].
  set (l1 := fresh (dom σ)).
  set (σ1 := <[l1 := take_rows tr d]> σ).
  set (l2 := fresh (dom σ1)).
  assert (σ !! l1 = None) as Hl1 by (apply not_elem_of_dom, is_fresh).
  assert (σ1 !! l2 = None) as Hl2 by (apply not_elem_of_dom, is_fresh).
  assert (l1 <> l2) as Hne.
  { intros E. subst σ1. rewrite <- E, lookup_insert_eq in Hl2. done. }
  assert (σ !! l2 = None) as Hl2'.
  { subst σ1. by rewrite lookup_insert_ne in Hl2. }
  unfold bind at 1.
  destruct (Dataset_init l1 _ _ _ _) as [e|[ts σ3]] eqn:H1; [done|].
  apply Dataset_init_result in H1 as (d1 & Hd1 & Ha1 & -> & ->).
  unfold σ1 in Hd1.
  rewrite lookup_insert_ne, lookup_insert_eq in Hd1 by done.
  injection Hd1 as <-.
  cbn beta iota delta [ok]. unfold bind at 1.
  destruct (Dataset_init l2 _ _ _ _) as [e|[es σ4]] eqn:H2; [done|].
  apply Dataset_init_result in H2 as (d2 & Hd2 & Ha2 & -> & ->).
  rewrite lookup_insert_ne, lookup_insert_eq in Hd2 by done.
  injection Hd2 as <-.
  unfold ret. intros [= <- <- <-]. simpl df.
  rewrite accepts_take_rows in Ha1, Ha2.
  exists d, k, tr, te. repeat (split; [done|]).
  subst σ1. rewrite (insert_insert_ne _ l1 l2) by done.
  by rewrite !insert_insert_eq.
Qed.

End Inversion.

(** ** More on Dataset.__init__ *)

(** X1. In mode "inference" the constructor asks for the "img" column only:
    it returns exactly when the dataframe has one, whether or not there is a
    "label" column and whatever its dtype, and then the dataframe and every
    other object are exactly as before, the dataset refers to the caller's
    object, and without a transform of the caller's it gets the evaluation
    transform. *)
Theorem Dataset_init_inference σ frame d cfg tr :
  σ !! frame = Some d ->
  (is_Some (df_columns d !! "img") <->
     exists ds σ', Dataset_init frame cfg "inference" tr σ = ok (ds, σ'))
  /\ (forall ds σ',
        Dataset_init frame cfg "inference" tr σ = ok (ds, σ') ->
        σ' = σ /\ df ds = frame /\ mode ds = "inference"
        /\ (tr = None -> transform ds = EVAL_TRANSFORM))
  /\ (df_columns d !! "img" = None ->
      Dataset_init frame cfg "inference" tr σ = raise AssertionError Repository).
Proof.
  intros Hd.
  assert (accepts "inference" d = bool_decide (is_Some (df_columns d !! "img")))
    as Hacc.
  { unfold accepts. simpl. by rewrite andb_true_r. }
  split; [|split].
  - split.
    + intros Himg. rewrite (Dataset_init_ok σ frame d); [by eauto|done|].
      rewrite Hacc. by apply bool_decide_eq_true.
    + intros (ds & σ' & H).
      pose proof (Dataset_init_inv _ _ _ _ _ _ _ _ Hd H) as Ha.
      rewrite Hacc in Ha. by apply bool_decide_eq_true in Ha.
  - intros ds σ' H.
    apply Dataset_init_result in H as (d' & Hd' & _ & -> & ->).
    rewrite Hd in Hd'. injection Hd' as <-.
    unfold after_init. simpl. split; [by apply insert_id|].
    split; [done|]. split; [done|]. by intros ->.
  - intros Himg. unfold Dataset_init, bind, lift, deref, py_assert. simpl.
    rewrite Hd. simpl. by rewrite Himg.
Qed.

Lemma Dataset_init_inference_witness :
  (is_Some (df_columns (unlabelled_frame 3) !! "img") <->
     exists ds σ',
       Dataset_init 0%nat sample_config "inference" None
         (sole (unlabelled_frame 3)) = ok (ds, σ'))
  /\ (forall ds σ',
        Dataset_init 0%nat sample_config "inference" None
          (sole (unlabelled_frame 3)) = ok (ds, σ') ->
        σ' = sole (unlabelled_frame 3) /\ df ds = 0%nat
        /\ mode ds = "inference"
        /\ (@None Compose = None -> transform ds = EVAL_TRANSFORM))
  /\ (df_columns (unlabelled_frame 3) !! "img" = None ->
      Dataset_init 0%nat sample_config "inference" None
        (sole (unlabelled_frame 3)) = raise AssertionError Repository).
Proof.
  apply (Dataset_init_inference (sole (unlabelled_frame 3)) 0%nat
           (unlabelled_frame 3) sample_config None).
  reflexivity.
Defined.

Lemma wrap_int64_fits z : - 2 ^ 63 <= z < 2 ^ 63 -> wrap_int64 z = z.
Proof.
  intros H. unfold wrap_int64.
  rewrite Z.mod_small by lia. lia.
Qed.

Lemma wrap_int64_high z : 2 ^ 63 <= z < 2 ^ 64 -> wrap_int64 z = z - 2 ^ 64.
Proof.
  intros H. unfold wrap_int64.
  replace (z + 2 ^ 63) with (z - 2 ^ 63 + 1 * 2 ^ 64) by lia.
  rewrite Z.mod_add by lia. rewrite Z.mod_small by lia. lia.
Qed.

(** X2. What the cast of the constructor does to the labels, row by row:
    after a dataset of mode "train" or "eval" is constructed, the "label"
    column has as many cells as before, a label that fits in 64 signed bits
    is the same number as before, and a uint64 label from 2^63 on is that
    number minus 2^64. *)
Theorem Dataset_init_labels σ frame d cfg m tr ds σ' :
  σ !! frame = Some d ->
  m = "train" \/ m = "eval" ->
  Dataset_init frame cfg m tr σ = ok (ds, σ') ->
  exists label d' label',
    df_columns d !! "label" = Some label
    /\ σ' !! frame = Some d'
    /\ df_columns d' !! "label" = Some label'
    /\ length (s_values label') = length (s_values label)
    /\ forall (i : nat) z,
         s_values label !! i = Some (CInt z) ->
         (- 2 ^ 63 <= z < 2 ^ 63 -> s_values label' !! i = Some (CInt z))
         /\ (2 ^ 63 <= z < 2 ^ 64 ->
             s_values label' !! i = Some (CInt (z - 2 ^ 64))).
Proof.
  intros Hd Hm H.
  assert (bool_decide (m = "inference") = false) as Hinf.
  { apply bool_decide_eq_false. by destruct Hm as [-> | ->]. }
  apply Dataset_init_result in H as (d0 & Hd0 & Hacc & -> & ->).
  rewrite Hd in Hd0. injection Hd0 as <-.
  unfold accepts in Hacc. rewrite Hinf in Hacc.
  apply andb_prop in Hacc as [_ Hlab]. simpl in Hlab.
  destruct (df_columns d !! "label") as [label|] eqn:El; [|done].
  exists label, (after_init m d), (astype_int64 label).
  unfold after_init, int64_labels. rewrite Hinf, El.
  split; [done|]. split; [apply lookup_insert_eq|].
  split; [apply lookup_insert_eq|].
  split; [unfold astype_int64; simpl; by rewrite length_fmap|].
  intros i z Hi. unfold astype_int64; simpl.
  rewrite list_lookup_fmap, Hi. simpl.
  split; intros Hz.
  - by rewrite wrap_int64_fits.
  - by rewrite wrap_int64_high.
Qed.

Lemma Dataset_init_labels_witness :
  exists label d' label',
    df_columns uint64_frame !! "label" = Some label
    /\ <[0%nat := after_init "train" uint64_frame]> (sole uint64_frame) !! 0%nat
       = Some d'
    /\ df_columns d' !! "label" = Some label'
    /\ length (s_values label') = length (s_values label)
    /\ forall (i : nat) z,
         s_values label !! i = Some (CInt z) ->
         (- 2 ^ 63 <= z < 2 ^ 63 -> s_values label' !! i = Some (CInt z))
         /\ (2 ^ 63 <= z < 2 ^ 64 ->
             s_values label' !! i = Some (CInt (z - 2 ^ 64))).
Proof.
  apply (Dataset_init_labels (sole uint64_frame) 0%nat uint64_frame
           sample_config "train" None
           (mkDataset "train" 0%nat TRAIN_TRANSFORM sample_config)).
  - reflexivity.
  - left; reflexivity.
  - reflexivity.
Defined.

Lemma accepts_after_init_other m m2 d :
  accepts m d = true -> bool_decide (m = "inference") = false ->
  known_mode m2 = true ->
  accepts m2 (after_init m d) = true.
Proof.
  unfold accepts, after_init, int64_labels. intros H Hinf Hm2.
  rewrite Hinf in *. rewrite Hm2.
  apply andb_prop in H as [H1 H2]. apply andb_prop in H1 as [_ Himg].
  simpl in H2.
  destruct (df_columns d !! "label") as [s|] eqn:El; [|done].
  unfold set_column; simpl.
  rewrite lookup_insert_eq, lookup_insert_ne by done.
  rewrite Himg. simpl. by rewrite orb_true_r.
Qed.

Lemma after_init_after_init m m2 d :
  bool_decide (m = "inference") = false ->
  after_init m2 (after_init m d) = after_init m d.
Proof.
  intros Hinf. unfold after_init at 1.
  destruct (bool_decide (m2 = "inference")); [done|].
  unfold after_init. rewrite Hinf.
  pose proof (after_init_idem "train" d) as H.
  unfold after_init in H. by simpl in H.
Qed.

(** X3. A dataframe a dataset of mode "train" or "eval" was constructed on
    can be given to the constructor again, in any of the three modes and
    with any config and transform: the second construction returns, refers
    to the same object, and leaves every object as the first left it. *)
Theorem Dataset_init_again σ frame cfg m tr ds σ' cfg2 m2 tr2 :
  Dataset_init frame cfg m tr σ = ok (ds, σ') ->
  m = "train" \/ m = "eval" ->
  known_mode m2 = true ->
  Dataset_init frame cfg2 m2 tr2 σ'
    = ok (mkDataset m2 frame (chosen_transform m2 tr2) cfg2, σ').
Proof.
  intros H Hm Hm2.
  assert (bool_decide (m = "inference") = false) as Hinf.
  { apply bool_decide_eq_false. by destruct Hm as [-> | ->]. }
  apply Dataset_init_result in H as (d & Hd & Hacc & -> & ->).
  rewrite (Dataset_init_ok _ frame (after_init m d)).
  - by rewrite after_init_after_init, insert_insert_eq.
  - apply lookup_insert_eq.
  - by apply accepts_after_init_other.
Qed.

Lemma Dataset_init_again_witness :
  Dataset_init 0%nat sample_config "eval" None
    (sole (int64_labels (labelled_frame 3)))
  = ok (mkDataset "eval" 0%nat EVAL_TRANSFORM sample_config,
        sole (int64_labels (labelled_frame 3))).
Proof.
  apply (Dataset_init_again (sole (labelled_frame 3)) 0%nat sample_config
           "train" None (train_dataset_at 0%nat)
           (sole (int64_labels (labelled_frame 3))) sample_config "eval" None).
  - reflexivity.
  - left; reflexivity.
  - reflexivity.
Defined.

(** ** More on Dataset.train_test_split *)

(** X4. When [train_test_split] returns: exactly when [train_ratio < 1], the
    train size [int(n * train_ratio)] is a number strictly between 0 and the
    number [n] of rows, and the constructor accepts the dataframe in both
    modes.  (The hypothesis on the permutation is the contract of numpy's
    shuffle.) *)
Theorem train_test_split_returns_iff
    (permutation : Z -> nat -> list nat) σ frame d r cfg tf modes :
  permutation SEED (nrows d) ≡ₚ seq 0 (nrows d) ->
  σ !! frame = Some d ->
  (exists res, train_test_split permutation frame r cfg tf modes σ = ok res)
  <->
  F64.ltb r F64.one = true
  /\ (exists k, train_set_size (nrows d) r = ok k /\ 0 < k < Z.of_nat (nrows d))
  /\ accepts (fst modes) d = true
  /\ accepts (snd modes) d = true.
Proof.
  intros Hperm Hd. split.
  - intros ([[train_set eval_set] σ'] & H).
    apply train_test_split_inv in H
      as (d' & k & tr & te & Hd' & Hlt & Hk & Hkr & _ & _ & _ & Ha1 & Ha2 & _).
    rewrite Hd in Hd'. injection Hd' as <-. by eauto 10.
  - intros (Hlt & (k & Hk & Hkr) & Ha1 & Ha2).
    destruct (train_test_split_ok permutation σ frame d r cfg tf modes k)
      as (tr & te & l1 & l2 & _ & _ & _ & _ & _ & _ & Hrun); try done.
    by eauto.
Qed.

Lemma train_test_split_returns_iff_witness :
  (exists res,
     train_test_split reversed 0%nat (F64.lit 7 10) sample_config None
       default_modes (sole (labelled_frame 10)) = ok res)
  <->
  F64.ltb (F64.lit 7 10) F64.one = true
  /\ (exists k, train_set_size 10 (F64.lit 7 10) = ok k /\ 0 < k < 10)
  /\ accepts "train" (labelled_frame 10) = true
  /\ accepts "eval" (labelled_frame 10) = true.
Proof.
  apply (train_test_split_returns_iff reversed (sole (labelled_frame 10))
           0%nat (labelled_frame 10) (F64.lit 7 10) sample_config None
           default_modes).
  - apply reversed_Permutation.
  - reflexivity.
Defined.

(** X5. What [train_test_split] does to the objects: when it returns, the
    two datasets refer to two different dataframe objects that did not exist
    before, both exist afterwards, and every object that existed before the
    call, the caller's dataframe among them, is exactly as it was. *)
Theorem train_test_split_allocates
    (permutation : Z -> nat -> list nat) σ frame r cfg tf modes
    train_set eval_set σ' :
  train_test_split permutation frame r cfg tf modes σ
    = ok ((train_set, eval_set), σ') ->
  σ !! df train_set = None
  /\ σ !! df eval_set = None
  /\ df train_set <> df eval_set
  /\ is_Some (σ' !! df train_set)
  /\ is_Some (σ' !! df eval_set)
  /\ (forall l d0, σ !! l = Some d0 -> σ' !! l = Some d0)
  /\ dom σ' = dom σ ∪ {[df train_set; df eval_set]}.
Proof.
  intros H.
  apply train_test_split_inv in H
    as (d & k & tr & te & Hd & _ & _ & _ & _ & _ & _ & _ & _
        & Hl1 & Hl2 & Hne & _ & _ & ->).
  repeat (split; [done|]).
  split; [rewrite lookup_insert_ne, lookup_insert_eq by done; by eauto|].
  split; [rewrite lookup_insert_eq; by eauto|].
  split.
  - intros l d0 Hl. rewrite !lookup_insert_ne; [done| |]; intros <-; congruence.
  - rewrite !dom_insert_L. apply set_eq. intros x.
    rewrite !elem_of_union, !elem_of_singleton. tauto.
Qed.

Lemma train_test_split_allocates_witness :
  sole (labelled_frame 10) !! df (train_dataset_at 1%nat) = None
  /\ sole (labelled_frame 10) !! df ten_rows_eval_set = None
  /\ df (train_dataset_at 1%nat) <> df ten_rows_eval_set
  /\ is_Some (ten_rows_split_store !! df (train_dataset_at 1%nat))
  /\ is_Some (ten_rows_split_store !! df ten_rows_eval_set)
  /\ (forall l d0,
        sole (labelled_frame 10) !! l = Some d0 ->
        ten_rows_split_store !! l = Some d0)
  /\ dom ten_rows_split_store
     = dom (sole (labelled_frame 10))
       ∪ {[df (train_dataset_at 1%nat); df ten_rows_eval_set]}.
Proof.
  apply (train_test_split_allocates reversed (sole (labelled_frame 10))
           0%nat (F64.lit 7 10) sample_config None default_modes
           (train_dataset_at 1%nat) ten_rows_eval_set ten_rows_split_store).
  vm_compute. reflexivity.
Defined.

(** ** More on Dataset.split *)

Section SplitInversion.

Variable permutation : Z -> nat -> list nat.

Lemma split_inv σ frame rs cfg tf train_set valid_set test_set σ' :
  split permutation frame rs cfg tf σ
    = ok ((train_set, valid_set, test_set), σ') ->
  exists eval_set σ1 v,
    F64.leb (sumation rs) F64.one = true
    /\ train_test_split permutation frame (fst rs) cfg tf default_modes σ
       = ok ((train_set, eval_set), σ1)
    /\ valid_set_ratio rs = ok v
    /\ train_test_split permutation (df eval_set) v cfg tf ("eval", "eval") σ1
       = ok ((valid_set, test_set), σ').
Proof.
  rewrite split_unfold. unfold py_assert.
  destruct (F64.leb (sumation rs) F64.one); [|done].
  cbn beta iota delta [ok].
  destruct (train_test_split permutation frame rs.1 cfg tf default_modes σ)
    as [e|[[ts es] σ1]]; [done|].
  destruct (valid_set_ratio rs) as [e|v]; [done|].
  destruct (train_test_split permutation (df es) v cfg tf _ σ1)
    as [e|[[vs tes] σ2]] eqn:E2; [done|].
  intros [= <- <- <- <-]. by exists es, σ1, v.
Qed.

End SplitInversion.

(** X6. Which transform each dataset of [split] gets: the train dataset the
    first of [transforms_f] (by default the training transform), the test
    dataset the second (by default the evaluation transform), and the
    validation dataset again the first one; so with transforms of the
    caller's, the validation dataset is given the same transform as the
    train dataset, and only by default the evaluation transform. *)
Theorem split_transforms
    (permutation : Z -> nat -> list nat) σ frame rs cfg tf
    train_set valid_set test_set σ' :
  split permutation frame rs cfg tf σ
    = ok ((train_set, valid_set, test_set), σ') ->
  transform train_set = chosen_transform "train" (fst (default (None, None) tf))
  /\ transform valid_set = chosen_transform "eval" (fst (default (None, None) tf))
  /\ transform test_set = chosen_transform "eval" (snd (default (None, None) tf))
  /\ (forall a b, tf = Some (Some a, b) ->
        transform valid_set = a /\ transform train_set = a)
  /\ (tf = None ->
        transform train_set = TRAIN_TRANSFORM
        /\ transform valid_set = EVAL_TRANSFORM
        /\ transform test_set = EVAL_TRANSFORM).
Proof.
  intros H. apply split_inv in H as (eval_set & σ1 & v & _ & H1 & _ & H2).
  apply train_test_split_inv in H1
    as (d & k & tr & te & _ & _ & _ & _ & _ & _ & _ & _ & _ & _ & _ & _
        & Ets & _ & _).
  apply train_test_split_inv in H2
    as (d2 & k2 & tr2 & te2 & _ & _ & _ & _ & _ & _ & _ & _ & _ & _ & _ & _
        & Evs & Etes & _).
  rewrite Ets, Evs, Etes. cbn [transform fst snd default_modes].
  do 3 (split; [done|]). split.
  - intros a b ->. by split.
  - intros ->. by repeat split.
Qed.

Lemma split_transforms_witness :
  transform (mkDataset "train" 1%nat (custom 1) sample_config)
    = chosen_transform "train"
        (fst (default (None, None) (Some (Some (custom 1), Some (custom 2)))))
  /\ transform (mkDataset "eval" 3%nat (custom 1) sample_config)
     = chosen_transform "eval"
         (fst (default (None, None) (Some (Some (custom 1), Some (custom 2)))))
  /\ transform (mkDataset "eval" 4%nat (custom 2) sample_config)
     = chosen_transform "eval"
         (snd (default (None, None) (Some (Some (custom 1), Some (custom 2)))))
  /\ (forall a b,
        Some (Some (custom 1), Some (custom 2)) = Some (Some a, b) ->
        transform (mkDataset "eval" 3%nat (custom 1) sample_config) = a
        /\ transform (mkDataset "train" 1%nat (custom 1) sample_config) = a)
  /\ (Some (Some (custom 1), Some (custom 2)) = None ->
        transform (mkDataset "train" 1%nat (custom 1) sample_config)
          = TRAIN_TRANSFORM
        /\ transform (mkDataset "eval" 3%nat (custom 1) sample_config)
           = EVAL_TRANSFORM
        /\ transform (mkDataset "eval" 4%nat (custom 2) sample_config)
           = EVAL_TRANSFORM).
Proof.
  apply (split_transforms reversed (sole (labelled_frame 10)) 0%nat
           (F64.lit 7 10, F64.lit 15 100) sample_config
           (Some (Some (custom 1), Some (custom 2)))
           (mkDataset "train" 1%nat (custom 1) sample_config)
           (mkDataset "eval" 3%nat (custom 1) sample_config)
           (mkDataset "eval" 4%nat (custom 2) sample_config)
           (<[4%nat := after_init "eval"
                         (take_rows [7; 8]%nat (labelled_frame 10))]>
              (<[3%nat := after_init "eval"
                            (take_rows [9]%nat (labelled_frame 10))]>
                 ten_rows_split_store))).
  vm_compute. reflexivity.
Defined.

Section SplitOutcome.

Variable permutation : Z -> nat -> list nat.
Hypothesis permutation_shuffles : forall n, permutation SEED n ≡ₚ seq 0 n.

Lemma train_test_split_size_error σ frame d r cfg tf modes e :
  σ !! frame = Some d ->
  F64.ltb r F64.one = true ->
  train_set_size (nrows d) r = inl e ->
  train_test_split permutation frame r cfg tf modes σ = inl e.
Proof.
  intros Hd Hlt Hk. unfold train_test_split, bind at 1, lift at 1, py_assert.
  rewrite Hlt. cbn beta iota delta [ok]. unfold bind at 1, deref. rewrite Hd.
  cbn beta iota delta [ok]. unfold bind at 1, lift at 1. by rewrite Hk.
Qed.

Lemma train_test_split_size_invalid σ frame d r cfg tf modes k :
  σ !! frame = Some d ->
  F64.ltb r F64.one = true ->
  train_set_size (nrows d) r = ok k ->
  (k >=? Z.of_nat (nrows d)) || (k <=? 0) = true ->
  train_test_split permutation frame r cfg tf modes σ = raise ValueError Sklearn.
Proof.
  intros Hd Hlt Hk Hbad.
  unfold train_test_split, bind at 1, lift at 1, py_assert.
  rewrite Hlt. cbn beta iota delta [ok]. unfold bind at 1, deref. rewrite Hd.
  cbn beta iota delta [ok]. unfold bind at 1, lift at 1. rewrite Hk.
  cbn beta iota delta [ok]. unfold bind at 1, lift at 1.
  unfold sk_train_test_split, validate_shuffle_split. by rewrite Hbad.
Qed.

(** One split, by the numbers: the exception [part_size] gives, or two new
    datasets of [k] and [n - k] rows. *)
Lemma train_test_split_runs σ frame d r cfg tf modes :
  σ !! frame = Some d ->
  accepts (fst modes) d = true ->
  accepts (snd modes) d = true ->
  match part_size (nrows d) r with
  | inl e => train_test_split permutation frame r cfg tf modes σ = inl e
  | inr k =>
      0 < k < Z.of_nat (nrows d)
      /\ exists tr te l1 l2,
           length tr = Z.to_nat k
           /\ length te = (nrows d - Z.to_nat k)%nat
           /\ in_range (nrows d) tr /\ in_range (nrows d) te
           /\ σ !! l1 = None /\ σ !! l2 = None /\ l1 <> l2
           /\ train_test_split permutation frame r cfg tf modes σ =
                ok ((mkDataset (fst modes) l1
                       (chosen_transform (fst modes)
                          (fst (default (None, None) tf))) cfg,
                     mkDataset (snd modes) l2
                       (chosen_transform (snd modes)
                          (snd (default (None, None) tf))) cfg),
                    <[l2 := after_init (snd modes) (take_rows te d)]>
                      (<[l1 := after_init (fst modes) (take_rows tr d)]> σ))
  end.
Proof.
  intros Hd Ha1 Ha2. unfold part_size, rbind, py_assert.
  destruct (F64.ltb r F64.one) eqn:Hlt.
  2:{ by apply train_test_split_assert_fails. }
  cbn beta iota delta [ok].
  destruct (train_set_size (nrows d) r) as [e|k] eqn:Hk.
  { by eapply train_test_split_size_error. }
  destruct ((k >=? Z.of_nat (nrows d)) || (k <=? 0)) eqn:Hbad.
  { by eapply train_test_split_size_invalid. }
  apply orb_false_elim in Hbad as [H1 H2].
  assert (0 < k < Z.of_nat (nrows d)) as Hkr by lia.
  split; [done|].
  destruct (train_test_split_ok permutation σ frame d r cfg tf modes k)
    as (tr & te & l1 & l2 & Hp & Htr & Hte & Hl1 & Hl2 & Hne & Hrun); try done.
  assert (in_range (nrows d) (tr ++ te)) as Hr.
  { eapply in_range_Permutation; [symmetry; exact Hp|apply in_range_seq]. }
  apply in_range_app in Hr as [Hr1 Hr2].
  by exists tr, te, l1, l2.
Qed.

(** All of [split], by the numbers. *)
Lemma split_runs σ frame d rs cfg tf :
  σ !! frame = Some d ->
  accepts "train" d = true ->
  match three_way_sizes (nrows d) rs with
  | inl e => split permutation frame rs cfg tf σ = inl e
  | inr sizes =>
      exists res,
        split permutation frame rs cfg tf σ = ok res
        /\ split_sizes (ok res) = ok sizes
  end.
Proof.
  intros Hd Hacc. rewrite split_unfold. unfold three_way_sizes, rbind.
  destruct (py_assert _) as [e|[]]; [done|].
  pose proof (train_test_split_runs σ frame d (fst rs) cfg tf default_modes
                Hd Hacc Hacc) as H1.
  destruct (part_size (nrows d) rs.1) as [e|k0]; [by rewrite H1|].
  destruct H1 as (Hk0 & tr & te & l1 & l2 & Htr & Hte & Hr1 & Hr2
                  & Hl1 & Hl2 & Hne & ->).
  cbn [default_modes fst snd].
  set (T := after_init "train" (take_rows tr d)).
  set (E := after_init "eval" (take_rows te d)).
  set (σ1 := <[l2 := E]> (<[l1 := T]> σ)).
  destruct (valid_set_ratio rs) as [e|v]; [done|].
  cbn beta iota delta [ok df].
  assert (nrows E = (nrows d - Z.to_nat k0)%nat) as HnE.
  { subst E. by rewrite nrows_after_init, nrows_take_rows. }
  assert (accepts "eval" E = true) as HaccE.
  { subst E. apply accepts_after_init. by rewrite accepts_take_rows. }
  assert (σ1 !! l2 = Some E) as HE by (subst σ1; apply lookup_insert_eq).
  pose proof (train_test_split_runs σ1 l2 E v cfg tf ("eval", "eval")
                HE HaccE HaccE) as H2.
  rewrite HnE in H2.
  destruct (part_size (nrows d - Z.to_nat k0) v) as [e|k1]; [by rewrite H2|].
  destruct H2 as (Hk1 & tr2 & te2 & l3 & l4 & Htr2 & Hte2 & Hr3 & Hr4
                  & Hl3 & Hl4 & Hne2 & ->).
  cbn [fst snd].
  assert (l1 <> l3 /\ l1 <> l4) as [Hl13 Hl14].
  { split; intros <-; subst σ1.
    - rewrite lookup_insert_ne, lookup_insert_eq in Hl3 by done. done.
    - rewrite lookup_insert_ne, lookup_insert_eq in Hl4 by done. done. }
  eexists. split; [reflexivity|].
  assert (nrows (after_init "eval" (take_rows tr2 E)) = Z.to_nat k1) as Hn3.
  { rewrite nrows_after_init, nrows_take_rows; [done|by rewrite HnE]. }
  assert (nrows (after_init "eval" (take_rows te2 E))
          = (nrows d - Z.to_nat k0 - Z.to_nat k1)%nat) as Hn4.
  { rewrite nrows_after_init, nrows_take_rows; [done|by rewrite HnE]. }
  assert (nrows T = Z.to_nat k0) as Hn1.
  { subst T. by rewrite nrows_after_init, nrows_take_rows. }
  unfold split_sizes, Dataset_len, bind, deref, ret, rbind.
  cbn beta iota delta [ok df].
  rewrite !(lookup_insert_ne _ _ l1) by done.
  subst σ1. rewrite (lookup_insert_ne _ l2 l1), lookup_insert_eq by done.
  cbn beta iota delta [ok].
  rewrite (lookup_insert_ne _ l4 l3), lookup_insert_eq by done.
  cbn beta iota delta [ok].
  rewrite lookup_insert_eq. cbn beta iota delta [ok].
  rewrite Hn1, Hn3, Hn4.
  repeat f_equal; lia.
Qed.

End SplitOutcome.

Lemma part_size_ok n r k :
  part_size n r = ok k -> 0 < k < Z.of_nat n.
Proof.
  unfold part_size, rbind.
  destruct (py_assert _) as [e|[]]; [done|].
  destruct (train_set_size n r) as [e|k']; [done|].
  destruct ((k' >=? Z.of_nat n) || (k' <=? 0)) eqn:E; [done|].
  intros [= <-]. apply orb_false_elim in E. lia.
Qed.

Lemma three_way_sizes_ok n rs a b c :
  three_way_sizes n rs = ok (a, b, c) ->
  1 <= a /\ 1 <= b /\ 1 <= c /\ a + b + c = Z.of_nat n.
Proof.
  unfold three_way_sizes, rbind.
  destruct (py_assert _) as [e|[]]; [done|].
  destruct (part_size n rs.1) as [e|k0] eqn:E0; [done|].
  destruct (valid_set_ratio rs) as [e|v]; [done|].
  destruct (part_size (n - Z.to_nat k0) v) as [e|k1] eqn:E1; [done|].
  intros [= <- <- <-].
  apply part_size_ok in E0, E1. lia.
Qed.

(** X7. For a dataframe the constructor accepts, the numbers decide what
    [split] does: whether it returns, which exception it raises when it does
    not, and how many rows each of the three datasets has when it does, are
    functions of the number of rows and the two ratios alone, whatever the
    rows hold, however the library shuffles them, and whatever the config
    and the transforms are. *)
Theorem split_sizes_by_numbers
    (permutation : Z -> nat -> list nat) σ frame d rs cfg tf :
  (forall n, permutation SEED n ≡ₚ seq 0 n) ->
  σ !! frame = Some d ->
  accepts "train" d = true ->
  split_sizes (split permutation frame rs cfg tf σ)
    = three_way_sizes (nrows d) rs.
Proof.
  intros Hperm Hd Hacc.
  pose proof (split_runs permutation Hperm σ frame d rs cfg tf Hd Hacc) as H.
  destruct (three_way_sizes (nrows d) rs) as [e|sizes].
  - by rewrite H.
  - destruct H as (res & -> & H). exact H.
Qed.

Lemma split_sizes_by_numbers_witness :
  split_sizes (split reversed 0%nat do_py_ratios sample_config None
                 (sole (labelled_frame 10)))
    = three_way_sizes 10 do_py_ratios.
Proof.
  apply (split_sizes_by_numbers reversed (sole (labelled_frame 10)) 0%nat
           (labelled_frame 10) do_py_ratios sample_config None).
  - intros n. apply reversed_Permutation.
  - reflexivity.
  - reflexivity.
Defined.

(** X8. Whenever [split] returns, none of the three datasets is empty, and
    their numbers of rows add up to the number of rows of the dataframe: the
    library refuses a part of size 0, so there is no way to ask for a split
    without a test part, not even with ratios that sum to 1. *)
Theorem split_parts_nonempty
    (permutation : Z -> nat -> list nat) σ frame d rs cfg tf res :
  (forall n, permutation SEED n ≡ₚ seq 0 n) ->
  σ !! frame = Some d ->
  split permutation frame rs cfg tf σ = ok res ->
  exists a b c,
    split_sizes (ok res) = ok (a, b, c)
    /\ 1 <= a /\ 1 <= b /\ 1 <= c
    /\ a + b + c = Z.of_nat (nrows d).
Proof.
  intros Hperm Hd H.
  assert (accepts "train" d = true) as Hacc.
  { destruct res as [[[train_set valid_set] test_set] σ'].
    apply split_inv in H as (eval_set & σ1 & v & _ & H1 & _).
    apply train_test_split_inv in H1
      as (d' & k & tr & te & Hd' & _ & _ & _ & _ & _ & _ & Ha & _).
    rewrite Hd in Hd'. by injection Hd' as <-. }
  pose proof (split_runs permutation Hperm σ frame d rs cfg tf Hd Hacc) as Hrun.
  destruct (three_way_sizes (nrows d) rs) as [e|[[a b] c]] eqn:E.
  - rewrite H in Hrun. done.
  - destruct Hrun as (res' & Hres & Hsizes).
    rewrite H in Hres. injection Hres as <-.
    exists a, b, c. split; [done|]. by apply three_way_sizes_ok in E.
Qed.

Lemma split_parts_nonempty_witness :
  exists a b c,
    split_sizes (ok ((train_dataset_at 1%nat, ten_rows_valid_set,
                      ten_rows_test_set), ten_rows_three_way_store))
      = ok (a, b, c)
    /\ 1 <= a /\ 1 <= b /\ 1 <= c
    /\ a + b + c = Z.of_nat (nrows (labelled_frame 10)).
Proof.
  apply (split_parts_nonempty reversed (sole (labelled_frame 10)) 0%nat
           (labelled_frame 10) do_py_ratios sample_config None).
  - intros n. apply reversed_Permutation.
  - reflexivity.
  - vm_compute. reflexivity.
Defined.

(** ** The loader of a dataset *)

Lemma data_loader_not_train ds σ :
  mode ds <> "train" ->
  data_loader ds σ
  = lift (configured_loader (config ds) ds
            (if bool_decide (mode ds = "inference") then "eval" else mode ds)
            false) σ.
Proof.
  intros Hm. unfold data_loader, configured_loader, torch_DataLoader.
  rewrite (bool_decide_eq_false_2 _ Hm).
  unfold bind at 1, lift at 1.
  destruct (batch_size (config ds) !! _) as [size|]; [|done].
  cbn beta iota delta [ok]. unfold bind, lift, ret, torch_check.
  destruct (num_workers (config ds) <? 0); [done|].
  destruct (persistent_workers (config ds) && _); [done|].
  by destruct (size <=? 0).
Qed.

Lemma data_loader_train ds σ n :
  mode ds = "train" ->
  Dataset_len ds σ = ok (n, σ) ->
  0 < n ->
  data_loader ds σ = lift (configured_loader (config ds) ds "train" true) σ.
Proof.
  intros Hm Hlen Hn. unfold data_loader, configured_loader, torch_DataLoader.
  rewrite Hm. simpl bool_decide. cbv zeta.
  unfold bind at 1, lift at 1.
  destruct (batch_size (config ds) !! "train") as [size|]; [|done].
  cbn beta iota delta [ok]. unfold bind at 1, lift at 1, torch_check at 1.
  destruct (num_workers (config ds) <? 0); [done|].
  cbn beta iota delta [ok orb]. unfold bind at 1, lift at 1, torch_check at 1.
  destruct (persistent_workers (config ds) && _); [done|].
  cbn beta iota delta [ok orb]. unfold bind at 1, bind at 1. rewrite Hlen.
  cbn beta iota delta [ok]. unfold lift at 1, torch_check at 1.
  destruct (n <=? 0) eqn:E; [lia|].
  cbn beta iota delta [ok]. unfold bind, lift, ret, torch_check.
  by destruct (size <=? 0).
Qed.

Lemma data_loader_train_empty ds σ :
  mode ds = "train" ->
  Dataset_len ds σ = ok (0, σ) ->
  data_loader ds σ
  = match batch_size (config ds) !! "train" with
    | None => raise KeyError Interpreter
    | Some _ => raise ValueError Torch
    end.
Proof.
  intros Hm Hlen. unfold data_loader, torch_DataLoader.
  rewrite Hm. simpl bool_decide. cbv zeta.
  unfold bind at 1, lift at 1.
  destruct (batch_size (config ds) !! "train") as [size|]; [|done].
  cbn beta iota delta [ok]. unfold bind at 1, lift at 1, torch_check at 1.
  destruct (num_workers (config ds) <? 0); [done|].
  cbn beta iota delta [ok]. unfold bind at 1, lift at 1, torch_check at 1.
  destruct (persistent_workers (config ds) && _); [done|].
  cbn beta iota delta [ok]. unfold bind at 1, bind at 1. by rewrite Hlen.
Qed.

(** X9. The loaders of the three datasets [split] returns, made in the store
    it returns: each is what the config the split was called with says, the
    batch size read under "train" for the train dataset and under "eval" for
    the validation and test datasets; only the train loader shuffles.  There
    is no loader but a [KeyError] when the batch size is missing from the
    config, and the library's [ValueError] when the batch size is not
    positive, the number of workers negative, or persistent workers are asked
    for without a worker.  The library's refusal to shuffle an empty dataset
    never happens here, for the train dataset of a split has a row. *)
Theorem split_data_loaders
    (permutation : Z -> nat -> list nat) σ frame d rs cfg tf
    train_set valid_set test_set σ' :
  (forall n, permutation SEED n ≡ₚ seq 0 n) ->
  σ !! frame = Some d ->
  split permutation frame rs cfg tf σ
    = ok ((train_set, valid_set, test_set), σ') ->
  data_loader train_set σ'
  = lift (configured_loader cfg train_set "train" true) σ'
  /\ data_loader valid_set σ'
     = lift (configured_loader cfg valid_set "eval" false) σ'
  /\ data_loader test_set σ'
     = lift (configured_loader cfg test_set "eval" false) σ'.
Proof.
  intros Hperm Hd H.
  assert (exists a, Dataset_len train_set σ' = ok (a, σ') /\ 0 < a)
    as (a & Hlen & Ha).
  { assert (accepts "train" d = true) as Hacc.
    { pose proof H as H0.
      apply split_inv in H0 as (eval_set & σ1 & v & _ & H1 & _).
      apply train_test_split_inv in H1
        as (d' & k & tr & te & Hd' & _ & _ & _ & _ & _ & _ & Ha & _).
      rewrite Hd in Hd'. by injection Hd' as <-. }
    pose proof (split_runs permutation Hperm σ frame d rs cfg tf Hd Hacc) as Hrun.
    destruct (three_way_sizes (nrows d) rs) as [e|[[a b] c]] eqn:E.
    { rewrite H in Hrun. done. }
    destruct Hrun as (res' & Hres & Hsizes).
    rewrite H in Hres. injection Hres as <-.
    apply three_way_sizes_ok in E as (Ha & _).
    unfold split_sizes, rbind, ok in Hsizes.
    destruct (Dataset_len train_set σ') as [e|[a' σ2]] eqn:El; [done|].
    pose proof (reads_only_Dataset_len _ _ _ _ El) as ->.
    destruct (Dataset_len valid_set σ') as [e|[b' σ2]]; [done|].
    destruct (Dataset_len test_set σ') as [e|[c' σ3]]; [done|].
    injection Hsizes as -> _ _. exists a. split; [done|lia]. }
  apply split_inv in H as (eval_set & σ1 & v & _ & H1 & _ & H2).
  apply train_test_split_inv in H1
    as (d1 & k & tr & te & _ & _ & _ & _ & _ & _ & _ & _ & _ & _ & _ & _
        & Ets & _ & _).
  apply train_test_split_inv in H2
    as (d2 & k2 & tr2 & te2 & _ & _ & _ & _ & _ & _ & _ & _ & _ & _ & _ & _
        & Evs & Etes & _).
  cbn [fst snd default_modes] in Ets, Evs, Etes.
  split; [|split].
  - rewrite (data_loader_train train_set σ' a); [|by rewrite Ets|done|done].
    by rewrite Ets.
  - rewrite data_loader_not_train by (by rewrite Evs). by rewrite Evs.
  - rewrite data_loader_not_train by (by rewrite Etes). by rewrite Etes.
Qed.

Lemma split_data_loaders_witness :
  data_loader (train_dataset_at 1%nat) ten_rows_three_way_store
  = lift (configured_loader sample_config (train_dataset_at 1%nat) "train" true)
      ten_rows_three_way_store
  /\ data_loader ten_rows_valid_set ten_rows_three_way_store
     = lift (configured_loader sample_config ten_rows_valid_set "eval" false)
         ten_rows_three_way_store
  /\ data_loader ten_rows_test_set ten_rows_three_way_store
     = lift (configured_loader sample_config ten_rows_test_set "eval" false)
         ten_rows_three_way_store.
Proof.
  apply (split_data_loaders reversed (sole (labelled_frame 10)) 0%nat
           (labelled_frame 10) do_py_ratios sample_config None).
  - intros n. apply reversed_Permutation.
  - reflexivity.
  - vm_compute. reflexivity.
Defined.

(** ** The split of do.py *)

Lemma part_size_binary n r : part_size n r = part_size_Z (Z.of_nat n) r.
Proof.
  unfold part_size, part_size_Z, train_set_size, rbind.
  destruct (py_assert _) as [e|[]]; [done|].
  by destruct (py_float_of_int _).
Qed.

Lemma three_way_sizes_binary n rs :
  three_way_sizes n rs = three_way_sizes_Z (Z.of_nat n) rs.
Proof.
  unfold three_way_sizes, three_way_sizes_Z, rbind.
  destruct (py_assert _) as [e|[]]; [done|].
  rewrite <- part_size_binary.
  destruct (part_size n rs.1) as [e|k0] eqn:E0; [done|].
  apply part_size_ok in E0.
  destruct (valid_set_ratio rs) as [e|v]; [done|].
  replace (Z.of_nat n - k0) with (Z.of_nat (n - Z.to_nat k0)) by lia.
  by rewrite <- part_size_binary.
Qed.

Lemma do_py_rows_checked_from_spec count n z :
  do_py_rows_checked_from count n = true ->
  n <= z < n + Z.of_nat count ->
  do_py_rows_checked z = true.
Proof.
  revert n. induction count as [|count IH]; intros n H Hz; [lia|].
  simpl in H. apply andb_prop in H as [H1 H2].
  destruct (decide (z = n)) as [->|Hne]; [done|].
  apply (IH (n + 1)); [done|lia].
Qed.

Lemma do_py_rows_all_checked :
  do_py_rows_checked_from (Z.to_nat 10001) 0 = true.
Proof. vm_compute. reflexivity. Qed.

(** X10. Every driver of do.py splits its dataframe with the ratios
    (0.7, 0.15).  For a dataframe the constructor accepts, of at most 10000
    rows: with 7 rows or more the split returns its three datasets, and with
    fewer than 7 rows it raises the library's [ValueError], the validation
    part being [int(m * 0.4999999999999999)] of the [m] rows left, which is 0
    as long as [m] is 1 or 2.  (The bound of 10000 rows is the range the
    sizes were computed for.) *)
Theorem do_py_split_needs_seven_rows
    (permutation : Z -> nat -> list nat) σ frame d cfg :
  (forall n, permutation SEED n ≡ₚ seq 0 n) ->
  σ !! frame = Some d ->
  accepts "train" d = true ->
  Z.of_nat (nrows d) <= 10000 ->
  (7 <= Z.of_nat (nrows d) ->
   exists res, split permutation frame do_py_ratios cfg None σ = ok res)
  /\ (Z.of_nat (nrows d) < 7 ->
      split permutation frame do_py_ratios cfg None σ
      = raise ValueError Sklearn).
Proof.
  intros Hperm Hd Hacc Hn.
  pose proof (split_runs permutation Hperm σ frame d do_py_ratios cfg None
                Hd Hacc) as Hrun.
  assert (do_py_rows_checked (Z.of_nat (nrows d)) = true) as Hchk.
  { apply (do_py_rows_checked_from_spec _ 0 _ do_py_rows_all_checked). lia. }
  unfold do_py_rows_checked in Hchk.
  rewrite three_way_sizes_binary in Hrun.
  destruct (three_way_sizes_Z (Z.of_nat (nrows d)) do_py_ratios) as [e|sizes].
  - destruct e as [[] []]; try done.
    apply Z.ltb_lt in Hchk. split; [lia|by intros _].
  - apply Z.leb_le in Hchk. destruct Hrun as (res & Hres & _).
    split; [by eauto|lia].
Qed.

Lemma do_py_split_needs_seven_rows_witness :
  (7 <= Z.of_nat (nrows (labelled_frame 3)) ->
   exists res,
     split reversed 0%nat do_py_ratios sample_config None
       (sole (labelled_frame 3)) = ok res)
  /\ (Z.of_nat (nrows (labelled_frame 3)) < 7 ->
      split reversed 0%nat do_py_ratios sample_config None
        (sole (labelled_frame 3))
      = raise ValueError Sklearn).
Proof.
  apply (do_py_split_needs_seven_rows reversed (sole (labelled_frame 3))
           0%nat (labelled_frame 3) sample_config).
  - intros n. apply reversed_Permutation.
  - reflexivity.
  - reflexivity.
  - vm_compute. discriminate.
Defined.

(** ** More on one epoch of training *)

Lemma add_nan_l x : F64.add S754_nan x = S754_nan.
Proof. done. Qed.

Lemma add_nan_r x : F64.add x S754_nan = S754_nan.
Proof. by destruct x. Qed.

Lemma is_nan_true x : F64.is_nan x = true -> x = S754_nan.
Proof. by destruct x. Qed.

Lemma fold_add_nan (l : list float) acc :
  F64.is_nan acc = true \/ Exists (fun x => F64.is_nan x = true) l ->
  F64.is_nan (fold_left F64.add l acc) = true.
Proof.
  revert acc. induction l as [|x l IH]; intros acc [H|H]; simpl.
  - done.
  - by apply Exists_nil in H.
  - apply IH. left. apply is_nan_true in H as ->. by rewrite add_nan_l.
  - apply IH. apply Exists_cons in H as [H|H]; [left|by right].
    apply is_nan_true in H as ->. by rewrite add_nan_r.
Qed.

Section EpochMore.

Context {Image Tensor Torch : Type} (lib : Library Image Tensor Torch).

(** Everything a returned result tells about the call. *)
Lemma _train_epoch_result self train_dataset σ loss acc utils out σ' :
  _train_epoch lib self train_dataset σ = ok ((loss, acc, utils, out), σ') ->
  exists t dataloader batches t0 st t' n,
    model_train lib (torch self) = ok t
    /\ data_loader train_dataset σ = ok (dataloader, σ)
    /\ iterate lib dataloader t σ = ok ((batches, t0), σ)
    /\ train_loop lib (utils_config self) dataloader
         (mkEpoch F64.zero 0 false []) t0 batches σ = ok ((st, t'), σ)
    /\ Dataset_len train_dataset σ = ok (n, σ)
    /\ n <> 0 /\ σ' = σ
    /\ py_fdiv_int (running_loss st) n = ok loss
    /\ py_truediv (correct_labels st) n = ok acc
    /\ utils = mkUtils (utils_config self) t'
    /\ out = printed st.
Proof.
  unfold _train_epoch. intros H.
  apply bind_ok_inv in H as (t & σ1 & Ht & H).
  pose proof (reads_only_lift _ _ _ _ Ht) as ->.
  unfold lift in Ht. destruct (model_train lib (torch self)) as [e|t1] eqn:Et;
    [done|]. injection Ht as ->.
  apply bind_ok_inv in H as (dataloader & σ1 & Hdl & H).
  pose proof (reads_only_data_loader _ _ _ _ Hdl) as ->.
  apply bind_ok_inv in H as ([batches t0] & σ1 & Hit & H).
  pose proof (reads_only_iterate _ _ _ _ _ _ Hit) as ->.
  apply bind_ok_inv in H as ([st t'] & σ1 & Hloop & H).
  pose proof (reads_only_train_loop lib _ _ _ _ _ _ _ _ Hloop) as ->.
  apply bind_ok_inv in H as (n & σ1 & Hlen & H).
  pose proof (reads_only_Dataset_len _ _ _ _ Hlen) as ->.
  apply bind_ok_inv in H as (loss' & σ1 & Hloss & H).
  pose proof (reads_only_lift _ _ _ _ Hloss) as ->.
  unfold lift in Hloss.
  destruct (py_fdiv_int (running_loss st) n) as [e|l] eqn:El; [done|].
  injection Hloss as ->.
  apply bind_ok_inv in H as (n' & σ1 & Hlen' & H).
  rewrite Hlen in Hlen'. injection Hlen' as <- <-.
  apply bind_ok_inv in H as (acc' & σ1 & Hacc & H).
  pose proof (reads_only_lift _ _ _ _ Hacc) as ->.
  unfold lift in Hacc.
  destruct (py_truediv (correct_labels st) n) as [e|a] eqn:Ea; [done|].
  injection Hacc as ->. unfold ret in H. injection H as <- <- <- <- <-.
  exists t, dataloader, batches, t0, st, t', n.
  repeat (split; [done|]). split; [|done].
  intros ->. by rewrite py_fdiv_int_zero in El.
Qed.

(** X11. One NaN is enough: if the loss term of some batch of the epoch is
    NaN (the batch loss times the batch size), the running loss
    [_train_epoch] returns is NaN, whatever the terms of the other batches
    are, also when every later batch has a finite loss. *)
Theorem _train_epoch_nan_poisons self train_dataset σ loss acc utils out σ'
    t dataloader batches t0 terms t' :
  _train_epoch lib self train_dataset σ = ok ((loss, acc, utils, out), σ') ->
  model_train lib (torch self) = ok t ->
  data_loader train_dataset σ = ok (dataloader, σ) ->
  iterate lib dataloader t σ = ok ((batches, t0), σ) ->
  epoch_terms lib (utils_config self) dataloader t0 batches σ = ok (terms, t') ->
  Exists (fun term => term_is_nan term = true) terms ->
  F64.is_nan loss = true.
Proof.
  intros H Ht Hdl Hit Hterms Hnan.
  apply _train_epoch_result in H
    as (t1 & dataloader' & batches' & t0' & st & t'' & n & Ht' & Hdl' & Hit'
        & Hloop & _ & _ & _ & Hloss & _).
  rewrite Ht in Ht'. injection Ht' as <-.
  rewrite Hdl in Hdl'. injection Hdl' as <-.
  rewrite Hit in Hit'. injection Hit' as <- <-.
  pose proof (train_loop_terms lib (utils_config self) dataloader batches σ
                (mkEpoch F64.zero 0 false []) t0) as Hsum.
  rewrite Hterms in Hsum.
  destruct Hsum as (st' & lines & Hloop' & Hsum & _).
  rewrite Hloop in Hloop'. injection Hloop' as <- _.
  rewrite Hsum in Hloss. cbn [running_loss] in Hloss.
  assert (F64.is_nan (fold_left F64.add (fst <$> terms) F64.zero) = true) as Hn.
  { apply fold_add_nan. right. apply Exists_fmap.
    eapply Exists_impl; [exact Hnan|]. done. }
  apply is_nan_true in Hn. rewrite Hn in Hloss.
  unfold py_fdiv_int, rbind in Hloss.
  destruct (py_float_of_int n) as [e|y]; [done|].
  destruct (n =? 0); [done|]. by injection Hloss as <-.
Qed.

(** X12. What [_train_epoch] prints about NaN: the lines are "nan!",
    "no longer nan", "nan!", ... in turn, starting with "nan!", so that no
    line is printed twice in a row; and nothing is printed exactly when the
    loss term of no batch is NaN. *)
Theorem _train_epoch_lines self train_dataset σ loss acc utils out σ'
    t dataloader batches t0 terms t' :
  _train_epoch lib self train_dataset σ = ok ((loss, acc, utils, out), σ') ->
  model_train lib (torch self) = ok t ->
  data_loader train_dataset σ = ok (dataloader, σ) ->
  iterate lib dataloader t σ = ok ((batches, t0), σ) ->
  epoch_terms lib (utils_config self) dataloader t0 batches σ = ok (terms, t') ->
  alternating false out
  /\ (out = [] <-> Forall (fun term => term_is_nan term = false) terms).
Proof.
  intros H Ht Hdl Hit Hterms.
  apply _train_epoch_result in H
    as (t1 & dataloader' & batches' & t0' & st & t'' & n & Ht' & Hdl' & Hit'
        & Hloop & _ & _ & _ & _ & _ & _ & ->).
  rewrite Ht in Ht'. injection Ht' as <-.
  rewrite Hdl in Hdl'. injection Hdl' as <-.
  rewrite Hit in Hit'. injection Hit' as <- <-.
  pose proof (train_loop_terms lib (utils_config self) dataloader batches σ
                (mkEpoch F64.zero 0 false []) t0) as Hsum.
  rewrite Hterms in Hsum.
  destruct Hsum as (st' & lines & Hloop' & _ & _ & Hprinted & Halt & Hnone & _).
  rewrite Hloop in Hloop'. injection Hloop' as <- _.
  by rewrite Hprinted.
Qed.

(** X13. On a training dataset without rows [_train_epoch] never returns a
    pair: whatever the library does, the call ends in an exception. *)
Theorem _train_epoch_empty_raises self train_dataset σ :
  Dataset_len train_dataset σ = ok (0, σ) ->
  exists e, _train_epoch lib self train_dataset σ = inl e.
Proof.
  intros Hlen.
  destruct (_train_epoch lib self train_dataset σ)
    as [e|[[[[loss acc] utils] out] σ']] eqn:E; [by eauto|].
  apply _train_epoch_result in E
    as (t & dataloader & batches & t0 & st & t' & n & _ & _ & _ & _ & Hlen'
        & Hn & _).
  rewrite Hlen in Hlen'. injection Hlen' as <-. done.
Qed.

End EpochMore.

Lemma _train_epoch_nan_poisons_witness :
  F64.is_nan S754_nan = true.
Proof.
  apply (_train_epoch_nan_poisons (toy_library true) toy_utils
           (pictures_dataset "train" 1) (sole pictures_frame)
           S754_nan (F64.lit 3 4) (mkUtils default_NfnetConfig 4%nat)
           nan_epoch_lines (sole pictures_frame) 0%nat
           (pictures_loader "train" 1) [[3]; [2]; [1]; [0]]%nat 0%nat
           nan_epoch_terms 4%nat).
  - vm_compute. reflexivity.
  - reflexivity.
  - reflexivity.
  - reflexivity.
  - vm_compute. reflexivity.
  - apply Exists_cons_hd. reflexivity.
Defined.

Lemma _train_epoch_lines_witness :
  alternating false nan_epoch_lines
  /\ (nan_epoch_lines = [] <->
      Forall (fun term => term_is_nan term = false) nan_epoch_terms).
Proof.
  apply (_train_epoch_lines (toy_library true) toy_utils
           (pictures_dataset "train" 1) (sole pictures_frame)
           S754_nan (F64.lit 3 4) (mkUtils default_NfnetConfig 4%nat)
           nan_epoch_lines (sole pictures_frame) 0%nat
           (pictures_loader "train" 1) [[3]; [2]; [1]; [0]]%nat 0%nat
           nan_epoch_terms 4%nat).
  - vm_compute. reflexivity.
  - reflexivity.
  - reflexivity.
  - reflexivity.
  - vm_compute. reflexivity.
Defined.

Lemma _train_epoch_empty_raises_witness :
  exists e,
    _train_epoch (toy_library false) toy_utils (train_dataset_at 0%nat)
      (sole (int64_labels (labelled_frame 0))) = inl e.
Proof.
  apply (_train_epoch_empty_raises (toy_library false) toy_utils
           (train_dataset_at 0%nat) (sole (int64_labels (labelled_frame 0)))).
  reflexivity.
Defined.

(** ** One epoch of evaluation *)

Section EvalProperties.

Context {Image Tensor Torch : Type} (lib : Library Image Tensor Torch).

Lemma reads_only_eval_loop config dl st t batches :
  reads_only (eval_loop lib config dl st t batches).
Proof.
  revert st t. induction batches as [|batch batches IH]; intros st t; simpl.
  - apply reads_only_ret.
  - apply reads_only_bind; [apply reads_only_next_batch|]. intros [data t1].
    apply reads_only_bind; [apply reads_only_lift|]. intros [st1 t2].
    apply IH.
Qed.

Lemma eval_loop_cons config dl batch batches σ st t :
  eval_loop lib config dl st t (batch :: batches) σ
  = match next_batch lib dl batch t σ with
    | inl e => inl e
    | inr ((data, t), σ) =>
        match eval_batch lib config st t data with
        | inl e => inl e
        | inr (st, t) => eval_loop lib config dl st t batches σ
        end
    end.
Proof.
  cbn [eval_loop]. unfold bind at 1.
  destruct (next_batch lib dl batch t σ) as [e|[[data t1] σ1]]; [done|].
  unfold bind, lift. by destruct (eval_batch lib config st t1 data) as [e|[st1 t2]].
Qed.

(** The invariant of the loop: the accumulators are the sums of the terms
    of the batches run so far; an exception ends the loop. *)
Lemma eval_loop_terms config dl batches σ st t :
  match eval_terms lib config dl t batches σ with
  | inl e => eval_loop lib config dl st t batches σ = inl e
  | inr (terms, t') =>
      exists st',
        eval_loop lib config dl st t batches σ = ok ((st', t'), σ)
        /\ eval_loss st' = fold_left F64.add (fst <$> terms) (eval_loss st)
        /\ ev_correct_labels st' = ev_correct_labels st + sum_correct terms
        /\ length terms = length batches
  end.
Proof.
  revert st t. induction batches as [|batch batches IH]; intros st t.
  - simpl. exists st. unfold ret, sum_correct. simpl.
    rewrite Z.add_0_r. by repeat split.
  - rewrite eval_loop_cons. cbn [eval_terms]. unfold rbind at 1.
    destruct (next_batch lib dl batch t σ) as [e|[[data t1] σ1]] eqn:Hn; [done|].
    apply reads_only_next_batch in Hn as ->.
    unfold eval_batch, rbind.
    destruct (eval_step lib config t1 data)
      as [e|[[[[inputs targets] output] loss] t2]]; [done|].
    destruct (item lib loss) as [e|loss_item]; [done|].
    destruct (size0 lib inputs) as [e|size]; [done|].
    cbv zeta.
    destruct (argmax1 lib output) as [e|predicted]; [done|].
    destruct (count_equal lib predicted targets) as [e|correct]; [done|].
    cbn beta iota delta [ok].
    match goal with
    | |- context [eval_loop lib config dl ?s t2 batches σ] =>
        specialize (IH s t2)
    end.
    destruct (eval_terms lib config dl t2 batches σ) as [e|[terms t']];
      [done|].
    destruct IH as (st' & Hrun & Hloss & Hcorrect & Hlen).
    cbn [eval_loss ev_correct_labels] in *.
    exists st'. split; [exact Hrun|].
    split; [by rewrite Hloss|].
    split; [rewrite Hcorrect; unfold sum_correct; simpl; symmetry;
            apply Z.add_assoc|].
    by simpl; rewrite Hlen.
Qed.

(** The evaluation, once the loader is made and iterated. *)
Lemma _eval_epoch_run self eval_dataset σ t dataloader batches t0 n :
  model_eval lib (torch self) = ok t ->
  data_loader eval_dataset σ = ok (dataloader, σ) ->
  iterate lib dataloader t σ = ok ((batches, t0), σ) ->
  Dataset_len eval_dataset σ = ok (n, σ) ->
  _eval_epoch lib self eval_dataset σ
  = match eval_loop lib (utils_config self) dataloader
            (mkEval F64.zero 0) t0 batches σ with
    | inl e => inl e
    | inr ((st, t'), _) =>
        run eval_loss <- py_fdiv_int (eval_loss st) n;
        run eval_acc <- py_truediv (ev_correct_labels st) n;
        ok ((eval_loss, eval_acc, mkUtils (utils_config self) t'), σ)
    end.
Proof.
  intros Ht Hdl Hit Hlen. unfold _eval_epoch.
  unfold bind at 1, lift at 1. rewrite Ht. cbn beta iota delta [ok].
  unfold bind at 1. rewrite Hdl. cbn beta iota delta [ok].
  unfold bind at 1. rewrite Hit. cbn beta iota delta [ok].
  unfold bind at 1.
  destruct (eval_loop _ _ _ _ _ _ _) as [e|[[st t'] σ1]] eqn:Hloop; [done|].
  apply reads_only_eval_loop in Hloop as ->.
  unfold bind at 1. rewrite Hlen. cbn beta iota delta [ok].
  unfold bind at 1, lift at 1, rbind at 1.
  destruct (py_fdiv_int _ n) as [e|l]; [done|].
  cbn beta iota delta [ok]. unfold bind at 1. rewrite Hlen.
  cbn beta iota delta [ok]. unfold bind at 1, lift at 1, rbind at 1.
  by destruct (py_truediv _ n) as [e|a].
Qed.

(** X14. [_eval_epoch] on a dataset of length [n] for which the model is put
    in evaluation mode, the loader is made and its iteration starts: if
    fetching a batch (the [__getitem__] of its items and their collation) or
    a library call of a step raises, that exception is the outcome; if none
    does, then with [n = 0] the division raises [ZeroDivisionError], and
    otherwise the batches are run once, in order, and [(eval_loss, eval_acc)]
    is returned, the float sum over the batches of batch loss times batch
    size divided by [n], and the number of samples whose argmax prediction
    equals the target divided by [n] (when both quotients are
    representable); the library state is the one the last batch left, and no
    dataframe is touched. *)
Theorem _eval_epoch_returns self eval_dataset σ t dataloader batches t0 n :
  model_eval lib (torch self) = ok t ->
  data_loader eval_dataset σ = ok (dataloader, σ) ->
  iterate lib dataloader t σ = ok ((batches, t0), σ) ->
  Dataset_len eval_dataset σ = ok (n, σ) ->
  match eval_terms lib (utils_config self) dataloader t0 batches σ with
  | inl e => _eval_epoch lib self eval_dataset σ = inl e
  | inr (terms, t') =>
      length terms = length batches
      /\ (n = 0 ->
          _eval_epoch lib self eval_dataset σ
          = raise ZeroDivisionError Interpreter)
      /\ (n <> 0 ->
          forall nf eval_acc,
            py_float_of_int n = ok nf ->
            py_truediv (sum_correct terms) n = ok eval_acc ->
            _eval_epoch lib self eval_dataset σ
            = ok ((F64.div (sum_losses terms) nf, eval_acc,
                   mkUtils (utils_config self) t'), σ))
  end.
Proof.
  intros Ht Hdl Hit Hlen.
  rewrite (_eval_epoch_run self eval_dataset σ t dataloader batches t0 n)
    by done.
  pose proof (eval_loop_terms (utils_config self) dataloader batches σ
                (mkEval F64.zero 0) t0) as Hloop.
  destruct (eval_terms _ _ _ _ _ _) as [e|[terms t']]; [by rewrite Hloop|].
  destruct Hloop as (st & -> & Hloss & Hcorrect & Hl).
  cbn [eval_loss ev_correct_labels] in Hloss, Hcorrect.
  cbn beta iota delta [ok].
  rewrite Hloss, Hcorrect, Z.add_0_l. fold (sum_losses terms).
  split; [done|]. split.
  - intros ->. by rewrite py_fdiv_int_zero.
  - intros Hn nf eval_acc Hnf Hacc.
    unfold py_fdiv_int, rbind. rewrite Hnf, Hacc.
    by destruct (n =? 0) eqn:E; [lia|].
Qed.

End EvalProperties.

Lemma _eval_epoch_returns_witness :
  _eval_epoch (toy_library false) toy_utils (pictures_dataset "eval" 2)
    (sole pictures_frame)
  = ok ((F64.of_Z 13, F64.lit 3 4, mkUtils default_NfnetConfig 0%nat),
        sole pictures_frame).
Proof.
  pose proof (_eval_epoch_returns (toy_library false) toy_utils
                (pictures_dataset "eval" 2) (sole pictures_frame) 0%nat
                (pictures_loader "eval" 2) [[0; 1]; [2; 3]]%nat 0%nat 4
                eq_refl eq_refl eq_refl eq_refl) as H.
  vm_compute eval_terms in H.
  destruct H as (_ & _ & H).
  apply (H ltac:(lia) (F64.of_Z 4) (F64.lit 3 4)); reflexivity.
Defined.

(** ** Errors of the constructor, and the loader of a constructed dataset *)



(** X16. The loader of a dataset the constructor returned, made in the store
    the constructor left: in mode "train" the batch size is the config's
    entry under "train" and the loader shuffles, unless the dataframe has no
    row, for then the library refuses to shuffle it with a [ValueError]; in
    the modes "eval" and "inference" the batch size is the entry under
    "eval" and the loader does not shuffle, so that an inference dataset is
    read in the order of its rows.  Without the entry there is no loader but
    a [KeyError]; a batch size that is not positive, a negative number of
    workers, and persistent workers without a worker are the library's
    [ValueError]. *)
Theorem data_loader_of_constructed σ frame d cfg m tr ds σ' :
  σ !! frame = Some d ->
  Dataset_init frame cfg m tr σ = ok (ds, σ') ->
  data_loader ds σ'
  = if bool_decide (m = "train") then
      if bool_decide (nrows d = 0%nat)
      then match batch_size cfg !! "train" with
           | None => raise KeyError Interpreter
           | Some _ => raise ValueError Torch
           end
      else lift (configured_loader cfg ds "train" true) σ'
    else lift (configured_loader cfg ds "eval" false) σ'.
Proof.
  intros Hd H. apply Dataset_init_result in H as (d' & Hd' & Hacc & -> & ->).
  rewrite Hd in Hd'. injection Hd' as <-.
  unfold accepts in Hacc. apply andb_prop in Hacc as [Hacc _].
  apply andb_prop in Hacc as [Hm _].
  assert (Dataset_len (mkDataset m frame (chosen_transform m tr) cfg)
            (<[frame := after_init m d]> σ)
          = ok (Z.of_nat (nrows d), <[frame := after_init m d]> σ)) as Hlen.
  { unfold Dataset_len, bind, deref, ret. cbn [df].
    rewrite lookup_insert_eq. cbn beta iota delta [ok].
    by rewrite nrows_after_init. }
  destruct (bool_decide (m = "train")) eqn:E1.
  - apply bool_decide_eq_true in E1 as ->.
    destruct (bool_decide (nrows d = 0%nat)) eqn:E0.
    + apply bool_decide_eq_true in E0. rewrite E0 in Hlen.
      by rewrite data_loader_train_empty.
    + apply bool_decide_eq_false in E0.
      rewrite (data_loader_train _ _ (Z.of_nat (nrows d))); [done|done|done|lia].
  - apply bool_decide_eq_false in E1.
    rewrite data_loader_not_train by done. cbn [mode config].
    unfold known_mode in Hm. rewrite (bool_decide_eq_false_2 _ E1) in Hm.
    destruct (bool_decide (m = "eval")) eqn:E2.
    + by apply bool_decide_eq_true in E2 as ->.
    + destruct (bool_decide (m = "inference")) eqn:E3; [done|done].
Qed.

Lemma data_loader_of_constructed_witness :
  data_loader (train_dataset_at 0%nat) (sole (int64_labels (labelled_frame 0)))
  = if bool_decide ("train" = "train") then
      if bool_decide (nrows (labelled_frame 0) = 0%nat)
      then match batch_size sample_config !! "train" with
           | None => raise KeyError Interpreter
           | Some _ => raise ValueError Torch
           end
      else lift (configured_loader sample_config (train_dataset_at 0%nat)
                   "train" true)
             (sole (int64_labels (labelled_frame 0)))
    else lift (configured_loader sample_config (train_dataset_at 0%nat)
                 "eval" false)
           (sole (int64_labels (labelled_frame 0))).
Proof.
  apply (data_loader_of_constructed (sole (labelled_frame 0)) 0%nat
           (labelled_frame 0) sample_config "train" None).
  - reflexivity.
  - reflexivity.
Defined.

(** ** The items of a dataset *)

Lemma row_cells_length d (j : nat) :
  columns_ok d -> (j < nrows d)%nat ->
  length (row_cells d j) = length (df_order d).
Proof.
  unfold columns_ok, row_cells. intros Hok Hj.
  induction Hok as [|name names (s & Hs & Hlen) _ IH]; [done|].
  csimpl. rewrite Hs. csimpl.
  destruct (lookup_lt_is_Some_2 (s_values s) j) as [c Hc]; [lia|].
  rewrite Hc. csimpl. by rewrite IH.
Qed.

Lemma iloc_position_in d index :
  0 <= index < Z.of_nat (nrows d) ->
  iloc_position d index = ok (Z.to_nat index).
Proof.
  intros H. unfold iloc_position. cbv zeta.
  destruct (index <? 0) eqn:E1; [lia|].
  destruct (index <? 0) eqn:E2; [lia|].
  by destruct (Z.of_nat (nrows d) <=? index) eqn:E3; [lia|].
Qed.

Lemma iloc_position_out d index :
  Z.of_nat (nrows d) <= index ->
  iloc_position d index = raise IndexError Pandas.
Proof.
  intros H. unfold iloc_position. cbv zeta.
  destruct (index <? 0) eqn:E1; [lia|].
  destruct (index <? 0) eqn:E2; [lia|].
  by destruct (Z.of_nat (nrows d) <=? index) eqn:E3; [|lia].
Qed.

Lemma unpack2_length {A} (values : list A) :
  length values <> 2%nat -> unpack2 values = raise ValueError Interpreter.
Proof. by destruct values as [|a [|b [|c values]]]. Qed.

Section GetItem.

Context {Image Tensor Torch : Type} (lib : Library Image Tensor Torch).

(** [__getitem__] in the modes "train" and "eval", step by step. *)
Lemma Dataset_getitem_labelled self σ d index t :
  σ !! df self = Some d ->
  mode self <> "inference" ->
  Dataset_getitem lib self index t σ
  = match iloc_position d index with
    | inl e => inl e
    | inr j =>
        match unpack2 (row_cells d j) with
        | inl e => inl e
        | inr (imgpath, label) =>
            match Image_open_RGB lib imgpath with
            | inl e => inl e
            | inr img =>
                match apply_transform lib (transform self) img t with
                | inl e => inl e
                | inr (img, t) => ok (((img, label), t), σ)
                end
            end
        end
    end.
Proof.
  intros Hd Hm. unfold Dataset_getitem, bind at 1, deref. rewrite Hd.
  cbn beta iota delta [ok]. rewrite (bool_decide_eq_false_2 _ Hm).
  cbn [negb]. unfold bind at 1, lift at 1, rbind.
  destruct (iloc_position d index) as [e|j]; [done|].
  destruct (unpack2 (row_cells d j)) as [e|[imgpath label]]; [done|].
  cbn beta iota delta [ok]. unfold bind at 1, lift at 1.
  destruct (Image_open_RGB lib imgpath) as [e|img]; [done|].
  cbn beta iota delta [ok]. unfold bind at 1, lift at 1.
  by destruct (apply_transform lib (transform self) img t) as [e|[x t']].
Qed.

(** X17. [Dataset.__getitem__] in the modes "train" and "eval" goes by the
    position of the columns, not by their names: for an index that is a row,
    a dataframe whose number of columns is not two raises the interpreter's
    [ValueError] (the row does not unpack into two names), whatever the
    columns are called; with two columns the cell of the first one is what
    is opened as the image file and the cell of the second one is returned
    as the label, an exception of opening or transforming the image being
    the outcome; and an index past the last row raises the library's
    [IndexError]. *)
Theorem Dataset_getitem_by_position self σ d index t :
  σ !! df self = Some d ->
  mode self <> "inference" ->
  columns_ok d ->
  (0 <= index < Z.of_nat (nrows d) ->
   (length (df_order d) <> 2%nat ->
    Dataset_getitem lib self index t σ = raise ValueError Interpreter)
   /\ (forall first second s1 s2 imgpath label,
         df_order d = [first; second] ->
         df_columns d !! first = Some s1 ->
         df_columns d !! second = Some s2 ->
         s_values s1 !! Z.to_nat index = Some imgpath ->
         s_values s2 !! Z.to_nat index = Some label ->
         Dataset_getitem lib self index t σ
         = match Image_open_RGB lib imgpath with
           | inl e => inl e
           | inr img =>
               match apply_transform lib (transform self) img t with
               | inl e => inl e
               | inr (img, t) => ok (((img, label), t), σ)
               end
           end))
  /\ (Z.of_nat (nrows d) <= index ->
      Dataset_getitem lib self index t σ = raise IndexError Pandas).
Proof.
  intros Hd Hm Hok.
  rewrite (Dataset_getitem_labelled self σ d) by done.
  split.
  - intros Hin. rewrite iloc_position_in by done.
    cbn beta iota delta [ok]. split.
    + intros Hlen. rewrite unpack2_length; [done|].
      rewrite row_cells_length; [done|done|lia].
    + intros first second s1 s2 imgpath label Horder H1 H2 Hi Hl.
      unfold row_cells. rewrite Horder. csimpl.
      rewrite H1, H2. csimpl. by rewrite Hi, Hl.
  - intros Hout. by rewrite iloc_position_out.
Qed.

End GetItem.

Lemma Dataset_getitem_by_position_witness :
  Dataset_getitem (toy_library false)
    (mkDataset "train" 0%nat TRAIN_TRANSFORM sample_config) 0 0%nat
    (sole three_columns_frame)
  = raise ValueError Interpreter.
Proof.
  destruct (Dataset_getitem_by_position (toy_library false)
              (mkDataset "train" 0%nat TRAIN_TRANSFORM sample_config)
              (sole three_columns_frame) three_columns_frame 0 0%nat)
    as [H _].
  - reflexivity.
  - discriminate.
  - repeat constructor; eexists; split; reflexivity.
  - destruct H as [H _]; [vm_compute; split; [discriminate|reflexivity]|].
    apply H. vm_compute. discriminate.
Defined.

Lemma batch_sampler_first size batch idx sampler :
  Z.of_nat (length batch) < size ->
  exists more rest,
    batch_sampler size batch (idx :: sampler) = (batch ++ idx :: more) :: rest.
Proof.
  revert batch idx. induction sampler as [|idx' sampler IH]; intros batch idx H.
  - cbn [batch_sampler].
    destruct (Z.of_nat (length (batch ++ [idx])) =? size); [by exists [], []|].
    exists [], []. by destruct batch.
  - cbn [batch_sampler] in *.
    destruct (Z.of_nat (length (batch ++ [idx])) =? size) eqn:E;
      [by exists [], (batch_sampler size [] (idx' :: sampler))|].
    destruct (IH (batch ++ [idx]) idx') as (more & rest & Hrun).
    { apply Z.eqb_neq in E. rewrite length_app in *. simpl in *. lia. }
    exists (idx' :: more), rest. by rewrite Hrun, <- app_assoc.
Qed.

Lemma df_order_after_init m d : df_order (after_init m d) = df_order d.
Proof.
  unfold after_init, int64_labels. destruct (bool_decide _); [done|].
  destruct (df_columns d !! "label") as [s|] eqn:E; [|done].
  unfold set_column; simpl. by rewrite E.
Qed.

Lemma columns_ok_after_init m d : columns_ok d -> columns_ok (after_init m d).
Proof.
  unfold columns_ok. rewrite df_order_after_init, nrows_after_init.
  unfold after_init, int64_labels. destruct (bool_decide _); [done|].
  destruct (df_columns d !! "label") as [s|] eqn:E; [|done].
  intros H. eapply Forall_impl; [exact H|]. intros name (s' & Hs & Hlen).
  unfold set_column; simpl.
  destruct (decide (name = "label")) as [->|Hne].
  - rewrite lookup_insert_eq. eexists. split; [done|].
    rewrite E in Hs. injection Hs as <-.
    unfold astype_int64; simpl. by rewrite length_fmap.
  - rewrite lookup_insert_ne by done. by exists s'.
Qed.

Section EvalColumns.

Context {Image Tensor Torch : Type} (lib : Library Image Tensor Torch).

(** X18. A dataframe with a column besides "img" and "label" is accepted by
    the constructor, which only looks for these two, but cannot be
    evaluated: for a dataset of mode "eval" constructed on a dataframe that
    has a row and whose number of columns is not two, [_eval_epoch] raises
    the [ValueError] of the first [__getitem__], whatever the libraries do,
    once the model is in evaluation mode and the loader is made. *)
Theorem _eval_epoch_needs_two_columns self σ frame d cfg tr ds σ' t dataloader :
  σ !! frame = Some d ->
  Dataset_init frame cfg "eval" tr σ = ok (ds, σ') ->
  columns_ok d ->
  length (df_order d) <> 2%nat ->
  (0 < nrows d)%nat ->
  model_eval lib (torch self) = ok t ->
  configured_loader cfg ds "eval" false = ok dataloader ->
  _eval_epoch lib self ds σ' = raise ValueError Interpreter.
Proof.
  intros Hd Hinit Hok Hcols Hrows Ht Hdl.
  apply Dataset_init_result in Hinit as (d' & Hd' & _ & -> & ->).
  rewrite Hd in Hd'. injection Hd' as <-.
  set (ds := mkDataset "eval" frame (chosen_transform "eval" tr) cfg) in *.
  set (σ' := <[frame := after_init "eval" d]> σ).
  assert (σ' !! df ds = Some (after_init "eval" d)) as Hframe
    by apply lookup_insert_eq.
  unfold _eval_epoch, bind at 1, lift at 1. rewrite Ht.
  cbn beta iota delta [ok]. unfold bind at 1.
  rewrite data_loader_not_train by done. cbn [mode config ds].
  simpl bool_decide. cbv iota. fold ds. unfold lift at 1. rewrite Hdl.
  cbn beta iota delta [ok]. unfold bind at 1.
  assert (dl_dataset dataloader = ds /\ dl_shuffle dataloader = false
          /\ 0 < dl_batch_size dataloader) as (Hds & Hshuffle & Hsize).
  { unfold configured_loader in Hdl.
    destruct (batch_size cfg !! "eval") as [size|]; [|done].
    destruct (_ || _) eqn:E; [done|]. injection Hdl as <-.
    apply orb_false_elim in E as [_ E]. cbn. by repeat split; [lia]. }
  unfold iterate, bind at 1, Dataset_len, bind at 1, deref.
  rewrite Hds, Hframe. cbn beta iota delta [ok ret].
  rewrite Hshuffle. unfold bind at 1, lift at 1. cbn beta iota delta [ok ret].
  rewrite nrows_after_init, Nat2Z.id.
  destruct (nrows d) as [|n] eqn:En; [lia|].
  cbn [seq].
  destruct (batch_sampler_first (dl_batch_size dataloader) [] 0%nat (seq 1 n))
    as (more & rest & ->); [simpl; lia|].
  cbn [app]. unfold bind at 1. rewrite eval_loop_cons.
  unfold next_batch, bind at 1. rewrite Hds. cbn [fetch]. unfold bind at 1.
  rewrite (Dataset_getitem_labelled lib ds σ' (after_init "eval" d))
    by done.
  rewrite iloc_position_in by (rewrite nrows_after_init; lia).
  cbn beta iota delta [ok].
  rewrite unpack2_length; [done|].
  rewrite row_cells_length;
    [by rewrite df_order_after_init|by apply columns_ok_after_init|].
  rewrite nrows_after_init. simpl. lia.
Qed.

End EvalColumns.

Lemma _eval_epoch_needs_two_columns_witness :
  _eval_epoch (toy_library false) toy_utils
    (mkDataset "eval" 0%nat EVAL_TRANSFORM sample_config)
    (sole three_columns_frame)
  = raise ValueError Interpreter.
Proof.
  apply (_eval_epoch_needs_two_columns (toy_library false) toy_utils
           (sole three_columns_frame) 0%nat three_columns_frame sample_config
           None (mkDataset "eval" 0%nat EVAL_TRANSFORM sample_config)
           (sole three_columns_frame) 0%nat
           (mkDataLoader (mkDataset "eval" 0%nat EVAL_TRANSFORM sample_config)
              16 false 4 false false)).
  - reflexivity.
  - vm_compute. reflexivity.
  - repeat constructor; eexists; split; reflexivity.
  - vm_compute. discriminate.
  - vm_compute. lia.
  - reflexivity.
  - reflexivity.
Defined.
